(** * early-project-poster: the pipeline of [src/main.py] and [src/modules]

    A shallow embedding of the four stages of the bot
    (scraper, summarizer, formatter, publisher), of the configuration
    check and of the run that chains them, and the properties the
    specification states about them.

    Part I holds the definitions, Part II the lemmas and theorems,
    Part III further properties read off the code: errors and edge
    cases, what is sent and how often, and the run as a whole. *)

From Stdlib Require Import String Ascii ZArith List Lia Bool DecimalString.
From Stdlib Require Import Permutation Sorted Floats.
From stdpp Require Import base option list gmap strings.

Open Scope string_scope.

(* ################################################################# *)
(** * Part I: definitions *)

(* ================================================================= *)
(** ** Python built-ins used by the sources

    A [str] is modelled as a [string] whose characters are the code
    points 0..255; [isspace] is [str.isspace] on that range. *)

Module Py.

Definition nl : string := String (ascii_of_nat 10) EmptyString.
Definition dquote : ascii := ascii_of_nat 34.
Definition squote : ascii := ascii_of_nat 39.

(** [bool(s)] for a string. *)
Definition truthy (s : string) : bool :=
  match s with EmptyString => false | String _ _ => true end.

Definition isspace (c : ascii) : bool :=
  let n := nat_of_ascii c in
  (Nat.leb 9 n && Nat.leb n 13) || (Nat.leb 28 n && Nat.leb n 32)
  || Nat.eqb n 133 || Nat.eqb n 160.

Fixpoint lstrip_by (p : ascii -> bool) (s : string) : string :=
  match s with
  | EmptyString => EmptyString
  | String c s' => if p c then lstrip_by p s' else s
  end.

Fixpoint rstrip_by (p : ascii -> bool) (s : string) : string :=
  match s with
  | EmptyString => EmptyString
  | String c s' =>
      match rstrip_by p s' with
      | EmptyString => if p c then EmptyString else String c EmptyString
      | r => String c r
      end
  end.

(** [s.strip()] *)
Definition strip (s : string) : string :=
  rstrip_by isspace (lstrip_by isspace s).

(** A string that is empty or made of whitespace only. *)
Definition blank (s : string) : Prop :=
  forallb isspace (list_ascii_of_string s) = true.

Definition one_of (chars : list ascii) (c : ascii) : bool :=
  existsb (Ascii.eqb c) chars.

(** [s.strip(chars)] *)
Definition strip_chars (chars : list ascii) (s : string) : string :=
  rstrip_by (one_of chars) (lstrip_by (one_of chars) s).

(** [s.split()]: the maximal runs of non-whitespace characters. *)
Fixpoint words_from (cur : string) (s : string) : list string :=
  match s with
  | EmptyString => if truthy cur then [cur] else []
  | String c s' =>
      if isspace c
      then (if truthy cur then cur :: words_from EmptyString s'
            else words_from EmptyString s')
      else words_from (cur ++ String c EmptyString) s'
  end.

Definition split (s : string) : list string := words_from EmptyString s.

(** [s.split(sep)] for a one-character separator: empty fields are kept. *)
Fixpoint fields_from (sep : ascii) (cur : string) (s : string) : list string :=
  match s with
  | EmptyString => [cur]
  | String c s' =>
      if Ascii.eqb c sep then cur :: fields_from sep EmptyString s'
      else fields_from sep (cur ++ String c EmptyString) s'
  end.

Definition split_on (sep : ascii) (s : string) : list string :=
  fields_from sep EmptyString s.

(** [s.startswith(prefix)] *)
Definition startswith (s prefix : string) : bool := String.prefix prefix s.

(** [s[n:]] for [0 <= n] *)
Fixpoint drop_chars (n : nat) (s : string) : string :=
  match n, s with
  | O, _ => s
  | S n', String _ s' => drop_chars n' s'
  | S _, EmptyString => EmptyString
  end.

(** [sep.join(l)] *)
Definition join (sep : string) (l : list string) : string := String.concat sep l.

(** [l[:k]]: a negative [k] counts from the end. *)
Definition slice_to {A : Type} (l : list A) (k : Z) : list A :=
  if (0 <=? k)%Z then take (Z.to_nat k) l
  else take (length l - Z.to_nat (- k)) l.

(** [str(n)] for integers. *)
Definition str_of_Z (z : Z) : string := NilZero.string_of_int (Z.to_int z).
Definition str_of_nat (n : nat) : string := NilZero.string_of_uint (Nat.to_uint n).

(** [needle in s] for strings. *)
Fixpoint contains (s needle : string) : bool :=
  String.prefix needle s
  || match s with
     | EmptyString => false
     | String _ s' => contains s' needle
     end.

(** Exceptions: the classes the sources can meet, with [str(e)]. *)
Inductive exc_class :=
| RequestsTimeout      (* requests.exceptions.Timeout *)
| RequestsError        (* any other requests.exceptions.RequestException *)
| AttributeError
| TypeError
| KeyError
| IndexError
| ValueError
| OverflowError
| OtherError.          (* any other subclass of Exception *)

Record exn := Exn { exn_class : exc_class; exn_msg : string }.

Inductive outcome (A : Type) :=
| Returns (a : A)
| Raises (e : exn).
Arguments Returns {A} a.
Arguments Raises {A} e.

(** Sequencing of computations that may raise. *)
Definition and_then {A B : Type} (m : outcome A) (k : A -> outcome B) : outcome B :=
  match m with
  | Returns a => k a
  | Raises e => Raises e
  end.

(** Computations that read and write a state of type [S] and may
    raise. *)
Definition M (S A : Type) : Type := S -> outcome A * S.

Definition ret {S A : Type} (a : A) : M S A := fun st => (Returns a, st).

Definition raise {S A : Type} (e : exn) : M S A := fun st => (Raises e, st).

(** A computation that leaves the state alone. *)
Definition lift {S A : Type} (o : outcome A) : M S A := fun st => (o, st).

Definition bind {S A B : Type} (m : M S A) (k : A -> M S B) : M S B :=
  fun st =>
    match m st with
    | (Returns a, st') => k a st'
    | (Raises e, st') => (Raises e, st')
    end.

(** [try: body except Exception as e: handler] *)
Definition try_except {S A : Type} (body : M S A) (handler : exn -> M S A)
    : M S A :=
  fun st =>
    match body st with
    | (Returns a, st') => (Returns a, st')
    | (Raises e, st') => handler e st'
    end.

Declare Scope py_scope.
Delimit Scope py_scope with py.
Notation "x <- m ;; k" := (bind m (fun x => k))
  (at level 100, m at next level, right associativity) : py_scope.
Notation "m ;;; k" := (bind m (fun _ => k))
  (at level 100, right associativity) : py_scope.

(** [sorted(l, key=key)], where [lt] is [<] on keys, which may raise:
    a stable sort, equal keys keep the order they have in [l].  A
    comparison that raises ends the sort with its error. *)
Section Sorted.
Context {A K : Type} (key : A -> K) (lt : K -> K -> outcome bool).

Fixpoint insert_sorted (x : A) (l : list A) : outcome (list A) :=
  match l with
  | [] => Returns [x]
  | y :: l' =>
      and_then (lt (key y) (key x)) (fun below =>
      if below
      then and_then (insert_sorted x l') (fun l'' => Returns (y :: l''))
      else Returns (x :: y :: l'))
  end.

Fixpoint sorted (l : list A) : outcome (list A) :=
  match l with
  | [] => Returns []
  | x :: l' => and_then (sorted l') (insert_sorted x)
  end.

End Sorted.

(** The ends of a string, and strings that neither start nor end with
    a character that satisfies [p]. *)
Definition first_char (s : string) : option ascii :=
  match s with
  | EmptyString => None
  | String c _ => Some c
  end.

Fixpoint last_char (s : string) : option ascii :=
  match s with
  | EmptyString => None
  | String c EmptyString => Some c
  | String _ s' => last_char s'
  end.

Definition trimmed (p : ascii -> bool) (s : string) : Prop :=
  (forall c, first_char s = Some c -> p c = false)
  /\ (forall c, last_char s = Some c -> p c = false).

(** A word: not empty and free of whitespace. *)
Definition is_word (s : string) : Prop :=
  truthy s = true
  /\ forallb (fun c => negb (isspace c)) (list_ascii_of_string s) = true.

End Py.

(* ================================================================= *)
(** ** Records

    A project dictionary as decoded from the items endpoint, restricted
    to the keys the pipeline reads or writes.  A field is [None] when
    the key is absent from the dictionary; [d.get(k, x)] is
    [default x (k d)].  The recency is a whole number of days or JSON
    [null], which is decoded to Python's [None]. *)

Inductive jnumber :=
| Num (n : Z)
| Null.

Record project := Project {
  project_name : option string;
  handle : option string;
  description : option string;
  days_since_discovery : option jnumber;
  summary : option string
}.

Definition empty_project : project := Project None None None None None.

(** [d['summary'] = s] *)
Definition with_summary (s : string) (d : project) : project :=
  Project (project_name d) (handle d) (description d)
          (days_since_discovery d) (Some s).

(** Two dictionaries that agree on every key but ['summary']. *)
Definition same_but_summary (d d' : project) : Prop :=
  project_name d' = project_name d /\ handle d' = handle d /\
  description d' = description d /\
  days_since_discovery d' = days_since_discovery d.

(* ================================================================= *)
(** ** [src/modules/gemini_summarizer.py] *)

Module GeminiSummarizer.
Import Py.
Open Scope py_scope.

(** Project dictionaries are mutated in place: a list of projects is a
    list of references into a store of dictionaries. *)
Definition ref := nat.

(** The text-generation service.  A call either yields a response,
    whose [text] is [None] when the candidate carries no text part, or
    raises.  The reply may depend on how many calls came before, on the
    model name and on the prompt. *)
Record response := Response { text : option string }.

Inductive reply :=
| Responds (r : response)
| Fails (e : exn).

Record self := Self {
  client : nat -> string -> string -> reply;
  model_name : string
}.

Record state := State {
  calls : nat;                    (* generate_content calls so far *)
  slept : Z;                      (* seconds spent in time.sleep *)
  heap : gmap ref project
}.

Definition RATE_LIMIT_DELAY : Z := 4.

(** [self.client.models.generate_content(model=..., contents=prompt)] *)
Definition generate_content (me : self) (prompt : string) : M state response :=
  fun st =>
    let st' := State (S (calls st)) (slept st) (heap st) in
    match client me (calls st) (model_name me) prompt with
    | Responds r => (Returns r, st')
    | Fails e => (Raises e, st')
    end.

(** [response.text] used as a string: a method call on [None] raises. *)
Definition text_of (r : response) : M state string :=
  match text r with
  | Some t => ret t
  | None => raise (Exn AttributeError "'NoneType' object has no attribute 'strip'")
  end.

(** [time.sleep(seconds)] *)
Definition sleep (seconds : Z) : M state unit :=
  fun st => (Returns tt, State (calls st) (slept st + seconds) (heap st)).

(** The dictionary a reference points to. *)
Definition deref (st : state) (p : ref) : project :=
  default empty_project (heap st !! p).

Definition read (p : ref) : M state project := fun st => (Returns (deref st p), st).

(** [project['summary'] = s] *)
Definition set_summary (p : ref) (s : string) : M state unit :=
  fun st =>
    (Returns tt,
     State (calls st) (slept st) (<[p := with_summary s (deref st p)]> (heap st))).

Definition single_prompt (description : string) (max_words : Z) : string :=
  "Summarize this Web3 project description in " ++ str_of_Z max_words
  ++ " words or less." ++ nl
  ++ "Extract the key value proposition. Be concise. No quotes or explanations."
  ++ nl ++ nl
  ++ "Description: " ++ description ++ nl ++ nl
  ++ "Summary:".

(** The guard of [summarize_description]:
    [not description or len(description.strip()) < 20]. *)
Definition too_short (description : string) : bool :=
  negb (truthy description) || Nat.ltb (String.length (strip description)) 20.

(** The truncation of the [except] branch. *)
Definition truncated (description : string) (max_words : Z) : string :=
  let words := slice_to (split description) max_words in
  if (Z.of_nat (length (split description)) >? max_words)%Z
  then join " " words ++ "..."
  else description.

Definition summarize_description (me : self) (description : string)
    (max_words : Z) : M state string :=
  if too_short description then
    ret (if truthy description then strip description else EmptyString)
  else
    let prompt := single_prompt description max_words in
    try_except
      (response <- generate_content me prompt ;;
       t <- text_of response ;;
       let summary := strip t in
       let summary := strip_chars [dquote; squote] summary in
       ret summary)
      (fun e => ret (truncated description max_words)).

(** The loop of [_build_batch_prompt]; [i] is the 1-based index. *)
Fixpoint batch_prompt_lines (st : state) (i : nat) (projects : list ref)
    (prompt : string) : string :=
  match projects with
  | [] => prompt
  | p :: rest =>
      let name := default "Unknown" (project_name (deref st p)) in
      let desc := default "No description" (description (deref st p)) in
      batch_prompt_lines st (S i) rest
        (prompt ++ str_of_nat i ++ ". " ++ name ++ ": " ++ desc ++ nl)
  end.

Definition batch_prompt (st : state) (projects : list ref) (max_words : Z)
    : string :=
  let prompt :=
    "Summarize each Web3 project description below in " ++ str_of_Z max_words
    ++ " words or less." ++ nl
    ++ "Extract the key value proposition for each. Be concise." ++ nl
    ++ "Return ONLY the summaries, one per line, numbered 1-"
    ++ str_of_nat (length projects) ++ "." ++ nl ++ nl in
  let prompt := batch_prompt_lines st 1 projects prompt in
  prompt ++ nl ++ "Summaries (one per line, numbered):".

Definition _build_batch_prompt (projects : list ref) (max_words : Z)
    : M state string :=
  fun st => (Returns (batch_prompt st projects max_words), st).

(** [[f"{i}{mark}" for i in range(1, expected_count + 1)]] *)
Definition numbered (mark : string) (expected_count : nat) : list string :=
  map (fun i => str_of_nat i ++ mark) (seq 1 expected_count).

(** One of the three prefix loops: the first prefix the line starts
    with is cut off and the rest stripped; then the loop breaks. *)
Fixpoint cut_first_prefix (prefixes : list string) (line : string) : string :=
  match prefixes with
  | [] => line
  | prefix :: rest =>
      if startswith line prefix
      then strip (drop_chars (String.length prefix) line)
      else cut_first_prefix rest line
  end.

(** The body of the loop over lines, after the blank-line test. *)
Definition clean_line (expected_count : nat) (line : string) : string :=
  let line := cut_first_prefix (numbered "." expected_count) line in
  let line := cut_first_prefix (numbered ")" expected_count) line in
  let line := cut_first_prefix (numbered ":" expected_count) line in
  strip_chars [dquote; squote] line.

Fixpoint parse_lines (expected_count : nat) (lines : list string)
    (summaries : list string) : list string :=
  match lines with
  | [] => summaries
  | line :: rest =>
      let line := strip line in
      if negb (truthy line) then parse_lines expected_count rest summaries
      else
        let line := clean_line expected_count line in
        if truthy line
        then parse_lines expected_count rest (summaries ++ [line])%list
        else parse_lines expected_count rest summaries
  end.

Definition _parse_batch_response (response_text : string)
    (expected_count : nat) : list string :=
  let lines := split_on (ascii_of_nat 10) (strip response_text) in
  parse_lines expected_count lines [].

(** The loop of the [try] branch; [i] is the 0-based index. *)
Fixpoint assign_from_batch (me : self) (summaries : list string)
    (max_words : Z) (i : nat) (projects : list ref) : M state unit :=
  match projects with
  | [] => ret tt
  | p :: rest =>
      (match summaries !! i with
       | Some s =>
           if truthy s then set_summary p s
           else
             d <- read p ;;
             s' <- summarize_description me (default EmptyString (description d))
                     max_words ;;
             set_summary p s'
       | None =>
           d <- read p ;;
           s' <- summarize_description me (default EmptyString (description d))
                   max_words ;;
           set_summary p s'
       end) ;;;
      assign_from_batch me summaries max_words (S i) rest
  end.

(** The loop of the [except] branch. *)
Fixpoint assign_individually (me : self) (max_words : Z) (i : nat)
    (projects : list ref) : M state unit :=
  match projects with
  | [] => ret tt
  | p :: rest =>
      (if Nat.ltb 0 i then sleep RATE_LIMIT_DELAY else ret tt) ;;;
      d <- read p ;;
      s <- summarize_description me (default EmptyString (description d))
             max_words ;;
      set_summary p s ;;;
      assign_individually me max_words (S i) rest
  end.

Definition summarize_projects (me : self) (projects : list ref)
    (max_words : Z) : M state (list ref) :=
  prompt <- _build_batch_prompt projects max_words ;;
  try_except
    (response <- generate_content me prompt ;;
     t <- text_of response ;;
     let summaries := _parse_batch_response t (length projects) in
     assign_from_batch me summaries max_words 0 projects ;;;
     ret projects)
    (fun e =>
       assign_individually me max_words 0 projects ;;;
       ret projects).

(** The state after one more call to the service. *)
Definition after_call (st : state) : state :=
  State (S (calls st)) (slept st) (heap st).

(** The batch request for [projects] fails in state [st]: the service
    raises or answers without text. *)
Definition batch_fails (me : self) (projects : list ref) (max_words : Z)
    (st : state) : Prop :=
  match client me (calls st) (model_name me)
               (batch_prompt st projects max_words) with
  | Responds r => text r = None
  | Fails _ => True
  end.

(** The single-item request for [description] fails in state [st]:
    the guard lets the description through and the service raises or
    answers without text. *)
Definition request_fails (me : self) (description : string) (max_words : Z)
    (st : state) : Prop :=
  too_short description = false /\
  match client me (calls st) (model_name me)
               (single_prompt description max_words) with
  | Responds r => text r = None
  | Fails _ => True
  end.

(** From [st] to [st'] only ['summary'] keys were written, only in
    dictionaries of [touched], and none was removed. *)
Record only_summaries (touched : list ref) (st st' : state) : Prop := {
  os_fields : forall p, same_but_summary (deref st p) (deref st' p);
  os_kept : forall p, is_Some (summary (deref st p)) ->
                      is_Some (summary (deref st' p));
  os_frame : forall p, p ∉ touched -> heap st' !! p = heap st !! p
}.

(** The records whose description gets past the guard of
    [summarize_description], so that summarising one costs a request. *)
Definition needs_request (st : state) (p : ref) : bool :=
  negb (too_short (default EmptyString (description (deref st p)))).

Definition requests_for (st : state) (projects : list ref) : nat :=
  length (List.filter (needs_request st) projects).

(** A service that answers every request with the same text. *)
Definition echoing (t : string) : self :=
  Self (fun _ _ _ => Responds (Response (Some t))) "gemini-2.5-flash-lite".

(** A store with three projects, at references 0, 1 and 2; the second
    has a description too short to be sent to the service. *)
Definition three_projects : state :=
  State 0 0
    (map_seq 0
       [Project (Some "Alpha") (Some "alpha") 
                (Some "alpha beta gamma delta epsilon") (Some (Num 1)) None;
        Project (Some "Beta") None (Some "a short one") (Some (Num 2)) None;
        Project (Some "Gamma") None
                (Some "a wallet that tracks yield across chains") None None]).

(** A service that is down, and a fresh state with an empty store. *)
Definition unavailable : self :=
  Self (fun _ _ _ => Fails (Exn OtherError "503 UNAVAILABLE"))
       "gemini-2.5-flash-lite".

Definition fresh : state := State 0 0 ∅.

(** A store with one project, at reference 0. *)
Definition one_project : state :=
  State 0 0
    {[ 0 := Project (Some "Alpha") None
                    (Some "alpha beta gamma delta epsilon") (Some (Num 1)) None ]}.

(** [GeminiSummarizer(api_key, model)]; [genai] is [genai.Client], the
    service as it answers to a key. *)
Definition __init__ (genai : option string -> nat -> string -> string -> reply)
    (api_key : option string) (model : string) : self :=
  Self (genai api_key) model.

(** *** The parsing steps, line by line

    [unmarked mark count line line']: [line'] is what is left of [line]
    once a leading marker [N mark], with N from 1 to [count], is cut
    off and the rest stripped; it is [line] itself when [line] starts
    with no such marker. *)
Inductive unmarked (mark : string) (count : nat) (line : string)
    : string -> Prop :=
| unmarked_cut (N : nat) (rest : string) :
    1 <= N <= count ->
    line = str_of_nat N ++ mark ++ rest ->
    unmarked mark count line (strip rest)
| unmarked_kept :
    (forall (N : nat) (rest : string),
       1 <= N <= count -> line <> str_of_nat N ++ mark ++ rest) ->
    unmarked mark count line line.

(** One line: a marker ["N."], then a marker ["N)"], then a marker
    ["N:"], then the surrounding quote characters. *)
Definition cleaned (count : nat) (line result : string) : Prop :=
  exists a b c,
    unmarked "." count line a /\ unmarked ")" count a b
    /\ unmarked ":" count b c
    /\ result = strip_chars [dquote; squote] c.

(** *** The parsing steps as the specification words them *)

(** At most one marker is removed, whichever of the three forms the
    line starts with. *)
Definition strip_one_marker (expected_count : nat) (line : string) : string :=
  cut_first_prefix
    (numbered "." expected_count ++ numbered ")" expected_count
     ++ numbered ":" expected_count)%list line.

Definition nonempty_lines (response_text : string) : list string :=
  filter (fun l => truthy l = true)
         (map strip (split_on (ascii_of_nat 10) (strip response_text))).

(** Split into non-empty lines, strip a marker, strip the quotes,
    collect the results. *)
Definition parse_as_stated (response_text : string) (expected_count : nat)
    : list string :=
  map (fun l => strip_chars [dquote; squote] (strip_one_marker expected_count l))
      (nonempty_lines response_text).

End GeminiSummarizer.

(* ================================================================= *)
(** ** [datetime]: the part of Python's module the sources use

    Dates are proleptic Gregorian; the helper functions follow the
    reference implementation of the module. *)

Module Datetime.
Import Py.
Open Scope Z_scope.

Record datetime := Datetime {
  year : Z; month : Z; day : Z;
  hour : Z; minute : Z; second : Z; microsecond : Z
}.

(** A normalised duration: [0 <= seconds < 86400],
    [0 <= microseconds < 1000000]. *)
Record timedelta := Timedelta { days : Z; seconds : Z; microseconds : Z }.

Definition MINYEAR : Z := 1.
Definition MAXYEAR : Z := 9999.
Definition _MAXORDINAL : Z := 3652059.

Definition _DAYS_IN_MONTH (m : Z) : Z :=
  match m with
  | 1 => 31 | 2 => 28 | 3 => 31 | 4 => 30 | 5 => 31 | 6 => 30
  | 7 => 31 | 8 => 31 | 9 => 30 | 10 => 31 | 11 => 30 | 12 => 31
  | _ => -1
  end.

Definition _DAYS_BEFORE_MONTH (m : Z) : Z :=
  match m with
  | 1 => 0 | 2 => 31 | 3 => 59 | 4 => 90 | 5 => 120 | 6 => 151
  | 7 => 181 | 8 => 212 | 9 => 243 | 10 => 273 | 11 => 304 | 12 => 334
  | _ => -1
  end.

Definition _is_leap (y : Z) : bool :=
  (y mod 4 =? 0) && (negb (y mod 100 =? 0) || (y mod 400 =? 0)).

Definition _days_before_year (y : Z) : Z :=
  let y := y - 1 in y * 365 + y / 4 - y / 100 + y / 400.

Definition _days_before_month (y m : Z) : Z :=
  _DAYS_BEFORE_MONTH m + (if (m >? 2) && _is_leap y then 1 else 0).

Definition _ymd2ord (y m d : Z) : Z :=
  _days_before_year y + _days_before_month y m + d.

Definition _DI400Y : Z := 146097.
Definition _DI100Y : Z := 36524.
Definition _DI4Y : Z := 1461.

Definition _ord2ymd (n : Z) : Z * Z * Z :=
  let n := n - 1 in
  let n400 := n / _DI400Y in
  let n := n mod _DI400Y in
  let y := n400 * 400 + 1 in
  let n100 := n / _DI100Y in
  let n := n mod _DI100Y in
  let n4 := n / _DI4Y in
  let n := n mod _DI4Y in
  let n1 := n / 365 in
  let n := n mod 365 in
  let y := y + n100 * 100 + n4 * 4 + n1 in
  if (n1 =? 4) || (n100 =? 4) then (y - 1, 12, 31)
  else
    let leapyear := (n1 =? 3) && (negb (n4 =? 24) || (n100 =? 3)) in
    let m := Z.shiftr (n + 50) 5 in
    let preceding :=
      _DAYS_BEFORE_MONTH m + (if (m >? 2) && leapyear then 1 else 0) in
    if preceding >? n then
      let m := m - 1 in
      let preceding :=
        preceding - (_DAYS_IN_MONTH m + (if (m =? 2) && leapyear then 1 else 0)) in
      (y, m, n - preceding + 1)
    else (y, m, n - preceding + 1).

(** [timedelta(days=d, hours=h, minutes=m, seconds=s, microseconds=us)]
    for integer arguments. *)
Definition timedelta_new (d h m s us : Z) : outcome timedelta :=
  let s := h * 3600 + m * 60 + s + us / 1000000 in
  let us := us mod 1000000 in
  let d := d + s / 86400 in
  let s := s mod 86400 in
  if Z.abs d >? 999999999
  then Raises (Exn OverflowError "days out of range")
  else Returns (Timedelta d s us).

(** [a + b] on durations *)
Definition timedelta_add (a b : timedelta) : outcome timedelta :=
  timedelta_new (days a + days b) 0 0 (seconds a + seconds b)
                (microseconds a + microseconds b).

(** [dt.toordinal()] *)
Definition toordinal (dt : datetime) : Z := _ymd2ord (year dt) (month dt) (day dt).

(** [dt + other]: through the ordinal of the date, as [datetime.__add__]. *)
Definition datetime_add (dt : datetime) (other : timedelta) : outcome datetime :=
  and_then (timedelta_new (toordinal dt) (hour dt) (minute dt) (second dt)
                          (microsecond dt)) (fun delta =>
  and_then (timedelta_add delta other) (fun delta =>
  let h := seconds delta / 3600 in
  let rem := seconds delta mod 3600 in
  let mi := rem / 60 in
  let s := rem mod 60 in
  if (0 <? days delta) && (days delta <=? _MAXORDINAL) then
    let '(y, m, d) := _ord2ymd (days delta) in
    Returns (Datetime y m d h mi s (microseconds delta))
  else Raises (Exn OverflowError "date value out of range"))).

(** The clock is read as whole microseconds since 1970-01-01T00:00:00Z
    ([719163] is the ordinal of that day).  The fields in UTC: *)
Definition utcfromtimestamp (clock : Z) : outcome datetime :=
  let s := clock / 1000000 in
  let us := clock mod 1000000 in
  let '(y, m, d) := _ord2ymd (719163 + s / 86400) in
  let sod := s mod 86400 in
  if (MINYEAR <=? y) && (y <=? MAXYEAR)
  then Returns (Datetime y m d (sod / 3600) (sod mod 3600 / 60) (sod mod 60) us)
  else Raises (Exn ValueError "year is out of range").

(** [datetime.now(tz)] for a fixed-offset zone: the UTC fields moved by
    the offset ([tz.fromutc]). *)
Definition now (utcoffset : timedelta) (clock : Z) : outcome datetime :=
  and_then (utcfromtimestamp clock) (fun utc => datetime_add utc utcoffset).

(** The fields of the wall-clock instant [t] seconds and [us]
    microseconds after 1970-01-01T00:00:00 on that clock. *)
Definition civil (t us : Z) : datetime :=
  let '(y, m, d) := _ord2ymd (719163 + t / 86400) in
  let sod := t mod 86400 in
  Datetime y m d (sod / 3600) (sod mod 3600 / 60) (sod mod 60) us.

(** The instant falls on a day from 0001-01-01 to 9999-12-31. *)
Definition representable (t : Z) : Prop :=
  1 <= 719163 + t / 86400 <= _MAXORDINAL.

(** Decimal rendering with leading zeros up to [width] digits. *)
Definition zero_padded (width : nat) (n : Z) : string :=
  let digits := str_of_Z n in
  String.concat EmptyString (repeat "0" (width - String.length digits))
  ++ digits.

Definition month_abbr (m : Z) : string :=
  match m with
  | 1 => "Jan" | 2 => "Feb" | 3 => "Mar" | 4 => "Apr" | 5 => "May"
  | 6 => "Jun" | 7 => "Jul" | 8 => "Aug" | 9 => "Sep" | 10 => "Oct"
  | 11 => "Nov" | 12 => "Dec" | _ => "?"
  end.

(** The directives the sources use with [strftime].  [%Y] is the year
    as the C library prints it, without padding: [998] for the year
    998. *)
Definition fmt_Y_m_d (dt : datetime) : string :=
  str_of_Z (year dt) ++ "-" ++ zero_padded 2 (month dt) ++ "-"
  ++ zero_padded 2 (day dt).

Definition fmt_H_M_S (dt : datetime) : string :=
  zero_padded 2 (hour dt) ++ ":" ++ zero_padded 2 (minute dt) ++ ":"
  ++ zero_padded 2 (second dt).

(** The last decimal digit of [n], and [n] written with exactly two
    and exactly four digits. *)
Definition digit (n : Z) : ascii := ascii_of_nat (48 + Z.to_nat (n mod 10)).

Definition two_digits (n : Z) : string :=
  String (digit (n / 10)) (String (digit n) EmptyString).

Definition four_digits (n : Z) : string :=
  String (digit (n / 1000)) (String (digit (n / 100)) (two_digits n)).

(** ISO 8601 at second precision, without the offset:
    [YYYY-MM-DDThh:mm:ss]. *)
Definition iso8601 (dt : datetime) : string :=
  four_digits (year dt) ++ "-" ++ two_digits (month dt) ++ "-"
  ++ two_digits (day dt) ++ "T" ++ two_digits (hour dt) ++ ":"
  ++ two_digits (minute dt) ++ ":" ++ two_digits (second dt).

(** The instant falls on 1000-01-01 or later, the years written with
    four digits ([364878] is the ordinal of that day). *)
Definition four_digit_year (t : Z) : Prop := 364878 <= 719163 + t / 86400.

(** [dt.strftime("%b %d")] *)
Definition fmt_b_d (dt : datetime) : string :=
  month_abbr (month dt) ++ " " ++ zero_padded 2 (day dt).

End Datetime.

(* ================================================================= *)
(** ** [src/modules/web3alerts_scraper.py] *)

Module Web3AlertsScraper.
Import Py.

(** The numbers a sort key can be: a number of days, or the
    [float('inf')] that stands for an absent key. *)
Inductive recency :=
| Days (d : Z)
| Infinity.

(** The sort key [x.get('days_since_discovery', float('inf'))]: the
    value under the key, which is [None] for a JSON [null]. *)
Definition recency_of (x : project) : option recency :=
  match days_since_discovery x with
  | Some (Num d) => Some (Days d)
  | Some Null => None
  | None => Some Infinity
  end.

(** [a < b] on numbers. *)
Definition recency_lt (a b : recency) : bool :=
  match a, b with
  | Days x, Days y => (x <? y)%Z
  | Days _, Infinity => true
  | Infinity, _ => false
  end.

(** [a <= b] on numbers: an absent recency is older than any number of
    days. *)
Definition recency_le (a b : recency) : Prop :=
  match a, b with
  | Days x, Days y => (x <= y)%Z
  | _, Infinity => True
  | Infinity, Days _ => False
  end.

(** [a < b] on sort keys: [None] is ordered with nothing, not even
    with itself.  (The message names the two types.) *)
Definition key_lt (a b : option recency) : outcome bool :=
  match a, b with
  | Some x, Some y => Returns (recency_lt x y)
  | _, _ => Raises (Exn TypeError "'<' not supported between instances")
  end.

(** The recency of [x] is a number of days or is absent: it is not
    [null]. *)
Definition not_null (x : project) : Prop :=
  days_since_discovery x <> Some Null.

(** [a] is at most as old as [b], both recencies being numbers or
    absent. *)
Definition no_older (a b : project) : Prop :=
  match recency_of a, recency_of b with
  | Some x, Some y => recency_le x y
  | _, _ => False
  end.

(** [get_new_projects] is the request to the items endpoint: it yields
    the decoded list or raises; [get_latest_projects] lets the error
    through, and the error of a comparison in [sorted] as well. *)
Definition get_latest_projects (get_new_projects : outcome (list project))
    (count : Z) : outcome (list project) :=
  and_then get_new_projects (fun projects =>
  and_then (sorted recency_of key_lt projects) (fun sorted_projects =>
  Returns (slice_to sorted_projects count))).

(** *** The session and the items endpoint *)

(** An entry of the cookie file, of which ['name'] and ['value'] are
    read; a field is [None] when the key is absent. *)
Record cookie := Cookie {
  cookie_name : option string;
  cookie_value : option string
}.

(** [cookie[key]] *)
Definition item (key : string) (field : option string) : outcome string :=
  match field with
  | Some v => Returns v
  | None => Raises (Exn KeyError ("'" ++ key ++ "'"))
  end.

(** [self.session.cookies.set(name, value)]: the jar holds one value
    per cookie name. *)
Definition set_cookie (name value : string) : M (gmap string string) unit :=
  fun jar => (Returns tt, <[name := value]> jar).

(** The loop of [load_cookies]. *)
Fixpoint set_cookies (cookies : list cookie) : M (gmap string string) unit :=
  match cookies with
  | [] => ret tt
  | cookie :: rest =>
      ((name <- lift (item "name" (cookie_name cookie)) ;;
        value <- lift (item "value" (cookie_value cookie)) ;;
        set_cookie name value) ;;;
       set_cookies rest)%py
  end.

(** [file] is what [open] and [json.load] give for the path: the
    decoded list, or the error raised. *)
Definition load_cookies (file : outcome (list cookie))
    : M (gmap string string) unit :=
  (cookies <- lift file ;; set_cookies cookies)%py.

Record scraper := Scraper {
  base_url : string;
  headers : list (string * string);
  cookies : gmap string string
}.

Definition browser_headers : list (string * string) :=
  [("User-Agent",
    "Mozilla/5.0 (Macintosh; Intel Mac OS X 10_15_7) AppleWebKit/537.36 (KHTML, like Gecko) Chrome/120.0.0.0 Safari/537.36");
   ("Accept", "application/json, text/plain, */*");
   ("Accept-Language", "en-US,en;q=0.9");
   ("Referer", "https://web3alerts.app/");
   ("Origin", "https://web3alerts.app")].

(** [Web3AlertsScraper(cookies_path)]; [files] is the file system. *)
Definition __init__ (files : string -> outcome (list cookie))
    (cookies_path : string) : outcome scraper :=
  match load_cookies (files cookies_path) ∅ with
  | (Returns _, jar) =>
      Returns (Scraper "https://web3alerts.app" browser_headers jar)
  | (Raises e, _) => Raises e
  end.

(** A request of the session and the response to it; [json] is what
    [response.json()] does. *)
Record request := Request {
  url : string;
  params : list (string * string);
  request_headers : list (string * string);
  request_cookies : gmap string string
}.

Record response := Response {
  status_code : Z;
  reason : string;
  response_url : string;
  json : outcome (list project)
}.

(** [response.raise_for_status()] *)
Definition raise_for_status (r : response) : outcome unit :=
  if (400 <=? status_code r)%Z && (status_code r <? 500)%Z then
    Raises (Exn RequestsError
              (str_of_Z (status_code r) ++ " Client Error: " ++ reason r
               ++ " for url: " ++ response_url r))
  else if (500 <=? status_code r)%Z && (status_code r <? 600)%Z then
    Raises (Exn RequestsError
              (str_of_Z (status_code r) ++ " Server Error: " ++ reason r
               ++ " for url: " ++ response_url r))
  else Returns tt.

(** [web] is the server behind [self.session.get]. *)
Definition get_new_projects (me : scraper) (web : request -> outcome response)
    (ts : option string) : outcome (list project) :=
  let url := base_url me ++ "/api/new_projects" in
  let params :=
    match ts with
    | Some t => if truthy t then [("ts", t)] else []
    | None => []
    end in
  and_then (web (Request url params (headers me) (cookies me))) (fun response =>
  and_then (raise_for_status response) (fun _ =>
  json response)).


(** A cookie file in which ["session"] occurs twice, and an entry
    without a value. *)
Definition exported : list cookie :=
  [Cookie (Some "session") (Some "abc");
   Cookie (Some "theme") (Some "dark");
   Cookie (Some "session") (Some "xyz")].

Definition incomplete : cookie := Cookie (Some "token") None.

(** A session with the exported cookies. *)
Definition browsing : scraper :=
  Scraper "https://web3alerts.app" browser_headers
          (<["theme" := "dark"]> (<["session" := "xyz"]> ∅)).

(** Two projects, of which the second has [null] for its recency. *)
Definition with_null : list project :=
  [Project (Some "A") None None (Some (Num 1)) None;
   Project (Some "N") None None (Some Null) None].

(** Sample lists: four projects as fetched, one without a recency. *)
Definition fetched : list project :=
  [Project (Some "C") None None (Some (Num 9)) None;
   Project (Some "A") None None (Some (Num 0)) None;
   Project (Some "D") None None None None;
   Project (Some "B") None None (Some (Num 2)) None].

(** A server that answers every request with the four projects, and
    one that refuses every request. *)
Definition serving : request -> outcome response :=
  fun r => Returns (Response 200 "OK" (url r) (Returns fetched)).

Definition refusing : request -> outcome response :=
  fun r => Returns (Response 403 "Forbidden" (url r) (Returns fetched)).

End Web3AlertsScraper.

(* ================================================================= *)
(** ** [src/main.py] *)

Module Main.
Import Py.

(** The loop of [format_tweet]; [i] is the 1-based index. *)
Fixpoint append_entries (i : nat) (projects : list project)
    (lines : list string) : list string :=
  match projects with
  | [] => lines
  | p :: rest =>
      let name := default "Unknown" (project_name p) in
      let handle := default EmptyString (handle p) in
      let summary := default EmptyString (summary p) in
      let line :=
        if truthy handle
        then str_of_nat i ++ " " ++ name ++ " (@" ++ handle ++ ")"
        else str_of_nat i ++ " " ++ name in
      let line := if truthy summary then line ++ ": " ++ summary else line in
      append_entries (S i) rest (lines ++ [line])%list
  end.

(** [local_now] is [datetime.now()], the wall clock of the host. *)
Definition format_tweet (local_now : Datetime.datetime)
    (projects : list project) : string :=
  let today := Datetime.fmt_b_d local_now in
  let lines := ["Early web3 projects (" ++ today ++ ")"] in
  let lines := append_entries 1 projects lines in
  join (nl ++ nl) lines.

(** *** The message as the specification words it *)

(** The abbreviated names of the months, January first. *)
Definition month_names : list string :=
  ["Jan"; "Feb"; "Mar"; "Apr"; "May"; "Jun";
   "Jul"; "Aug"; "Sep"; "Oct"; "Nov"; "Dec"].

(** The month and the day of [local_now] are those of a date. *)
Definition is_date (local_now : Datetime.datetime) : Prop :=
  (1 <= Datetime.month local_now <= 12)%Z
  /\ (1 <= Datetime.day local_now <= 31)%Z.

(** The header line for the date of [local_now]: the name of its month
    and the day of the month in two digits. *)
Definition header (local_now : Datetime.datetime) : string :=
  "Early web3 projects ("
  ++ default "?" (month_names !! Z.to_nat (Datetime.month local_now - 1))
  ++ " " ++ Datetime.two_digits (Datetime.day local_now) ++ ")".

(** The entry of the record shown at position [index]: the handle in
    parentheses when there is one, the summary after a colon when there
    is one. *)
Definition entry (index : nat) (p : project) : string :=
  let name := default "Unknown" (project_name p) in
  match default EmptyString (handle p), default EmptyString (summary p) with
  | EmptyString, EmptyString => str_of_nat index ++ " " ++ name
  | EmptyString, String c s =>
      str_of_nat index ++ " " ++ name ++ ": " ++ String c s
  | String c h, EmptyString =>
      str_of_nat index ++ " " ++ name ++ " (@" ++ String c h ++ ")"
  | String c h, String c' s =>
      str_of_nat index ++ " " ++ name ++ " (@" ++ String c h ++ "): "
      ++ String c' s
  end.

End Main.

(* ================================================================= *)
(** ** [src/modules/typefully_publisher.py] *)

Module TypefullyPublisher.
Import Py.
Open Scope py_scope.

(** The values a decoded JSON body is made of; [VNone] is also the
    initial value of the cached identifier. *)
#[local] Set Warnings "-register-all".
Inductive value :=
| VNone
| VBool (b : bool)
| VInt (n : Z)
| VFloat (f : float)
| VStr (s : string)
| VList (items : list value)
| VDict (members : list (string * value)).
#[local] Set Warnings "register-all".

(** [bool(v)] *)
Definition py_truthy (v : value) : bool :=
  match v with
  | VNone => false
  | VBool b => b
  | VInt n => negb (n =? 0)%Z
  | VFloat f => negb (PrimFloat.eqb f PrimFloat.zero)
  | VStr s => truthy s
  | VList items => match items with [] => false | _ :: _ => true end
  | VDict members => match members with [] => false | _ :: _ => true end
  end.

(** The value stored under a key of a dictionary, which is a list of
    bindings with the first binding of a key giving its value. *)
Fixpoint assoc (key : string) (members : list (string * value)) : option value :=
  match members with
  | [] => None
  | (k, v) :: rest => if String.eqb k key then Some v else assoc key rest
  end.

(** [v.get(key, dflt)] *)
Definition dict_get (v : value) (key : string) (dflt : value) : outcome value :=
  match v with
  | VDict members => Returns (default dflt (assoc key members))
  | _ => Raises (Exn AttributeError "object has no attribute 'get'")
  end.

(** [key in v] for a string [key] *)
Definition py_in (key : string) (v : value) : outcome bool :=
  match v with
  | VDict members =>
      Returns (match assoc key members with Some _ => true | None => false end)
  | VList items =>
      Returns (existsb (fun x => match x with
                                 | VStr s => String.eqb s key
                                 | _ => false
                                 end) items)
  | VStr s => Returns (contains s key)
  | _ => Raises (Exn TypeError "argument is not iterable")
  end.

(** [v[key]] for a string [key] *)
Definition getitem (v : value) (key : string) : outcome value :=
  match v with
  | VDict members =>
      match assoc key members with
      | Some x => Returns x
      | None => Raises (Exn KeyError key)
      end
  | VList _ => Raises (Exn TypeError "list indices must be integers or slices, not str")
  | VStr _ => Raises (Exn TypeError "string indices must be integers, not 'str'")
  | _ => Raises (Exn TypeError "object is not subscriptable")
  end.

(** [v[0]] *)
Definition getitem_0 (v : value) : outcome value :=
  match v with
  | VList (x :: _) => Returns x
  | VList [] => Raises (Exn IndexError "list index out of range")
  | VStr (String c _) => Returns (VStr (String c EmptyString))
  | VStr EmptyString => Raises (Exn IndexError "string index out of range")
  | VDict _ => Raises (Exn KeyError "0")
  | _ => Raises (Exn TypeError "object is not subscriptable")
  end.

(** An HTTP response: [json] is what [response.json()] does, the
    decoded body or the error it raises. *)
Record response := Response {
  status_code : Z;
  text : string;
  json : outcome value
}.

(** The body of the draft request. *)
Record payload := Payload {
  x_enabled : bool;            (* platforms.x.enabled *)
  x_posts : list string;       (* platforms.x.posts[i].text *)
  publish_at : string
}.

(** The network calls the publisher makes, in the order made. *)
Inductive call :=
| Get (url : string)
| Post (url : string) (body : payload).

(** The service behind [requests.get] and [requests.post]: each call
    yields a response or raises. *)
Record network := Network {
  requests_get : string -> outcome response;
  requests_post : string -> payload -> outcome response
}.

Record PublishResult := Result {
  success : bool;
  url : option string;
  draft_id : option string;
  scheduled_time : option string;
  error_msg : option string
}.

(** [PublishResult(success=False, error_msg=msg)] *)
Definition failure (msg : string) : PublishResult :=
  Result false None None None (Some msg).

Record self := Self {
  api_key : string;
  hours_delay : Z;
  publish_hour : Z;
  publish_now : bool;
  base_url : string
}.

(** [TypefullyPublisher(api_key, hours_delay, publish_hour, publish_now)] *)
Definition __init__ (api_key : string) (hours_delay publish_hour : Z)
    (publish_now : bool) : self :=
  Self api_key hours_delay publish_hour publish_now "https://api.typefully.com/v2".

(** What changes while the publisher runs: the cached identifier
    [self.social_set_id] and the calls sent so far. *)
Record state := State {
  social_set_id : value;
  sent : list call
}.

Definition initial : state := State VNone [].

(** Singapore time, [timezone(timedelta(hours=8))]. *)
Definition SGT : Datetime.timedelta := Datetime.Timedelta 0 28800 0.

Definition http_get (net : network) (url : string) : M state response :=
  fun st =>
    (requests_get net url, State (social_set_id st) (sent st ++ [Get url])%list).

Definition http_post (net : network) (url : string) (body : payload)
    : M state response :=
  fun st =>
    (requests_post net url body,
     State (social_set_id st) (sent st ++ [Post url body])%list).

Definition cached_id : M state value := fun st => (Returns (social_set_id st), st).

Definition cache_id (v : value) : M state unit :=
  fun st => (Returns tt, State v (sent st)).

Definition _calculate_publish_time (me : self) (clock : Z) : outcome string :=
  and_then (Datetime.now SGT clock) (fun now_sgt =>
  and_then (Datetime.timedelta_new 0 (hours_delay me) 0 0 0) (fun delay =>
  and_then (Datetime.datetime_add now_sgt delay) (fun publish_time =>
  Returns (Datetime.fmt_Y_m_d publish_time ++ "T"
           ++ Datetime.fmt_H_M_S publish_time ++ "+08:00")))).

(** The publish time as the specification words it: the current
    instant, on the clock of the fixed zone UTC+8, plus the delay in
    hours, in ISO 8601 at second precision with the offset written out. *)
Definition publish_at_as_stated (clock hours_delay : Z) : string :=
  let instant := (clock / 1000000)%Z in
  let local := (instant + 8 * 3600)%Z in
  Datetime.iso8601 (Datetime.civil (local + hours_delay * 3600) 0) ++ "+08:00".

(** The clock reading, the same instant in Singapore and the publish
    time all fall in the years 1 to 9999, the range of [datetime]. *)
Definition in_datetime_range (clock hours_delay : Z) : Prop :=
  Datetime.representable (clock / 1000000)
  /\ Datetime.representable (clock / 1000000 + 8 * 3600)
  /\ Datetime.representable (clock / 1000000 + 8 * 3600 + hours_delay * 3600).

(** The block of [publish] that chooses [publish_at]. *)
Definition choose_publish_at (me : self) (clock : Z) : outcome string :=
  if publish_now me then Returns "now" else _calculate_publish_time me clock.

Section Publisher.

(** [str(v)] of a value that is not a string is left to the caller. *)
Variable py_repr : value -> string.

(** [str(v)], also what an f-string puts for [{v}] *)
Definition py_str (v : value) : string :=
  match v with
  | VStr s => s
  | _ => py_repr v
  end.

Definition _get_social_set_id (me : self) (net : network) : M state value :=
  cached <- cached_id ;;
  if py_truthy cached then ret cached
  else
    try_except
      (response <- http_get net (base_url me ++ "/social-sets") ;;
       if (status_code response =? 200)%Z then
         data <- lift (json response) ;;
         results <- lift (dict_get data "results" (VList [])) ;;
         if py_truthy results then
           first <- lift (getitem_0 results) ;;
           id <- lift (dict_get first "id" VNone) ;;
           cache_id id ;;;
           ret id
         else ret VNone
       else ret VNone)
      (fun e => ret VNone).

(** The [else] branch of the status test: the message of a response
    that is not a success. *)
Definition error_message (response : response) : string :=
  let error_msg := "Typefully API error: " ++ str_of_Z (status_code response) in
  let extracted :=
    and_then (json response) (fun error_data =>
    and_then (py_in "error" error_data) (fun has_error =>
    if has_error then
      and_then (getitem error_data "error") (fun v =>
      Returns ("Typefully error: " ++ py_str v))
    else
      and_then (py_in "message" error_data) (fun has_message =>
      if has_message then
        and_then (getitem error_data "message") (fun v =>
        Returns ("Typefully error: " ++ py_str v))
      else
        and_then (py_in "detail" error_data) (fun has_detail =>
        if has_detail then
          and_then (getitem error_data "detail") (fun v =>
          Returns ("Typefully error: " ++ py_str v))
        else Returns error_msg)))) in
  match extracted with
  | Returns msg => msg
  | Raises _ => error_msg ++ " - " ++ text response
  end.

Definition publish (me : self) (net : network) (clock : Z) (content : string)
    : M state PublishResult :=
  if negb (truthy content) || negb (truthy (strip content)) then
    ret (failure "Content is empty")
  else
    social_set_id <- _get_social_set_id me net ;;
    if negb (py_truthy social_set_id) then
      ret (failure "Failed to get social set ID")
    else
      try_except
        (publish_at <- lift (choose_publish_at me clock) ;;
         let payload := Payload true [content] publish_at in
         response <- http_post net
                       (base_url me ++ "/social-sets/" ++ py_str social_set_id
                        ++ "/drafts") payload ;;
         if (status_code response =? 200)%Z || (status_code response =? 201)%Z
         then
           data <- lift (json response) ;;
           draft_id <- lift (dict_get data "id" (VStr "unknown")) ;;
           let draft_url := "https://typefully.com/drafts/" ++ py_str draft_id in
           ret (Result true (Some draft_url) (Some (py_str draft_id))
                       (Some publish_at) None)
         else
           ret (failure (error_message response)))
        (fun e =>
           match exn_class e with
           | RequestsTimeout => ret (failure "Typefully API timeout")
           | RequestsError => ret (failure ("Request failed: " ++ exn_msg e))
           | _ => ret (failure ("Unexpected error: " ++ exn_msg e))
           end).

End Publisher.

(** The names of the fields that are looked up, in that order. *)
Definition error_fields : list string := ["error"; "message"; "detail"].

(** The first of the fields ["error"], ["message"], ["detail"] that a
    decoded object carries. *)
Definition first_error_field (members : list (string * value)) : option value :=
  match assoc "error" members with
  | Some v => Some v
  | None =>
      match assoc "message" members with
      | Some v => Some v
      | None => assoc "detail" members
      end
  end.

(** The run of [publish] on [content] from [st] reaches the draft
    request and the service answers it with [answer]: the content is
    not blank, the identifier resolves, the publish time is computed
    and the request comes back. *)
Definition submission_answered (py_repr : value -> string) (me : self)
    (net : network) (clock : Z) (content : string) (st : state)
    (answer : response) : Prop :=
  truthy (strip content) = true /\
  exists id st1 at_,
    _get_social_set_id me net st = (Returns id, st1)
    /\ py_truthy id = true
    /\ choose_publish_at me clock = Returns at_
    /\ requests_post net
         (base_url me ++ "/social-sets/" ++ py_str py_repr id ++ "/drafts")
         (Payload true [content] at_) = Returns answer.

(** *** Sample services *)

Definition repr_of_id (v : value) : string :=
  match v with
  | VInt n => str_of_Z n
  | _ => "?"
  end.

(** Status 200 with the body [{"results": [{"id": 4711}]}]. *)
Definition one_social_set : response :=
  let q := String dquote EmptyString in
  Response 200 ("{" ++ q ++ "results" ++ q ++ ": [{" ++ q ++ "id" ++ q ++ ": 4711}]}")
    (Returns (VDict [("results", VList [VDict [("id", VInt 4711)]])])).

(** Status 429 with the body [{"message": "rate limited"}]. *)
Definition rate_limited : response :=
  let q := String dquote EmptyString in
  Response 429 ("{" ++ q ++ "message" ++ q ++ ": " ++ q ++ "rate limited" ++ q ++ "}")
    (Returns (VDict [("message", VStr "rate limited")])).

(** Status 500 with the body [{"code": 7}]. *)
Definition unknown_fields : response :=
  let q := String dquote EmptyString in
  Response 500 ("{" ++ q ++ "code" ++ q ++ ": 7}")
    (Returns (VDict [("code", VInt 7)])).

Definition answering (answer : response) : network :=
  Network (fun _ => Returns one_social_set) (fun _ _ => Returns answer).

Definition immediate : self := __init__ "key" 6 17 true.

Definition delayed : self := __init__ "key" 6 17 false.

(** 2024-12-28T03:00:00Z, which is 11:00 in Singapore. *)
Definition upload_time : Z := 1735354800 * 1000000.

(** The shapes a result of [publish] can have. *)
Inductive publish_shape : PublishResult -> Prop :=
| shape_failure (msg : string) : publish_shape (failure msg)
| shape_success (u d t : string) :
    publish_shape (Result true (Some u) (Some d) (Some t) None).

(** The invariant of a [PublishResult]. *)
Definition well_formed (r : PublishResult) : Prop :=
  (success r = true ->
   is_Some (url r) /\ is_Some (draft_id r) /\ error_msg r = None) /\
  (success r = false -> is_Some (error_msg r)).

(** The handler of [publish]: the result for an error [e] raised
    after the identifier was found. *)
Definition handled (e : exn) : PublishResult :=
  match exn_class e with
  | RequestsTimeout => failure "Typefully API timeout"
  | RequestsError => failure ("Request failed: " ++ exn_msg e)
  | _ => failure ("Unexpected error: " ++ exn_msg e)
  end.

(** The [try] block of [publish] read as a function of what the
    service does: the result, and the calls sent, once the content is
    not blank and the identifier [id] is there. *)
Definition submitted (py_repr : value -> string) (me : self) (net : network)
    (clock : Z) (content : string) (id : value) : PublishResult * list call :=
  match choose_publish_at me clock with
  | Raises e => (handled e, [])
  | Returns at_ =>
      let url := base_url me ++ "/social-sets/" ++ py_str py_repr id ++ "/drafts" in
      let body := Payload true [content] at_ in
      (match requests_post net url body with
       | Raises e => handled e
       | Returns answer =>
           if (status_code answer =? 200)%Z || (status_code answer =? 201)%Z
           then
             match json answer with
             | Raises e => handled e
             | Returns data =>
                 match dict_get data "id" (VStr "unknown") with
                 | Raises e => handled e
                 | Returns d =>
                     Result true
                       (Some ("https://typefully.com/drafts/" ++ py_str py_repr d))
                       (Some (py_str py_repr d)) (Some at_) None
                 end
             end
           else failure (error_message py_repr answer)
       end, [Post url body])
  end.

(** Status 201 with the body [{"id": "d1"}]. *)
Definition accepted : response :=
  let q := String dquote EmptyString in
  Response 201 ("{" ++ q ++ "id" ++ q ++ ": " ++ q ++ "d1" ++ q ++ "}")
    (Returns (VDict [("id", VStr "d1")])).

(** Status 200 with a body that is not JSON. *)
Definition garbled : response :=
  Response 200 "<html>"
    (Raises (Exn RequestsError "Expecting value: line 1 column 1 (char 0)")).

(** A service whose draft endpoint does not answer in time. *)
Definition timing_out : network :=
  Network (fun _ => Returns one_social_set)
          (fun _ _ => Raises (Exn RequestsTimeout "Read timed out.")).

(** An account without social sets: the body is [{"results": []}]. *)
Definition no_social_sets : network :=
  let q := String dquote EmptyString in
  Network
    (fun _ => Returns (Response 200 ("{" ++ q ++ "results" ++ q ++ ": []}")
                         (Returns (VDict [("results", VList [])]))))
    (fun _ _ => Returns accepted).

(** A delay of a thousand million days. *)
Definition far_future : self := __init__ "key" 24000000000 17 false.

End TypefullyPublisher.

(* ================================================================= *)
(** ** [src/config.py] *)

Module Config.
Import Py.

(** The values of the module after import: the environment variables
    read, with their defaults, and converted. *)
Record config := Config {
  COOKIES_PATH : string;
  TYPEFULLY_API_KEY : option string;
  TYPEFULLY_HOURS_DELAY : Z;
  PUBLISH_HOUR_SGT : Z;
  PROJECTS_COUNT : Z;
  MAX_DESCRIPTION_LENGTH : Z;
  SUMMARY_MAX_WORDS : Z;
  GEMINI_API_KEY : option string;
  GEMINI_MODEL : string;
  LOG_LEVEL : string;
  UPLOAD_TIME_SGT : string
}.

(** [not key or key.startswith('your_')] *)
Definition unusable (key : option string) : bool :=
  match key with
  | None => true
  | Some k => negb (truthy k) || startswith k "your_"
  end.

(** [exists_] is [Path(p).exists()].  The result is the lines printed
    and the value returned. *)
Definition validate_config (cfg : config) (exists_ : string -> bool)
    : list string * bool :=
  let errors := [] in
  let errors :=
    if unusable (TYPEFULLY_API_KEY cfg)
    then (errors ++ ["TYPEFULLY_API_KEY is missing or invalid"])%list
    else errors in
  let errors :=
    if unusable (GEMINI_API_KEY cfg)
    then (errors ++ ["GEMINI_API_KEY is missing or invalid"])%list
    else errors in
  let errors :=
    if negb (exists_ (COOKIES_PATH cfg))
    then (errors ++ [("Cookies file not found: " ++ COOKIES_PATH cfg)%string])%list
    else errors in
  if match errors with [] => false | _ :: _ => true end
  then (map (fun error => "Config Error: " ++ error) errors, false)
  else ([], true).

(** The number of checks of [validate_config] that fail. *)
Definition failed_checks (cfg : config) (exists_ : string -> bool) : nat :=
  (if unusable (TYPEFULLY_API_KEY cfg) then 1 else 0)
  + (if unusable (GEMINI_API_KEY cfg) then 1 else 0)
  + (if exists_ (COOKIES_PATH cfg) then 0 else 1).

(** The defaults, with both keys set; and the same with the key of the
    template left in. *)
Definition configured : config :=
  Config "credentials/cookies.json" (Some "tf-key") 6 17 10 80 10
          (Some "g-key") "gemini-2.5-flash-lite" "INFO" "11:00".


End Config.

(* ================================================================= *)
(** ** [src/main.py]: the run of the bot *)

Module Bot.
Import Py Config.

(** What a run meets outside the program: the file system, the two
    services and the site, the wall clock when the message is
    formatted and the instant read when it is published. *)
Record environment := Environment {
  path_exists : string -> bool;
  files : string -> outcome (list Web3AlertsScraper.cookie);
  web : Web3AlertsScraper.request -> outcome Web3AlertsScraper.response;
  genai : option string -> nat -> string -> string -> GeminiSummarizer.reply;
  typefully : TypefullyPublisher.network;
  wall_clock : Datetime.datetime;
  clock : Z;
  py_repr : TypefullyPublisher.value -> string
}.

(** The function returns, or [sys.exit(status)] ends the process. *)
Inductive ending :=
| Completed
| Exited (status : Z).

(** A run: how it ends, what the summarizer did (its requests, its
    sleep, the dictionaries), and what the publisher sent.  The log and
    the console are left out. *)
Record run := Run {
  how : ending;
  gemini : GeminiSummarizer.state;
  typefully_state : TypefullyPublisher.state
}.

(** The dictionaries decoded from the response are new objects: the
    i-th is at reference i. *)
Definition allocate (projects : list project) : GeminiSummarizer.state :=
  GeminiSummarizer.State 0 0 (map_seq 0 projects).

(** [SystemExit] is not an [Exception]: the [sys.exit(1)] of the
    failure branch leaves through the handler.  A key that is [None]
    does not get past [validate_config]. *)
Definition run_bot (env : environment) (cfg : config) (publish_now : bool)
    : run :=
  if negb (snd (validate_config cfg (path_exists env))) then
    Run (Exited 1) GeminiSummarizer.fresh TypefullyPublisher.initial
  else
    match Web3AlertsScraper.__init__ (files env) (COOKIES_PATH cfg) with
    | Raises e =>
        Run (Exited 1) GeminiSummarizer.fresh TypefullyPublisher.initial
    | Returns scraper =>
        match Web3AlertsScraper.get_latest_projects
                (Web3AlertsScraper.get_new_projects scraper (web env) None)
                (PROJECTS_COUNT cfg) with
        | Raises e =>
            Run (Exited 1) GeminiSummarizer.fresh TypefullyPublisher.initial
        | Returns [] =>
            Run Completed GeminiSummarizer.fresh TypefullyPublisher.initial
        | Returns projects =>
            let summarizer :=
              GeminiSummarizer.__init__ (genai env) (GEMINI_API_KEY cfg)
                                        (GEMINI_MODEL cfg) in
            let refs := seq 0 (length projects) in
            match GeminiSummarizer.summarize_projects summarizer refs
                    (SUMMARY_MAX_WORDS cfg) (allocate projects) with
            | (Raises e, st) => Run (Exited 1) st TypefullyPublisher.initial
            | (Returns projects, st) =>
                let tweet_content :=
                  Main.format_tweet (wall_clock env)
                                    (map (GeminiSummarizer.deref st) projects) in
                let publisher :=
                  TypefullyPublisher.__init__
                    (default EmptyString (TYPEFULLY_API_KEY cfg))
                    (TYPEFULLY_HOURS_DELAY cfg) (PUBLISH_HOUR_SGT cfg)
                    publish_now in
                match TypefullyPublisher.publish (py_repr env) publisher
                        (typefully env) (clock env) tweet_content
                        TypefullyPublisher.initial with
                | (Raises e, sent) => Run (Exited 1) st sent
                | (Returns result, sent) =>
                    if TypefullyPublisher.success result
                    then Run Completed st sent
                    else Run (Exited 1) st sent
                end
            end
        end
    end.

(** The places where a run can end, with what was met on the way. *)
Inductive stage (env : environment) (cfg : config) (publish_now : bool)
    : run -> Prop :=
| stage_config :
    failed_checks cfg (path_exists env) <> 0 ->
    stage env cfg publish_now
      (Run (Exited 1) GeminiSummarizer.fresh TypefullyPublisher.initial)
| stage_cookies (e : exn) :
    failed_checks cfg (path_exists env) = 0 ->
    Web3AlertsScraper.__init__ (files env) (COOKIES_PATH cfg) = Raises e ->
    stage env cfg publish_now
      (Run (Exited 1) GeminiSummarizer.fresh TypefullyPublisher.initial)
| stage_fetch (scraper : Web3AlertsScraper.scraper) (e : exn) :
    failed_checks cfg (path_exists env) = 0 ->
    Web3AlertsScraper.__init__ (files env) (COOKIES_PATH cfg) = Returns scraper ->
    Web3AlertsScraper.get_latest_projects
      (Web3AlertsScraper.get_new_projects scraper (web env) None)
      (PROJECTS_COUNT cfg) = Raises e ->
    stage env cfg publish_now
      (Run (Exited 1) GeminiSummarizer.fresh TypefullyPublisher.initial)
| stage_nothing (scraper : Web3AlertsScraper.scraper) :
    failed_checks cfg (path_exists env) = 0 ->
    Web3AlertsScraper.__init__ (files env) (COOKIES_PATH cfg) = Returns scraper ->
    Web3AlertsScraper.get_latest_projects
      (Web3AlertsScraper.get_new_projects scraper (web env) None)
      (PROJECTS_COUNT cfg) = Returns [] ->
    stage env cfg publish_now
      (Run Completed GeminiSummarizer.fresh TypefullyPublisher.initial)
| stage_publish (scraper : Web3AlertsScraper.scraper)
    (latest records : list project) (st : GeminiSummarizer.state)
    (result : TypefullyPublisher.PublishResult)
    (sent : TypefullyPublisher.state) :
    failed_checks cfg (path_exists env) = 0 ->
    Web3AlertsScraper.__init__ (files env) (COOKIES_PATH cfg) = Returns scraper ->
    Web3AlertsScraper.get_latest_projects
      (Web3AlertsScraper.get_new_projects scraper (web env) None)
      (PROJECTS_COUNT cfg) = Returns latest ->
    latest <> [] ->
    GeminiSummarizer.summarize_projects
      (GeminiSummarizer.__init__ (genai env) (GEMINI_API_KEY cfg) (GEMINI_MODEL cfg))
      (seq 0 (length latest)) (SUMMARY_MAX_WORDS cfg) (allocate latest)
    = (Returns (seq 0 (length latest)), st) ->
    records = map (GeminiSummarizer.deref st) (seq 0 (length latest)) ->
    Forall2 (fun d d' => same_but_summary d d' /\ is_Some (summary d'))
            latest records ->
    TypefullyPublisher.publish (py_repr env)
      (TypefullyPublisher.__init__ (default EmptyString (TYPEFULLY_API_KEY cfg))
         (TYPEFULLY_HOURS_DELAY cfg) (PUBLISH_HOUR_SGT cfg) publish_now)
      (typefully env) (clock env)
      (Main.format_tweet (wall_clock env) records)
      TypefullyPublisher.initial
    = (Returns result, sent) ->
    stage env cfg publish_now
      (Run (if TypefullyPublisher.success result then Completed else Exited 1)
           st sent).

(** A run in which everything is there and answers; the summaries
    come back as two numbered lines. *)
Definition all_up : environment :=
  Environment (fun _ => true)
              (fun _ => Returns Web3AlertsScraper.exported)
              Web3AlertsScraper.serving
              (fun _ => GeminiSummarizer.client
                          (GeminiSummarizer.echoing
                             ("1. first summary" ++ nl ++ "2. second summary")))
              (TypefullyPublisher.answering TypefullyPublisher.accepted)
              (Datetime.Datetime 2024 12 28 11 0 0 0)
              TypefullyPublisher.upload_time
              TypefullyPublisher.repr_of_id.

(** The same with the site refusing. *)
Definition site_down : environment :=
  Environment (path_exists all_up) (files all_up) Web3AlertsScraper.refusing
              (genai all_up) (typefully all_up) (wall_clock all_up)
              (clock all_up) (py_repr all_up).

End Bot.

(* ################################################################# *)
(** * Part II: properties *)

(* ================================================================= *)
(** ** Strings *)

Section StringFacts.
Import Py.

Lemma lstrip_by_all (p : ascii -> bool) (s : string) :
  forallb p (list_ascii_of_string s) = true -> lstrip_by p s = EmptyString.
Proof.
  induction s as [|c s IH]; simpl; [reflexivity|].
  intros H. apply andb_true_iff in H as [Hc Hs].
  rewrite Hc. auto.
Qed.

Lemma strip_blank (s : string) :
  forallb isspace (list_ascii_of_string s) = true -> strip s = EmptyString.
Proof.
  intros H. unfold strip. rewrite lstrip_by_all by assumption. reflexivity.
Qed.

Lemma slice_to_nat {A : Type} (l : list A) (n : nat) :
  slice_to l (Z.of_nat n) = take n l.
Proof.
  unfold slice_to.
  destruct (0 <=? Z.of_nat n)%Z eqn:E.
  - now rewrite Nat2Z.id.
  - apply Z.leb_gt in E. lia.
Qed.

Lemma string_app_assoc (a b c : string) : (a ++ b) ++ c = a ++ b ++ c.
Proof.
  induction a as [|x a IH]; [reflexivity|].
  change (String x ((a ++ b) ++ c) = String x (a ++ b ++ c)).
  now f_equal.
Qed.

Lemma prefix_app (a b : string) : String.prefix a (a ++ b) = true.
Proof.
  induction a as [|c a IH]; simpl.
  - now destruct b.
  - destruct (ascii_dec c c) as [_|Hne]; [exact IH | now destruct Hne].
Qed.

Lemma contains_app (a b c : string) : contains (a ++ b ++ c) b = true.
Proof.
  induction a as [|x a IH].
  - change (EmptyString ++ b ++ c) with (b ++ c).
    pose proof (prefix_app b c) as H.
    destruct (b ++ c); cbn [contains]; now rewrite H.
  - change (String x a ++ b ++ c) with (String x (a ++ b ++ c)).
    cbn [contains]. rewrite IH. apply orb_true_r.
Qed.

Lemma startswith_split (line prefix : string) :
  startswith line prefix = true ->
  line = prefix ++ drop_chars (String.length prefix) line.
Proof.
  unfold startswith. revert line.
  induction prefix as [|c prefix IH]; intros line; [reflexivity|].
  destruct line as [|d line]; [discriminate|]. cbn [String.prefix].
  destruct (ascii_dec c d) as [->|]; [|discriminate].
  intros H. cbn [String.length drop_chars].
  change (String d prefix ++ drop_chars (String.length prefix) line)
    with (String d (prefix ++ drop_chars (String.length prefix) line)).
  f_equal. now apply IH.
Qed.

(** [needle in s] holds exactly when [needle] is a part of [s]. *)
Lemma contains_split (s needle : string) :
  contains s needle = true ->
  exists before after, s = before ++ needle ++ after.
Proof.
  induction s as [|c s IH]; cbn [contains].
  - rewrite orb_false_r. intros H. exists EmptyString. eexists.
    now apply (startswith_split EmptyString needle).
  - intros H. apply orb_true_iff in H as [H|H].
    + exists EmptyString. eexists.
      now apply (startswith_split (String c s) needle).
    + destruct (IH H) as (before & after & ->).
      now exists (String c before), after.
Qed.

(** The built-ins on sample inputs. *)

Example strip_sample : strip ("  a b " ++ nl) = "a b".
Proof. reflexivity. Qed.

Example strip_chars_sample :
  strip_chars [dquote; squote] (String dquote ("it's" ++ String dquote EmptyString))
  = "it's".
Proof. reflexivity. Qed.

Example split_sample : split ("  a  b" ++ nl ++ "c ") = ["a"; "b"; "c"].
Proof. reflexivity. Qed.

Example split_on_sample :
  split_on (ascii_of_nat 10) ("a" ++ nl ++ nl ++ "b") = ["a"; EmptyString; "b"].
Proof. reflexivity. Qed.

Example slice_to_sample :
  slice_to [1; 2; 3] 2 = [1; 2] /\ slice_to [1; 2; 3] 5 = [1; 2; 3]
  /\ slice_to [1; 2; 3] (-1) = [1; 2] /\ slice_to [1; 2; 3] (-7) = [].
Proof. repeat split; reflexivity. Qed.

Example sorted_sample :
  sorted fst (fun a b => Returns (Nat.ltb a b))
         [(2, "a"); (1, "b"); (2, "c"); (1, "d")]
  = Returns [(1, "b"); (1, "d"); (2, "a"); (2, "c")].
Proof. reflexivity. Qed.

End StringFacts.

(* ================================================================= *)
(** ** The summarizer *)

Section SummarizerFacts.
Import Py GeminiSummarizer.
Open Scope py_scope.

Lemma only_summaries_refl (touched : list ref) (st : state) :
  only_summaries touched st st.
Proof. split; intros; unfold same_but_summary; auto. Qed.

Lemma only_summaries_trans (t1 t2 : list ref) (a b c : state) :
  only_summaries t1 a b -> only_summaries t2 b c ->
  only_summaries (t1 ++ t2)%list a c.
Proof.
  intros [F1 K1 R1] [F2 K2 R2]. split.
  - intros p. destruct (F1 p) as (?&?&?&?), (F2 p) as (?&?&?&?).
    unfold same_but_summary. repeat split; congruence.
  - auto.
  - intros p Hp. rewrite R2, R1; [reflexivity | |];
      intros Hin; apply Hp; apply elem_of_app; auto.
Qed.

Lemma only_summaries_heap (touched : list ref) (st st' : state) :
  heap st' = heap st -> only_summaries touched st st'.
Proof.
  intros H. assert (forall p, deref st' p = deref st p) as D
    by (intros p; unfold deref; now rewrite H).
  split; intros p; rewrite ?D; unfold same_but_summary; auto.
  now rewrite H.
Qed.

Lemma deref_set_summary (p q : ref) (s : string) (st : state) :
  deref (snd (set_summary p s st)) q
  = if decide (p = q) then with_summary s (deref st p) else deref st q.
Proof.
  unfold set_summary, deref; simpl.
  rewrite lookup_insert. destruct (decide (p = q)); reflexivity.
Qed.

Lemma set_summary_spec (p : ref) (s : string) (st : state) :
  exists st', set_summary p s st = (Returns tt, st')
    /\ summary (deref st' p) = Some s
    /\ only_summaries [p] st st'.
Proof.
  exists (snd (set_summary p s st)). split; [reflexivity|]. split.
  - rewrite deref_set_summary. destruct (decide (p = p)); [reflexivity | easy].
  - split.
    + intros q. rewrite deref_set_summary.
      destruct (decide (p = q)) as [->|]; unfold same_but_summary; auto.
    + intros q Hq. rewrite deref_set_summary.
      destruct (decide (p = q)) as [->|]; simpl; eauto.
    + intros q Hq. simpl. apply lookup_insert_ne.
      intros ->. apply Hq. now left.
Qed.

(** Whatever the service does, the single-item summary is returned
    and the store is left alone. *)
Lemma summarize_description_returns (me : self) (description : string)
    (max_words : Z) (st : state) :
  exists summary st',
    summarize_description me description max_words st = (Returns summary, st')
    /\ heap st' = heap st.
Proof.
  unfold summarize_description.
  destruct (too_short description); [eexists _, _; split; reflexivity|].
  unfold try_except, bind, generate_content.
  destruct (client me (calls st) (model_name me) _) as [[[t|]]|e];
    cbn; eexists _, _; split; reflexivity.
Qed.

(** One round of either loop: read the description, summarise, store. *)
Lemma summarize_one (me : self) (max_words : Z) (p : ref) (st : state) :
  exists st',
    (d <- read p ;;
     s <- summarize_description me (default EmptyString (description d))
            max_words ;;
     set_summary p s) st = (Returns tt, st')
    /\ is_Some (summary (deref st' p))
    /\ only_summaries [p] st st'.
Proof.
  unfold bind at 1. unfold read at 1.
  destruct (summarize_description_returns me
              (default EmptyString (description (deref st p))) max_words st)
    as (s & st1 & E1 & H1).
  unfold bind. rewrite E1.
  destruct (set_summary_spec p s st1) as (st2 & E2 & S2 & O2).
  exists st2. rewrite E2. split; [reflexivity|]. split; [eauto|].
  change [p] with ([] ++ [p])%list.
  eapply only_summaries_trans; [|exact O2].
  now apply only_summaries_heap.
Qed.

Lemma assign_from_batch_spec (me : self) (summaries : list string)
    (max_words : Z) (projects : list ref) :
  forall (i : nat) (st : state),
  exists st',
    assign_from_batch me summaries max_words i projects st = (Returns tt, st')
    /\ (forall p, p ∈ projects -> is_Some (summary (deref st' p)))
    /\ only_summaries projects st st'.
Proof.
  induction projects as [|p rest IH]; intros i st.
  - exists st. split; [reflexivity|]. split.
    + intros p Hp. inversion Hp.
    + apply only_summaries_refl.
  - cbn [assign_from_batch].
    assert (exists st1,
      (match summaries !! i with
       | Some s =>
           if truthy s then set_summary p s
           else
             d <- read p ;;
             s' <- summarize_description me
                     (default EmptyString (description d)) max_words ;;
             set_summary p s'
       | None =>
           d <- read p ;;
           s' <- summarize_description me
                   (default EmptyString (description d)) max_words ;;
           set_summary p s'
       end) st = (Returns tt, st1)
      /\ is_Some (summary (deref st1 p))
      /\ only_summaries [p] st st1) as (st1 & E1 & S1 & O1).
    { destruct (summaries !! i) as [s|]; [destruct (truthy s)|];
        try apply summarize_one.
      destruct (set_summary_spec p s st) as (st1 & ? & ? & ?).
      exists st1. eauto. }
    destruct (IH (S i) st1) as (st' & E' & S' & O').
    exists st'. unfold bind at 1. rewrite E1, E'.
    split; [reflexivity|]. split.
    + intros q Hq. apply elem_of_cons in Hq as [->|Hq]; [|auto].
      now apply (os_kept _ _ _ O').
    + change (p :: rest) with ([p] ++ rest)%list.
      eapply only_summaries_trans; eassumption.
Qed.

Lemma assign_individually_spec (me : self) (max_words : Z)
    (projects : list ref) :
  forall (i : nat) (st : state),
  exists st',
    assign_individually me max_words i projects st = (Returns tt, st')
    /\ (forall p, p ∈ projects -> is_Some (summary (deref st' p)))
    /\ only_summaries projects st st'.
Proof.
  induction projects as [|p rest IH]; intros i st.
  - exists st. split; [reflexivity|]. split.
    + intros p Hp. inversion Hp.
    + apply only_summaries_refl.
  - cbn [assign_individually].
    set (nap := if Nat.ltb 0 i then sleep RATE_LIMIT_DELAY else ret tt).
    assert (exists st0, nap st = (Returns tt, st0) /\ heap st0 = heap st)
      as (st0 & E0 & H0).
    { subst nap. destruct (Nat.ltb 0 i); eexists; split; reflexivity. }
    destruct (summarize_one me max_words p st0) as (st1 & E1 & S1 & O1).
    destruct (IH (S i) st1) as (st' & E' & S' & O').
    exists st'. split; [|split].
    + unfold bind at 1. rewrite E0.
      unfold bind in E1 |- *. unfold read in E1 |- *.
      destruct (summarize_description me _ max_words st0) as [[s|e] st2];
        [|discriminate].
      rewrite E1. exact E'.
    + intros q Hq. apply elem_of_cons in Hq as [->|Hq]; [|auto].
      now apply (os_kept _ _ _ O').
    + change (p :: rest) with (([] ++ [p]) ++ rest)%list.
      eapply only_summaries_trans; [|exact O'].
      eapply only_summaries_trans; [|exact O1].
      now apply only_summaries_heap.
Qed.

(** [summarize_projects] returns its argument, with every dictionary
    of the list given a summary and nothing else written. *)
Lemma summarize_projects_spec (me : self) (projects : list ref)
    (max_words : Z) (st : state) :
  exists st',
    summarize_projects me projects max_words st = (Returns projects, st')
    /\ (forall p, p ∈ projects -> is_Some (summary (deref st' p)))
    /\ only_summaries projects st st'.
Proof.
  unfold summarize_projects, bind at 1, _build_batch_prompt.
  set (prompt := batch_prompt st projects max_words).
  unfold try_except, bind at 1, generate_content.
  destruct (client me (calls st) (model_name me) prompt) as [[[t|]]|e].
  - cbn [text_of text]. unfold bind at 1, ret at 1.
    set (st0 := State (S (calls st)) (slept st) (heap st)).
    destruct (assign_from_batch_spec me
                (_parse_batch_response t (length projects)) max_words
                projects 0 st0) as (st' & E & S' & O).
    exists st'. unfold bind. rewrite E. split; [reflexivity|].
    split; [exact S'|].
    change projects with ([] ++ projects)%list at 1.
    eapply only_summaries_trans; [|exact O].
    now apply only_summaries_heap.
  - cbn [text_of text]. unfold bind at 1, raise.
    set (st0 := State (S (calls st)) (slept st) (heap st)).
    destruct (assign_individually_spec me max_words projects 0 st0)
      as (st' & E & S' & O).
    exists st'. unfold bind. rewrite E. split; [reflexivity|].
    split; [exact S'|].
    change projects with ([] ++ projects)%list at 1.
    eapply only_summaries_trans; [|exact O].
    now apply only_summaries_heap.
  - set (st0 := State (S (calls st)) (slept st) (heap st)).
    destruct (assign_individually_spec me max_words projects 0 st0)
      as (st' & E & S' & O).
    exists st'. unfold bind. rewrite E. split; [reflexivity|].
    split; [exact S'|].
    change projects with ([] ++ projects)%list at 1.
    eapply only_summaries_trans; [|exact O].
    now apply only_summaries_heap.
Qed.

(** A failed single-item request is answered by the truncation. *)
Lemma summarize_description_on_failure (me : self) (description : string)
    (max_words : Z) (st : state) :
  request_fails me description max_words st ->
  summarize_description me description max_words st
  = (Returns (truncated description max_words), after_call st).
Proof.
  intros [Hguard Hreply]. unfold summarize_description. rewrite Hguard.
  unfold try_except, bind, generate_content.
  destruct (client me (calls st) (model_name me) _) as [[t]|e].
  - cbn in Hreply. subst t. reflexivity.
  - reflexivity.
Qed.

(** A failed batch request hands every record to the single-item
    path. *)
Lemma summarize_projects_on_failure (me : self) (projects : list ref)
    (max_words : Z) (st : state) :
  batch_fails me projects max_words st ->
  summarize_projects me projects max_words st
  = (assign_individually me max_words 0 projects ;;; ret projects)
      (after_call st).
Proof.
  unfold batch_fails. intros Hreply.
  unfold summarize_projects, bind at 1, _build_batch_prompt.
  unfold try_except, bind at 1, generate_content.
  destruct (client me (calls st) (model_name me) _) as [[t]|e].
  - cbn in Hreply. subst t. reflexivity.
  - reflexivity.
Qed.

Lemma truncated_nat (description : string) (max_words : nat) :
  truncated description (Z.of_nat max_words)
  = if Nat.leb (length (split description)) max_words
    then description
    else join " " (take max_words (split description)) ++ "...".
Proof.
  unfold truncated. rewrite slice_to_nat.
  destruct (Nat.leb (length (split description)) max_words) eqn:L.
  - apply Nat.leb_le in L.
    destruct (Z.gtb_spec (Z.of_nat (length (split description)))
                         (Z.of_nat max_words)); [lia | reflexivity].
  - apply Nat.leb_gt in L.
    destruct (Z.gtb_spec (Z.of_nat (length (split description)))
                         (Z.of_nat max_words)); [reflexivity | lia].
Qed.

End SummarizerFacts.

Section SummarizerClaims.
Import Py GeminiSummarizer.
Open Scope py_scope.

(** C1. Whatever the service answers to the batch request and to the
    single-item requests, [summarize_projects] returns the very list
    it was given (same references, same order, same length); in the
    final store every dictionary of the list has a ['summary'], every
    other key of every dictionary is as before, and dictionaries that
    are not in the list are untouched. *)
Theorem summarize_projects_keeps_records_and_sets_summaries :
  forall (me : self) (projects : list ref) (max_words : Z) (st : state),
  exists st',
    summarize_projects me projects max_words st = (Returns projects, st')
    /\ Forall2 (fun d d' => same_but_summary d d' /\ is_Some (summary d'))
               (map (deref st) projects) (map (deref st') projects)
    /\ (forall p, same_but_summary (deref st p) (deref st' p))
    /\ (forall p, p ∉ projects -> heap st' !! p = heap st !! p).
Proof.
  intros me projects max_words st.
  destruct (summarize_projects_spec me projects max_words st)
    as (st' & E & S' & [F K R]).
  exists st'. split; [exact E|]. split; [|split; [exact F | exact R]].
  clear E R. induction projects as [|p rest IH]; simpl; constructor.
  - split; [apply F | apply S'; now left].
  - apply IH. intros q Hq. apply S'. now right.
Qed.

(** C2. For every behaviour of the service (any text, no text, or an
    error, on the batch request and on each single-item request),
    [summarize_description] and [summarize_projects] return a value:
    no exception leaves the summarizer.  A failure is absorbed down the
    chain: a failed batch request is followed by the single-item loop
    over every record, and a failed single-item request by the
    truncation of the description. *)
Theorem summarizer_never_raises :
  (forall (me : self) (description : string) (max_words : Z) (st : state),
     exists summary st',
       summarize_description me description max_words st
       = (Returns summary, st'))
  /\
  (forall (me : self) (projects : list ref) (max_words : Z) (st : state),
     exists out st',
       summarize_projects me projects max_words st = (Returns out, st'))
  /\
  (forall (me : self) (projects : list ref) (max_words : Z) (st : state),
     batch_fails me projects max_words st ->
     summarize_projects me projects max_words st
     = (assign_individually me max_words 0 projects ;;; ret projects)
         (after_call st))
  /\
  (forall (me : self) (description : string) (max_words : Z) (st : state),
     request_fails me description max_words st ->
     summarize_description me description max_words st
     = (Returns (truncated description max_words), after_call st)).
Proof.
  split; [|split; [|split]].
  - intros me description max_words st.
    destruct (summarize_description_returns me description max_words st)
      as (s & st' & E & _).
    eauto.
  - intros me projects max_words st.
    destruct (summarize_projects_spec me projects max_words st)
      as (st' & E & _).
    eauto.
  - apply summarize_projects_on_failure.
  - apply summarize_description_on_failure.
Qed.

(** With the service down, the one record of the store still gets a
    summary: the truncation of its description. *)
Lemma summarizer_survives_outage :
  exists st',
    summarize_projects unavailable [0] 3 one_project = (Returns [0], st')
    /\ summary (deref st' 0) = Some "alpha beta gamma...".
Proof.
  destruct summarizer_never_raises as (_ & _ & Batch & _).
  rewrite (Batch unavailable [0] 3%Z one_project I).
  eexists. split; vm_compute; reflexivity.
Defined.

(** C5. When the single-item request is issued and fails,
    [summarize_description] returns the description unchanged if it
    has at most [max_words] words, and otherwise its first [max_words]
    words joined by single spaces and followed by ["..."]. *)
Theorem summarize_description_truncates_on_failure :
  forall (me : self) (description : string) (max_words : nat) (st : state),
    request_fails me description (Z.of_nat max_words) st ->
    exists st',
      summarize_description me description (Z.of_nat max_words) st
      = (Returns (if Nat.leb (length (split description)) max_words
                  then description
                  else join " " (take max_words (split description)) ++ "..."),
         st').
Proof.
  intros me description max_words st H.
  rewrite (summarize_description_on_failure _ _ _ _ H), truncated_nat.
  eauto.
Qed.

(** The example of the specification: three words of five, then the
    ellipsis. *)
Lemma summarize_description_truncates_alpha :
  exists st',
    summarize_description unavailable "alpha beta gamma delta epsilon" 3 fresh
    = (Returns "alpha beta gamma...", st').
Proof.
  destruct (summarize_description_truncates_on_failure
              unavailable "alpha beta gamma delta epsilon" 3 fresh
              (conj eq_refl I)) as [st' E].
  exists st'. exact E.
Defined.

Lemma parse_lines_filter (expected_count : nat) (lines : list string) :
  forall summaries : list string,
    parse_lines expected_count lines summaries
    = (summaries
       ++ filter (fun l => truthy l = true)
            (map (clean_line expected_count)
               (filter (fun l => truthy l = true) (map strip lines))))%list.
Proof.
  induction lines as [|line rest IH]; intros summaries; simpl.
  - now rewrite app_nil_r.
  - destruct (truthy (strip line)) eqn:T; simpl.
    + rewrite filter_cons_True by assumption. simpl.
      destruct (truthy (clean_line expected_count (strip line))) eqn:C.
      * rewrite filter_cons_True by assumption.
        rewrite IH, <- app_assoc. reflexivity.
      * rewrite filter_cons_False by (rewrite C; discriminate).
        apply IH.
    + rewrite filter_cons_False by (rewrite T; discriminate).
      apply IH.
Qed.

(** One prefix loop cuts the marker of the first number of [numbers]
    that the line starts with, and leaves a line that starts with none
    of them. *)
Lemma cut_first_prefix_marker (mark : string) (numbers : list nat)
    (line : string) :
  let result :=
    cut_first_prefix (map (fun i => str_of_nat i ++ mark) numbers) line in
  (exists N rest,
     N ∈ numbers /\ line = str_of_nat N ++ mark ++ rest
     /\ result = strip rest)
  \/ ((forall N rest, N ∈ numbers -> line <> str_of_nat N ++ mark ++ rest)
      /\ result = line).
Proof.
  induction numbers as [|n numbers IH]; cbn [map cut_first_prefix].
  - right. split; [|reflexivity]. intros N rest H. inversion H.
  - destruct (startswith line (str_of_nat n ++ mark)) eqn:S.
    + left. exists n, (drop_chars (String.length (str_of_nat n ++ mark)) line).
      split; [apply list_elem_of_here|]. split; [|reflexivity].
      rewrite <- string_app_assoc. now apply startswith_split.
    + destruct IH as [(N & rest & HN & E & R)|[None_ R]].
      * left. exists N, rest. split; [now apply list_elem_of_further|].
        now split.
      * right. split; [|exact R]. intros N rest HN E.
        apply elem_of_cons in HN as [->|HN]; [|now apply (None_ N rest)].
        rewrite E, <- string_app_assoc in S. unfold startswith in S.
        now rewrite prefix_app in S.
Qed.

Lemma cut_first_prefix_unmarked (mark : string) (count : nat) (line : string) :
  unmarked mark count line (cut_first_prefix (numbered mark count) line).
Proof.
  unfold numbered.
  destruct (cut_first_prefix_marker mark (seq 1 count) line)
    as [(N & rest & HN & E & ->)|[None_ ->]].
  - apply (unmarked_cut mark count line N rest); [|exact E].
    apply elem_of_seq in HN. lia.
  - apply unmarked_kept. intros N rest HN. apply None_, elem_of_seq. lia.
Qed.

Lemma clean_line_cleaned (count : nat) (line : string) :
  cleaned count line (clean_line count line).
Proof.
  unfold cleaned, clean_line. eexists _, _, _.
  repeat split; apply cut_first_prefix_unmarked.
Qed.

(** C6 (amended). Parsing strips the response text, splits it at
    newlines, strips every line and skips the empty ones; from each
    remaining line it cuts a leading ["N."], then a leading ["N)"], then
    a leading ["N:"] (N from 1 to [expected_count], the rest stripped
    after each cut), then the surrounding quote characters; the results
    that are not empty are collected in order.  For two records,
    ["1. Alpha wallet tool\n2. Yield tracker"] gives
    [["Alpha wallet tool"; "Yield tracker"]]; further examples show the
    markers ["N:"] and ["N)"], the quotes, a number above
    [expected_count], and the order of the three cuts. *)
Theorem parse_batch_response_collects_nonempty_results :
  (forall (response_text : string) (expected_count : nat),
   exists results,
     Forall2 (cleaned expected_count) (nonempty_lines response_text) results
     /\ _parse_batch_response response_text expected_count
        = filter (fun result => truthy result = true) results)
  /\ _parse_batch_response ("1. Alpha wallet tool" ++ nl ++ "2. Yield tracker") 2
     = ["Alpha wallet tool"; "Yield tracker"]
  /\ _parse_batch_response
       ("1: Alpha" ++ nl ++ "2) 'Beta'" ++ nl ++ "3. Gamma" ++ nl
        ++ "2. " ++ String dquote ("Delta" ++ String dquote EmptyString)) 2
     = ["Alpha"; "Beta"; "3. Gamma"; "Delta"]
  /\ _parse_batch_response ("1. 2) 3: x" ++ nl ++ "3: 2) 1. y") 3
     = ["x"; "2) 1. y"].
Proof.
  split; [|repeat split; reflexivity].
  intros response_text expected_count.
  exists (map (clean_line expected_count) (nonempty_lines response_text)).
  split.
  - apply Forall2_fmap_r, Forall_Forall2_diag, Forall_forall.
    intros line _. apply clean_line_cleaned.
  - unfold _parse_batch_response, nonempty_lines.
    now rewrite parse_lines_filter.
Qed.

(** C6 as stated fails: a line that is only a marker yields an empty
    result, which the code drops and the stated steps collect; and a
    line with two markers loses both in the code, one in the stated
    steps. *)
Lemma parse_batch_response_is_not_as_stated :
  (_parse_batch_response ("1." ++ nl ++ "2. Yield tracker") 2
   = ["Yield tracker"]
   /\ parse_as_stated ("1." ++ nl ++ "2. Yield tracker") 2
      = [EmptyString; "Yield tracker"])
  /\
  (_parse_batch_response ("1. 2) Alpha wallet tool" ++ nl ++ "2. Yield tracker") 2
   = ["Alpha wallet tool"; "Yield tracker"]
   /\ parse_as_stated ("1. 2) Alpha wallet tool" ++ nl ++ "2. Yield tracker") 2
      = ["2) Alpha wallet tool"; "Yield tracker"]).
Proof. repeat split; reflexivity. Qed.

End SummarizerClaims.

(* ================================================================= *)
(** ** Sorting *)

Section SortedFacts.
Import Py.
Context {A K : Type} (key : A -> K) (lt : K -> K -> outcome bool).

(** [not_below a b]: the key of [b] is not below the key of [a]. *)
#[local] Abbreviation not_below :=
  (fun a b => lt (key b) (key a) = Returns false).

Hypothesis lt_asym : forall x y, lt x y = Returns true -> lt y x = Returns false.
Hypothesis not_below_trans :
  forall a b c, not_below a b -> not_below b c -> not_below a c.

Lemma insert_sorted_perm (x : A) (l : list A) :
  forall s, insert_sorted key lt x l = Returns s -> Permutation s (x :: l).
Proof.
  induction l as [|y l IH]; intros s; cbn [insert_sorted].
  - now intros [= <-].
  - destruct (lt (key y) (key x)) as [[]|e]; cbn [and_then];
      [|now intros [= <-] | discriminate].
    destruct (insert_sorted key lt x l) as [s'|e]; cbn [and_then];
      [|discriminate].
    intros [= <-]. rewrite (IH s' eq_refl). apply perm_swap.
Qed.

Lemma sorted_perm (l : list A) :
  forall s, sorted key lt l = Returns s -> Permutation s l.
Proof.
  induction l as [|x l IH]; intros s; cbn [sorted].
  - now intros [= <-].
  - destruct (sorted key lt l) as [s'|e]; cbn [and_then]; [|discriminate].
    intros E. rewrite (insert_sorted_perm _ _ _ E). constructor. now apply IH.
Qed.

Lemma insert_sorted_sorted (x : A) (l : list A) :
  StronglySorted not_below l ->
  forall s, insert_sorted key lt x l = Returns s -> StronglySorted not_below s.
Proof.
  induction l as [|y l IH]; intros S s; cbn [insert_sorted].
  - intros [= <-]. repeat constructor.
  - apply StronglySorted_inv in S as [S F].
    destruct (lt (key y) (key x)) as [[]|e] eqn:E; cbn [and_then];
      [| |discriminate].
    + destruct (insert_sorted key lt x l) as [s'|e] eqn:I; cbn [and_then];
        [|discriminate].
      intros [= <-]. constructor; [now apply IH|].
      rewrite (insert_sorted_perm _ _ _ I). constructor; [|exact F].
      now apply lt_asym.
    + intros [= <-]. constructor; [now constructor|].
      constructor; [exact E|].
      eapply Forall_impl; [exact F|].
      intros z Hz. now apply (not_below_trans x y z).
Qed.

Lemma sorted_sorted (l : list A) :
  forall s, sorted key lt l = Returns s -> StronglySorted not_below s.
Proof.
  induction l as [|x l IH]; intros s; cbn [sorted].
  - intros [= <-]. constructor.
  - destruct (sorted key lt l) as [s'|e]; cbn [and_then]; [|discriminate].
    apply insert_sorted_sorted. now apply IH.
Qed.

(** Stability: the elements that share a key keep their order. *)
Lemma insert_sorted_stable (P : A -> bool) (x : A) (l : list A) :
  (forall y, P x = true -> P y = true -> lt (key y) (key x) <> Returns true) ->
  forall s, insert_sorted key lt x l = Returns s ->
            List.filter P s = List.filter P (x :: l).
Proof.
  intros H. induction l as [|y l IH]; intros s; cbn [insert_sorted].
  - now intros [= <-].
  - destruct (lt (key y) (key x)) as [[]|e] eqn:E; cbn [and_then];
      [|now intros [= <-] | discriminate].
    destruct (insert_sorted key lt x l) as [s'|e]; cbn [and_then];
      [|discriminate].
    assert (P x = true -> P y = true -> False) as N
      by (intros Px Py; exact (H y Px Py E)).
    intros [= <-]. cbn [List.filter] in *. rewrite (IH s' eq_refl).
    destruct (P x), (P y); try reflexivity. now destruct N.
Qed.

Lemma sorted_stable (P : A -> bool) (l : list A) :
  (forall x y, P x = true -> P y = true -> lt (key y) (key x) <> Returns true) ->
  forall s, sorted key lt l = Returns s -> List.filter P s = List.filter P l.
Proof.
  intros H. induction l as [|x l IH]; intros s; cbn [sorted].
  - now intros [= <-].
  - destruct (sorted key lt l) as [s'|e]; cbn [and_then]; [|discriminate].
    intros E. rewrite (insert_sorted_stable P x s' (H x) s E).
    cbn [List.filter]. now rewrite (IH s' eq_refl).
Qed.

(** A list in order is left as it is. *)
Lemma sorted_of_sorted (l : list A) :
  StronglySorted not_below l -> sorted key lt l = Returns l.
Proof.
  induction 1 as [|x l S IH F]; [reflexivity|].
  cbn [sorted]. rewrite IH. cbn [and_then].
  destruct l as [|y l]; [reflexivity|].
  cbn [insert_sorted]. apply Forall_cons in F as [F _]. now rewrite F.
Qed.

(** The sort returns when every two elements can be compared. *)
Lemma insert_sorted_returns (x : A) (l : list A) :
  (forall y, y ∈ l -> exists below, lt (key y) (key x) = Returns below) ->
  exists s, insert_sorted key lt x l = Returns s.
Proof.
  induction l as [|y l IH]; intros H; cbn [insert_sorted]; [eauto|].
  destruct (H y) as [below ->]; [apply list_elem_of_here|]. cbn [and_then].
  destruct below; [|eauto].
  destruct IH as [s ->]; [|cbn [and_then]; eauto].
  intros z Hz. apply H. now apply list_elem_of_further.
Qed.

Lemma sorted_returns (l : list A) :
  (forall x y, x ∈ l -> y ∈ l -> exists below, lt (key y) (key x) = Returns below) ->
  exists s, sorted key lt l = Returns s.
Proof.
  induction l as [|x l IH]; intros H; cbn [sorted]; [eauto|].
  destruct IH as [s E].
  { intros a b Ha Hb. apply H; now apply list_elem_of_further. }
  rewrite E. cbn [and_then]. apply insert_sorted_returns.
  intros y Hy. apply H; [apply list_elem_of_here|].
  apply list_elem_of_further.
  now rewrite <- (sorted_perm _ _ E).
Qed.

End SortedFacts.

Lemma StronglySorted_take {A : Type} (R : A -> A -> Prop) (n : nat) (l : list A) :
  StronglySorted R l -> StronglySorted R (take n l).
Proof.
  revert n. induction l as [|x l IH]; intros [|n] S; simpl; try constructor.
  - apply IH. now apply StronglySorted_inv in S.
  - apply StronglySorted_inv in S as [_ F]. now apply Forall_take.
Qed.

Lemma StronglySorted_weaken {A : Type} (R R' : A -> A -> Prop) (l : list A) :
  (forall a b, R a b -> R' a b) -> StronglySorted R l -> StronglySorted R' l.
Proof.
  intros H. induction 1 as [|x l S IH F]; constructor; [exact IH|].
  eapply Forall_impl; [exact F|]. intros y. apply H.
Qed.

Lemma StronglySorted_lookup {A : Type} (R : A -> A -> Prop) (l : list A) :
  StronglySorted R l ->
  forall i j a b, i < j -> l !! i = Some a -> l !! j = Some b -> R a b.
Proof.
  induction 1 as [|x l S IH F]; intros i j a b Hij Ha Hb.
  - discriminate.
  - destruct j as [|j]; [lia|]. destruct i as [|i]; simpl in *.
    + injection Ha as <-. rewrite Forall_forall in F. apply F.
      eapply list_elem_of_lookup_2. exact Hb.
    + eapply IH; [|exact Ha|exact Hb]. lia.
Qed.

(* ================================================================= *)
(** ** The scraper *)

Section ScraperClaims.
Import Py Web3AlertsScraper.

Lemma recency_lt_asym (x y : recency) :
  recency_lt x y = true -> recency_lt y x = false.
Proof.
  destruct x, y; simpl; try easy. intros H. apply Z.ltb_lt in H.
  apply Z.ltb_ge. lia.
Qed.

Lemma recency_le_iff (x y : recency) :
  recency_lt y x = false <-> recency_le x y.
Proof.
  destruct x, y; simpl; try easy. apply Z.ltb_ge.
Qed.

Lemma key_lt_asym (x y : option recency) :
  key_lt x y = Returns true -> key_lt y x = Returns false.
Proof.
  destruct x as [x|], y as [y|]; cbn [key_lt]; try discriminate.
  intros [= H]. now rewrite (recency_lt_asym _ _ H).
Qed.

Lemma no_older_iff (a b : project) :
  key_lt (recency_of b) (recency_of a) = Returns false <-> no_older a b.
Proof.
  unfold no_older.
  destruct (recency_of a) as [x|], (recency_of b) as [y|]; cbn [key_lt];
    try (split; [discriminate | contradiction]).
  rewrite <- recency_le_iff. split; [now intros [= ->] | now intros ->].
Qed.

Lemma no_older_trans (a b c : project) :
  key_lt (recency_of b) (recency_of a) = Returns false ->
  key_lt (recency_of c) (recency_of b) = Returns false ->
  key_lt (recency_of c) (recency_of a) = Returns false.
Proof.
  rewrite !no_older_iff. unfold no_older.
  destruct (recency_of a) as [[x|]|], (recency_of b) as [[y|]|],
           (recency_of c) as [[z|]|]; simpl; try easy.
  lia.
Qed.

Lemma not_null_recency (x : project) : not_null x <-> is_Some (recency_of x).
Proof.
  unfold not_null, recency_of.
  destruct (days_since_discovery x) as [[d|]|].
  - split; [now eexists | discriminate].
  - split; [now intros H | intros [k H]; discriminate].
  - split; [now eexists | discriminate].
Qed.

(** Without a [null] recency every comparison returns, and so does the
    sort. *)
Lemma sorted_not_null (raw : list project) :
  Forall not_null raw -> exists all, sorted recency_of key_lt raw = Returns all.
Proof.
  intros N. apply sorted_returns. intros x y Hx Hy.
  rewrite Forall_forall in N.
  destruct (proj1 (not_null_recency x) (N x Hx)) as [kx ->].
  destruct (proj1 (not_null_recency y) (N y Hy)) as [ky ->].
  cbn [key_lt]. eauto.
Qed.

(** What the sort returns is the list rearranged, newest first. *)
Lemma sorted_newest_first (raw all : list project) :
  sorted recency_of key_lt raw = Returns all ->
  Permutation all raw /\ StronglySorted no_older all.
Proof.
  intros E. split; [exact (sorted_perm recency_of key_lt raw all E)|].
  eapply StronglySorted_weaken;
    [|exact (sorted_sorted recency_of key_lt key_lt_asym no_older_trans
               raw all E)].
  intros a b. apply no_older_iff.
Qed.

(** Projects with the same recency come out in the order they came in. *)
Lemma get_latest_projects_sort_is_stable (k : recency)
    (raw all : list project) :
  let same := fun x => match k, recency_of x with
                       | Days a, Some (Days b) => (a =? b)%Z
                       | Infinity, Some Infinity => true
                       | _, _ => false
                       end in
  sorted recency_of key_lt raw = Returns all ->
  List.filter same all = List.filter same raw.
Proof.
  intros same E. apply (sorted_stable recency_of key_lt same raw); [|exact E].
  subst same. intros x y.
  destruct k, (recency_of x) as [[]|], (recency_of y) as [[]|]; simpl;
    try easy.
  intros Hx Hy. apply Z.eqb_eq in Hx, Hy. subst.
  rewrite Z.ltb_irrefl. discriminate.
Qed.




End ScraperClaims.

(* ================================================================= *)
(** ** The publisher *)

Section PublisherFacts.
Import Py TypefullyPublisher.
Open Scope py_scope.
Variable py_repr : value -> string.

Lemma blank_strip (content : string) :
  blank content -> truthy (strip content) = false.
Proof. intros H. now rewrite strip_blank. Qed.

(** The lookup of the identifier never raises. *)
Lemma _get_social_set_id_returns (me : self) (net : network) (st : state) :
  exists id st', _get_social_set_id me net st = (Returns id, st').
Proof.
  unfold _get_social_set_id, bind at 1, cached_id.
  destruct (py_truthy (social_set_id st)); [unfold ret; eauto|].
  unfold try_except, bind at 1, http_get.
  destruct (requests_get net _) as [r|e]; [|unfold ret; eauto].
  destruct (status_code r =? 200)%Z; [|unfold ret; eauto].
  unfold bind at 1, lift at 1.
  destruct (json r) as [data|e]; [|unfold ret; eauto].
  unfold bind at 1, lift at 1.
  destruct (dict_get data "results" (VList [])) as [results|e];
    [|unfold ret; eauto].
  destruct (py_truthy results); [|unfold ret; eauto].
  unfold bind at 1, lift at 1.
  destruct (getitem_0 results) as [first|e]; [|unfold ret; eauto].
  unfold bind at 1, lift at 1.
  destruct (dict_get first "id" VNone) as [id|e]; [|unfold ret; eauto].
  unfold bind, cache_id, ret. eauto.
Qed.

Lemma publish_shape_well_formed (r : PublishResult) :
  publish_shape r -> well_formed r.
Proof.
  intros [msg|u d t]; split; simpl; intros H; try discriminate; eauto.
Qed.

Lemma publish_returns_shape (me : self) (net : network) (clock : Z)
    (content : string) (st : state) :
  exists r st',
    publish py_repr me net clock content st = (Returns r, st')
    /\ publish_shape r.
Proof.
  unfold publish.
  destruct (negb (truthy content) || negb (truthy (strip content))).
  { eexists _, _. split; [reflexivity | constructor]. }
  destruct (_get_social_set_id_returns me net st) as (id & st1 & E).
  unfold bind at 1. rewrite E.
  destruct (negb (py_truthy id)).
  { eexists _, _. split; [reflexivity | constructor]. }
  assert (forall e : exn, exists r st',
            (match exn_class e with
             | RequestsTimeout => ret (failure "Typefully API timeout")
             | RequestsError => ret (failure ("Request failed: " ++ exn_msg e))
             | _ => ret (failure ("Unexpected error: " ++ exn_msg e))
             end : M state PublishResult) st1 = (Returns r, st')
            /\ publish_shape r) as Handler.
  { intros [[] msg]; simpl; eexists _, _;
      (split; [reflexivity | constructor]). }
  unfold try_except, bind at 1, lift at 1.
  destruct (choose_publish_at me clock) as [at_|e]; [|apply Handler].
  unfold bind at 1, http_post.
  destruct (requests_post net _ _) as [r|e].
  2:{ destruct e as [[] msg]; simpl; eexists _, _;
        (split; [reflexivity | constructor]). }
  destruct ((status_code r =? 200)%Z || (status_code r =? 201)%Z).
  - unfold bind at 1, lift at 1.
    destruct (json r) as [data|e].
    2:{ destruct e as [[] msg]; simpl; eexists _, _;
          (split; [reflexivity | constructor]). }
    unfold bind at 1, lift at 1.
    destruct (dict_get data "id" (VStr "unknown")) as [d|e].
    2:{ destruct e as [[] msg]; simpl; eexists _, _;
          (split; [reflexivity | constructor]). }
    eexists _, _. split; [reflexivity | constructor].
  - eexists _, _. split; [reflexivity | constructor].
Qed.

End PublisherFacts.

(* ================================================================= *)
(** ** Dates *)

Section DateFacts.
Import Py Datetime TypefullyPublisher.
Open Scope Z_scope.

(** Names the quotients and the last remainder of the four divisions
    of [_ord2ymd n] (by the days in 400, 100, 4 and 1 years) and keeps
    their defining equations and bounds. *)
Ltac split_cycles n a b c d r4 :=
  let r1 := fresh "r1" in
  let r2 := fresh "r2" in
  let r3 := fresh "r3" in
  pose proof (Z.div_mod (n - 1) 146097 ltac:(lia));
  pose proof (Z.mod_pos_bound (n - 1) 146097 ltac:(lia));
  set (a := (n - 1) / 146097) in *; set (r1 := (n - 1) mod 146097) in *;
  pose proof (Z.div_mod r1 36524 ltac:(lia));
  pose proof (Z.mod_pos_bound r1 36524 ltac:(lia));
  set (b := r1 / 36524) in *; set (r2 := r1 mod 36524) in *;
  pose proof (Z.div_mod r2 1461 ltac:(lia));
  pose proof (Z.mod_pos_bound r2 1461 ltac:(lia));
  set (c := r2 / 1461) in *; set (r3 := r2 mod 1461) in *;
  pose proof (Z.div_mod r3 365 ltac:(lia));
  pose proof (Z.mod_pos_bound r3 365 ltac:(lia));
  set (d := r3 / 365) in *; set (r4 := r3 mod 365) in *;
  clearbody a r1 b r2 c r3 d r4.

(** The days before the year that starts [a] 400-year cycles, [b]
    centuries, [c] 4-year cycles and [d] years after year 1. *)
Lemma days_before_year_cycles (a b c d : Z) :
  0 <= b <= 3 -> 0 <= c <= 24 -> 0 <= d <= 3 ->
  _days_before_year (400 * a + 100 * b + 4 * c + d + 1)
  = 146097 * a + 36524 * b + 1461 * c + 365 * d.
Proof.
  intros Hb Hc Hd. unfold _days_before_year.
  replace (400 * a + 100 * b + 4 * c + d + 1 - 1)
    with (400 * a + 100 * b + 4 * c + d) by lia.
  Z.div_mod_to_equations. lia.
Qed.

(** The leap test of [_ord2ymd] agrees with [_is_leap]. *)
Lemma is_leap_cycles (a b c d : Z) :
  0 <= b <= 3 -> 0 <= c <= 24 -> 0 <= d <= 3 ->
  _is_leap (400 * a + 100 * b + 4 * c + d + 1)
  = (d =? 3) && (negb (c =? 24) || (b =? 3)).
Proof.
  intros Hb Hc Hd. unfold _is_leap.
  apply eq_true_iff_eq.
  rewrite !andb_true_iff, !orb_true_iff, !negb_true_iff, !Z.eqb_eq, !Z.eqb_neq.
  Z.div_mod_to_equations. lia.
Qed.

(** The month estimate of [_ord2ymd] and its correction: for the
    day [n] of the year (from 0), the month found is a month and the
    days counted before it are [_DAYS_BEFORE_MONTH], one more after
    February in a leap year. *)
Lemma month_day_roundtrip (leap : bool) (n : Z) :
  0 <= n <= 364 ->
  let m := Z.shiftr (n + 50) 5 in
  let preceding := _DAYS_BEFORE_MONTH m + (if (m >? 2) && leap then 1 else 0) in
  let '(m', p') :=
    if preceding >? n
    then (m - 1, preceding - (_DAYS_IN_MONTH (m - 1)
                              + (if (m - 1 =? 2) && leap then 1 else 0)))
    else (m, preceding) in
  1 <= m' <= 12 /\
  p' = _DAYS_BEFORE_MONTH m' + (if (m' >? 2) && leap then 1 else 0) /\
  p' <= n.
Proof.
  intros Hn. rewrite Z.shiftr_div_pow2 by lia. change (2 ^ 5) with 32.
  assert (1 <= (n + 50) / 32 <= 12) as Hm by (Z.div_mod_to_equations; lia).
  assert (32 * ((n + 50) / 32) <= n + 50 < 32 * ((n + 50) / 32) + 32) as Hq
    by (Z.div_mod_to_equations; lia).
  generalize dependent ((n + 50) / 32). intros m Hm Hq. cbv zeta.
  assert (m = 1 \/ m = 2 \/ m = 3 \/ m = 4 \/ m = 5 \/ m = 6 \/ m = 7 \/ m = 8
          \/ m = 9 \/ m = 10 \/ m = 11 \/ m = 12) as C by lia.
  destruct leap;
  repeat (destruct C as [->|C]); try subst m;
    repeat match goal with
    | |- context [Z.pos ?a - 1] =>
        let v := eval vm_compute in (Z.pos a - 1) in
        change (Z.pos a - 1) with v
    end; cbn;
    match goal with
    | |- context [?a >? n] => destruct (Z.gtb_spec a n)
    end; cbn; lia.
Qed.

(** [_ymd2ord] undoes [_ord2ymd]. *)
Lemma ymd2ord_ord2ymd (n : Z) :
  let '(y, m, d) := _ord2ymd n in
  _ymd2ord y m d = n /\ 1 <= m <= 12.
Proof.
  unfold _ord2ymd, _DI400Y, _DI100Y, _DI4Y. cbv zeta.
  split_cycles n a b c d r4.
  assert (0 <= b <= 4) by lia. assert (0 <= c <= 24) by lia.
  assert (0 <= d <= 4) by lia.
  destruct ((d =? 4) || (b =? 4)) eqn:Special.
  - apply orb_true_iff in Special. rewrite !Z.eqb_eq in Special.
    unfold _ymd2ord, _days_before_year, _days_before_month, _is_leap.
    cbn [_DAYS_BEFORE_MONTH]. split; [|lia].
    replace (a * 400 + 1 + b * 100 + c * 4 + d - 1)
      with (400 * a + 100 * b + 4 * c + d) by lia.
    assert (((400 * a + 100 * b + 4 * c + d) mod 4 =? 0) &&
      (negb ((400 * a + 100 * b + 4 * c + d) mod 100 =? 0)
       || ((400 * a + 100 * b + 4 * c + d) mod 400 =? 0)) = true) as ->.
    { rewrite !andb_true_iff, !orb_true_iff, !negb_true_iff, !Z.eqb_eq, !Z.eqb_neq.
      Z.div_mod_to_equations. lia. }
    change (12 >? 2) with true. cbn [andb].
    Z.div_mod_to_equations. lia.
  - apply orb_false_iff in Special. rewrite !Z.eqb_neq in Special.
    assert (0 <= b <= 3) as Hb by lia. assert (0 <= d <= 3) as Hd by lia.
    assert (0 <= r4 <= 364) as Hr by lia.
    pose proof (month_day_roundtrip
                  ((d =? 3) && (negb (c =? 24) || (b =? 3))) r4 Hr) as MD.
    cbv zeta in MD.
    replace (a * 400 + 1 + b * 100 + c * 4 + d)
      with (400 * a + 100 * b + 4 * c + d + 1) by lia.
    destruct (_ >? r4); destruct MD as (Hm & Hp & Hle); (split; [|exact Hm]);
      unfold _ymd2ord, _days_before_month;
      rewrite days_before_year_cycles, is_leap_cycles by assumption;
      first [lia | rewrite <- Hp; lia].
Qed.


(** The ordinals up to [_MAXORDINAL] are the days of the years 1 to
    9999. *)
Lemma ord2ymd_year_range (n : Z) :
  1 <= n <= _MAXORDINAL ->
  let '(y, _, _) := _ord2ymd n in MINYEAR <= y <= MAXYEAR.
Proof.
  unfold _MAXORDINAL, MINYEAR, MAXYEAR. intros Hn.
  unfold _ord2ymd, _DI400Y, _DI100Y, _DI4Y. cbv zeta.
  split_cycles n a b c d r4.
  destruct ((d =? 4) || (b =? 4)) eqn:Special.
  - apply orb_true_iff in Special. rewrite !Z.eqb_eq in Special. lia.
  - apply orb_false_iff in Special. rewrite !Z.eqb_neq in Special.
    destruct (_ >? r4); lia.
Qed.

(** Reading the clock gives the fields of the instant. *)
Lemma utcfromtimestamp_civil (clock : Z) :
  representable (clock / 1000000) ->
  utcfromtimestamp clock = Returns (civil (clock / 1000000) (clock mod 1000000)).
Proof.
  intros R. unfold utcfromtimestamp, civil.
  pose proof (ord2ymd_year_range _ R) as Y.
  destruct (_ord2ymd _) as [[y m] d].
  destruct (Z.leb_spec MINYEAR y), (Z.leb_spec y MAXYEAR); try lia.
  reflexivity.
Qed.

(** The duration built from the fields of a time of day. *)
Lemma timedelta_new_normal (d s us : Z) :
  Z.abs d <= 999999999 -> 0 <= s < 86400 -> 0 <= us < 1000000 ->
  timedelta_new d (s / 3600) (s mod 3600 / 60) (s mod 60) us
  = Returns (Timedelta d s us).
Proof.
  intros Hd Hs Hus. unfold timedelta_new.
  assert (s / 3600 * 3600 + s mod 3600 / 60 * 60 + s mod 60 + us / 1000000 = s)
    as -> by (Z.div_mod_to_equations; lia).
  rewrite (Z.mod_small us), (Z.div_small s), (Z.mod_small s), Z.add_0_r by lia.
  destruct (Z.gtb_spec (Z.abs d) 999999999); [lia | reflexivity].
Qed.

(** Adding a duration to the fields of an instant gives the fields of
    the later instant, as long as both are dates of [datetime]. *)
Lemma datetime_add_civil (t us dd ss : Z) :
  0 <= us < 1000000 -> 0 <= ss < 86400 ->
  representable t -> representable (t + dd * 86400 + ss) ->
  datetime_add (civil t us) (Timedelta dd ss 0)
  = Returns (civil (t + dd * 86400 + ss) us).
Proof.
  unfold representable, _MAXORDINAL. intros Hus Hss Rt Rt'.
  unfold datetime_add, civil.
  pose proof (ymd2ord_ord2ymd (719163 + t / 86400)) as RT.
  destruct (_ord2ymd (719163 + t / 86400)) as [[y m] d]. destruct RT as [RT _].
  unfold toordinal. cbn [year month day hour minute second microsecond].
  rewrite RT.
  pose proof (Z.mod_pos_bound t 86400 ltac:(lia)) as Bsod.
  rewrite timedelta_new_normal by lia. cbn [and_then].
  unfold timedelta_add, timedelta_new. cbn [days seconds microseconds].
  assert ((t + dd * 86400 + ss) / 86400
          = t / 86400 + dd + (t mod 86400 + ss) / 86400)
    as Eq by (Z.div_mod_to_equations; lia).
  assert ((t + dd * 86400 + ss) mod 86400 = (t mod 86400 + ss) mod 86400)
    as Er by (Z.div_mod_to_equations; lia).
  rewrite Eq in Rt'. rewrite Eq, Er.
  replace (0 * 3600 + 0 * 60 + (t mod 86400 + ss) + (us + 0) / 1000000)
    with (t mod 86400 + ss) by (Z.div_mod_to_equations; lia).
  replace ((us + 0) mod 1000000) with us by (Z.div_mod_to_equations; lia).
  replace (719163 + t / 86400 + dd + (t mod 86400 + ss) / 86400)
    with (719163 + (t / 86400 + dd + (t mod 86400 + ss) / 86400)) by lia.
  set (ord := 719163 + (t / 86400 + dd + (t mod 86400 + ss) / 86400)) in *.
  destruct (Z.gtb_spec (Z.abs ord) 999999999); [lia|]. cbn [and_then].
  cbn [days seconds microseconds].
  unfold _MAXORDINAL.
  destruct (Z.ltb_spec 0 ord); [|lia].
  destruct (Z.leb_spec ord 3652059); [|lia]. cbn [andb].
  destruct (_ord2ymd ord) as [[y' m'] d'].
  do 2 f_equal. Z.div_mod_to_equations. lia.
Qed.

(** The day of the month that [_ord2ymd] finds is one of the month. *)
Lemma month_day_range (leap : bool) (n : Z) :
  0 <= n <= 364 ->
  let m := Z.shiftr (n + 50) 5 in
  let preceding := _DAYS_BEFORE_MONTH m + (if (m >? 2) && leap then 1 else 0) in
  let p' :=
    if preceding >? n
    then preceding - (_DAYS_IN_MONTH (m - 1)
                      + (if (m - 1 =? 2) && leap then 1 else 0))
    else preceding in
  p' <= n <= p' + 30.
Proof.
  intros Hn. rewrite Z.shiftr_div_pow2 by lia. change (2 ^ 5) with 32.
  assert (1 <= (n + 50) / 32 <= 12) as Hm by (Z.div_mod_to_equations; lia).
  assert (32 * ((n + 50) / 32) <= n + 50 < 32 * ((n + 50) / 32) + 32) as Hq
    by (Z.div_mod_to_equations; lia).
  generalize dependent ((n + 50) / 32). intros m Hm Hq. cbv zeta.
  assert (m = 1 \/ m = 2 \/ m = 3 \/ m = 4 \/ m = 5 \/ m = 6 \/ m = 7 \/ m = 8
          \/ m = 9 \/ m = 10 \/ m = 11 \/ m = 12) as C by lia.
  destruct leap;
  repeat (destruct C as [->|C]); try subst m;
    repeat match goal with
    | |- context [Z.pos ?a - 1] =>
        let v := eval vm_compute in (Z.pos a - 1) in
        change (Z.pos a - 1) with v
    end; cbn;
    match goal with
    | |- context [?a >? n] => destruct (Z.gtb_spec a n)
    end; cbn; lia.
Qed.

Lemma ord2ymd_day_range (n : Z) :
  let '(_, _, d) := _ord2ymd n in 1 <= d <= 31.
Proof.
  unfold _ord2ymd, _DI400Y, _DI100Y, _DI4Y. cbv zeta.
  split_cycles n a b c d r4.
  destruct ((d =? 4) || (b =? 4)); [lia|].
  assert (0 <= r4 <= 364) as Hr by lia.
  pose proof (month_day_range
                ((d =? 3) && (negb (c =? 24) || (b =? 3))) r4 Hr) as MD.
  cbv zeta in MD.
  destruct (_ >? r4); lia.
Qed.

(** From the ordinal of 1000-01-01 on the year has four digits. *)
Lemma ord2ymd_four_digit_year (n : Z) :
  364878 <= n <= _MAXORDINAL ->
  let '(y, _, _) := _ord2ymd n in 1000 <= y <= 9999.
Proof.
  unfold _MAXORDINAL. intros Hn.
  unfold _ord2ymd, _DI400Y, _DI100Y, _DI4Y. cbv zeta.
  split_cycles n a b c d r4.
  destruct ((d =? 4) || (b =? 4)) eqn:Special.
  - apply orb_true_iff in Special. rewrite !Z.eqb_eq in Special. lia.
  - apply orb_false_iff in Special. rewrite !Z.eqb_neq in Special.
    destruct (_ >? r4); lia.
Qed.

(** What [strftime] prints for a field of two digits, and for a year
    of four, is the field digit by digit. *)
Lemma zero_padded_two_digits (n : Z) :
  0 <= n < 100 -> zero_padded 2 n = two_digits n.
Proof.
  intros Hn.
  assert (forallb (fun k => String.eqb (zero_padded 2 (Z.of_nat k))
                                       (two_digits (Z.of_nat k)))
                  (seq 0 100) = true) as All by (vm_compute; reflexivity).
  rewrite forallb_forall in All.
  specialize (All (Z.to_nat n)). rewrite Z2Nat.id in All by lia.
  apply String.eqb_eq, All, in_seq. lia.
Qed.

Lemma str_of_Z_four_digits (n : Z) :
  1000 <= n <= 9999 -> str_of_Z n = four_digits n.
Proof.
  intros Hn.
  assert (forallb (fun k => String.eqb (str_of_Z (Z.of_nat k))
                                       (four_digits (Z.of_nat k)))
                  (seq (Z.to_nat 1000) (Z.to_nat 9000)) = true) as All
    by (vm_compute; reflexivity).
  rewrite forallb_forall in All.
  specialize (All (Z.to_nat n)). rewrite Z2Nat.id in All by lia.
  apply String.eqb_eq, All, in_seq. lia.
Qed.

(** In a year of four digits the two [strftime] formats of the code,
    with a ["T"] between them, are the ISO 8601 form of the instant. *)
Lemma strftime_iso8601 (t us : Z) :
  representable t -> four_digit_year t ->
  fmt_Y_m_d (civil t us) ++ "T" ++ fmt_H_M_S (civil t us)
  = iso8601 (civil t 0).
Proof.
  unfold representable, four_digit_year. intros R Y.
  unfold civil.
  pose proof (ord2ymd_four_digit_year (719163 + t / 86400) ltac:(lia)) as Hy.
  pose proof (ord2ymd_day_range (719163 + t / 86400)) as Hd.
  pose proof (ymd2ord_ord2ymd (719163 + t / 86400)) as Hm.
  destruct (_ord2ymd (719163 + t / 86400)) as [[y m] d].
  destruct Hm as [_ Hm].
  unfold fmt_Y_m_d, fmt_H_M_S, iso8601.
  cbn [year month day hour minute second].
  rewrite (str_of_Z_four_digits y Hy).
  rewrite !zero_padded_two_digits by (Z.div_mod_to_equations; lia).
  now rewrite !string_app_assoc.
Qed.

(** [_calculate_publish_time] computes the time the specification
    states. *)
Lemma calculate_publish_time_as_stated (me : self) (clock : Z) :
  representable (clock / 1000000) ->
  representable (clock / 1000000 + 8 * 3600) ->
  representable (clock / 1000000 + 8 * 3600 + hours_delay me * 3600) ->
  four_digit_year (clock / 1000000 + 8 * 3600 + hours_delay me * 3600) ->
  _calculate_publish_time me clock
  = Returns (publish_at_as_stated clock (hours_delay me)).
Proof.
  intros R0 R1 R2 Y. unfold _calculate_publish_time, now.
  rewrite utcfromtimestamp_civil by assumption. cbn [and_then].
  pose proof (Z.mod_pos_bound clock 1000000 ltac:(lia)) as Bus.
  unfold SGT.
  rewrite (datetime_add_civil (clock / 1000000) _ 0 28800)
    by (try lia; try assumption;
        replace (clock / 1000000 + 0 * 86400 + 28800)
          with (clock / 1000000 + 8 * 3600) by lia; assumption).
  cbn [and_then].
  replace (clock / 1000000 + 0 * 86400 + 28800)
    with (clock / 1000000 + 8 * 3600) by lia.
  set (h := hours_delay me) in *.
  set (t := clock / 1000000 + 8 * 3600) in *.
  assert (timedelta_new 0 h 0 0 0
          = Returns (Timedelta (h * 3600 / 86400) ((h * 3600) mod 86400) 0)) as ->.
  { unfold timedelta_new.
    replace (h * 3600 + 0 * 60 + 0 + 0 / 1000000) with (h * 3600)
      by (Z.div_mod_to_equations; lia).
    change (0 mod 1000000) with 0. rewrite Z.add_0_l.
    destruct (Z.gtb_spec (Z.abs (h * 3600 / 86400)) 999999999); [|reflexivity].
    unfold representable, _MAXORDINAL in R1, R2.
    Z.div_mod_to_equations. lia. }
  cbn [and_then].
  pose proof (Z.mod_pos_bound (h * 3600) 86400 ltac:(lia)) as Bss.
  assert (t + h * 3600 / 86400 * 86400 + (h * 3600) mod 86400 = t + h * 3600)
    as Et by (Z.div_mod_to_equations; lia).
  rewrite datetime_add_civil by (try lia; try assumption; now rewrite Et).
  cbn [and_then]. rewrite Et.
  unfold publish_at_as_stated. fold t.
  rewrite <- (strftime_iso8601 (t + h * 3600) (clock mod 1000000) R2 Y).
  now rewrite !string_app_assoc.
Qed.

(** Before the year 1000 [%Y] prints fewer than four digits: the
    sample upload with a delay of -9000000 hours. *)
Example publish_at_in_the_year_998 :
  choose_publish_at (__init__ "key" (-9000000) 17 false) upload_time
  = Returns "998-04-11T11:00:00+08:00".
Proof. vm_compute. reflexivity. Qed.

End DateFacts.

Section PublisherCalls.
Import Py TypefullyPublisher.
Open Scope py_scope.
Variable py_repr : value -> string.

(** The lookup returns, and sends no draft request. *)
Lemma _get_social_set_id_sends_no_post (me : self) (net : network)
    (st : state) :
  exists id st' new,
    _get_social_set_id me net st = (Returns id, st')
    /\ sent st' = (sent st ++ new)%list
    /\ forall url body, ~ In (Post url body) new.
Proof.
  assert (forall url body, ~ In (Post url body) []) as N0 by (intros ? ? []).
  assert (forall u url body, ~ In (Post url body) [Get u]) as N1
    by (intros ? ? ? [H|[]]; discriminate).
  unfold _get_social_set_id, bind at 1, cached_id.
  destruct (py_truthy (social_set_id st)).
  { exists (social_set_id st), st, []. now rewrite app_nil_r. }
  unfold try_except, bind at 1, http_get.
  destruct (requests_get net _) as [r|e]; [|eexists _, _, [_]; cbn; eauto].
  destruct (status_code r =? 200)%Z; [|eexists _, _, [_]; cbn; eauto].
  unfold bind at 1, lift at 1.
  destruct (json r) as [data|e]; [|eexists _, _, [_]; cbn; eauto].
  unfold bind at 1, lift at 1.
  destruct (dict_get data "results" (VList [])) as [results|e];
    [|eexists _, _, [_]; cbn; eauto].
  destruct (py_truthy results); [|eexists _, _, [_]; cbn; eauto].
  unfold bind at 1, lift at 1.
  destruct (getitem_0 results) as [first|e]; [|eexists _, _, [_]; cbn; eauto].
  unfold bind at 1, lift at 1.
  destruct (dict_get first "id" VNone) as [id|e];
    [|eexists _, _, [_]; cbn; eauto].
  eexists _, _, [_]; cbn; eauto.
Qed.

(** What [publish] sends and reports is the time chosen by
    [choose_publish_at]. *)
Lemma publish_sends_chosen_time (me : self) (net : network) (clock : Z)
    (content : string) (st st' : state) (r : PublishResult) :
  publish py_repr me net clock content st = (Returns r, st') ->
  (exists new,
     sent st' = (sent st ++ new)%list
     /\ forall url body, In (Post url body) new ->
          x_posts body = [content]
          /\ choose_publish_at me clock = Returns (publish_at body))
  /\ (success r = true ->
      exists at_, choose_publish_at me clock = Returns at_
                  /\ scheduled_time r = Some at_).
Proof.
  unfold publish.
  destruct (negb (truthy content) || negb (truthy (strip content))).
  { intros [= <- <-]. split; [|discriminate].
    exists []. rewrite app_nil_r. split; [reflexivity | intros ? ? []]. }
  destruct (_get_social_set_id_sends_no_post me net st)
    as (id & st1 & new & E & S1 & N1).
  unfold bind at 1. rewrite E.
  destruct (negb (py_truthy id)).
  { intros [= <- <-]. split; [|discriminate].
    exists new. split; [exact S1|]. intros url body H. now apply N1 in H. }
  unfold try_except, bind at 1, lift at 1.
  destruct (choose_publish_at me clock) as [at_|e] eqn:A.
  2:{ destruct e as [[] msg]; intros [= <- <-]; (split; [|discriminate]);
        exists new; (split; [exact S1|]); intros url body H; now apply N1 in H. }
  unfold bind at 1, http_post.
  set (url := (base_url me ++ "/social-sets/" ++ py_str py_repr id
               ++ "/drafts")%string).
  set (body := Payload true [content] at_).
  assert (exists new',
            (sent st1 ++ [Post url body] = sent st ++ new')%list
            /\ forall url' body', In (Post url' body') new' ->
                 x_posts body' = [content]
                 /\ Returns at_ = Returns (publish_at body'))
    as Sent.
  { exists (new ++ [Post url body])%list. rewrite S1, app_assoc.
    split; [reflexivity|]. intros url' body' H.
    apply in_app_or in H as [H|[H|[]]]; [now apply N1 in H|].
    injection H as <- <-. split; reflexivity. }
  destruct (requests_post net url body) as [resp|e].
  2:{ destruct e as [[] msg]; intros [= <- <-];
        (split; [exact Sent | discriminate]). }
  destruct ((status_code resp =? 200)%Z || (status_code resp =? 201)%Z).
  - unfold bind at 1, lift at 1.
    destruct (json resp) as [data|e].
    2:{ destruct e as [[] msg]; intros [= <- <-];
          (split; [exact Sent | discriminate]). }
    unfold bind at 1, lift at 1.
    destruct (dict_get data "id" (VStr "unknown")) as [d|e].
    2:{ destruct e as [[] msg]; intros [= <- <-];
          (split; [exact Sent | discriminate]). }
    intros [= <- <-]. split; [exact Sent|]. intros _. exists at_.
    split; reflexivity.
  - intros [= <- <-]. split; [exact Sent | discriminate].
Qed.

End PublisherCalls.

Section PublisherClaims.
Import Py TypefullyPublisher.
Open Scope py_scope.

Lemma strip_truthy (content : string) :
  truthy (strip content) = true -> truthy content = true.
Proof. destruct content; [discriminate | reflexivity]. Qed.

(** The message of a response whose body decodes to an object, and of
    one whose body does not decode. *)
Lemma error_message_of_object (py_repr : value -> string) (answer : response)
    (members : list (string * value)) :
  json answer = Returns (VDict members) ->
  error_message py_repr answer
  = match first_error_field members with
    | Some v => "Typefully error: " ++ py_str py_repr v
    | None => "Typefully API error: " ++ str_of_Z (status_code answer)
    end.
Proof.
  intros J. unfold error_message, first_error_field. rewrite J.
  cbn [and_then py_in getitem].
  destruct (assoc "error" members); [reflexivity|].
  cbn [and_then].
  destruct (assoc "message" members); [reflexivity|].
  cbn [and_then].
  destruct (assoc "detail" members); reflexivity.
Qed.

Lemma error_message_of_undecodable (py_repr : value -> string)
    (answer : response) (e : exn) :
  json answer = Raises e ->
  error_message py_repr answer
  = "Typefully API error: " ++ str_of_Z (status_code answer) ++ " - "
    ++ text answer.
Proof.
  intros J. unfold error_message. rewrite J. cbn [and_then].
  apply string_app_assoc.
Qed.

(** A run that reaches the draft request and gets a response that is
    not a success returns the failure built from [error_message]. *)
Lemma publish_of_refusal (py_repr : value -> string) (me : self)
    (net : network) (clock : Z) (content : string) (st : state)
    (answer : response) :
  submission_answered py_repr me net clock content st answer ->
  status_code answer <> 200%Z -> status_code answer <> 201%Z ->
  exists st',
    publish py_repr me net clock content st
    = (Returns (failure (error_message py_repr answer)), st').
Proof.
  intros (C & id & st1 & at_ & E & T & A & P) N200 N201.
  unfold publish. rewrite C, (strip_truthy _ C). cbn [negb orb].
  unfold bind at 1. rewrite E, T. cbn [negb].
  unfold try_except, bind at 1, lift at 1. rewrite A.
  unfold bind at 1, http_post. rewrite P.
  apply Z.eqb_neq in N200, N201. rewrite N200, N201. cbn [orb].
  unfold ret. eauto.
Qed.

(** C7. For every content that is empty or only whitespace, [publish]
    returns the failure ["Content is empty"] and leaves the state as it
    was: no call was sent (neither the lookup of the identifier nor
    the draft request) and the cached identifier is unchanged. *)
Theorem publish_blank_content_sends_nothing :
  forall (py_repr : value -> string) (me : self) (net : network) (clock : Z)
         (content : string) (st : state),
    blank content ->
    publish py_repr me net clock content st
    = (Returns (failure "Content is empty"), st).
Proof.
  intros py_repr me net clock content st B.
  unfold publish. rewrite (blank_strip _ B).
  cbn [negb]. rewrite orb_true_r. reflexivity.
Qed.

Lemma publish_blank_content_spaces :
  publish repr_of_id immediate (answering rate_limited) 0 "   " initial
  = (Returns (failure "Content is empty"), initial).
Proof.
  apply publish_blank_content_sends_nothing. reflexivity.
Defined.

(** The message of a response whose body decodes to [null], a
    boolean or a number: the membership test raises. *)
Lemma error_message_of_scalar (py_repr : value -> string) (answer : response)
    (v : value) :
  json answer = Returns v ->
  v = VNone \/ (exists b, v = VBool b) \/ (exists n, v = VInt n)
  \/ (exists f, v = VFloat f) ->
  error_message py_repr answer
  = "Typefully API error: " ++ str_of_Z (status_code answer) ++ " - "
    ++ text answer.
Proof.
  intros J H. unfold error_message. rewrite J.
  destruct H as [->|[[b ->]|[[n ->]|[f ->]]]]; cbn [and_then py_in];
    apply string_app_assoc.
Qed.

Lemma py_in_list (key : string) (items : list value) :
  exists found,
    py_in key (VList items) = Returns found
    /\ (found = true <-> VStr key ∈ items).
Proof.
  cbn [py_in]. eexists. split; [reflexivity|].
  induction items as [|x items IH]; cbn [existsb].
  - split; [discriminate | intros H; inversion H].
  - rewrite orb_true_iff, IH, elem_of_cons. split; intros [H|H]; auto.
    + left. destruct x; try discriminate. apply String.eqb_eq in H.
      now subst.
    + left. subst x. apply String.eqb_refl.
Qed.

Lemma py_in_str (key s : string) :
  exists found,
    py_in key (VStr s) = Returns found
    /\ (found = true <-> exists before after, s = before ++ key ++ after).
Proof.
  cbn [py_in]. eexists. split; [reflexivity|]. split.
  - apply contains_split.
  - intros (before & after & ->). apply contains_app.
Qed.

(** The message of a response whose body decodes to a list or to a
    string: a name that is found makes the subscript raise. *)
Lemma error_message_of_sequence (py_repr : value -> string)
    (answer : response) (v : value) (named : string -> Prop) :
  json answer = Returns v ->
  (exists items, v = VList items) \/ (exists s, v = VStr s) ->
  (forall key, exists found,
     py_in key v = Returns found /\ (found = true <-> named key)) ->
  ((exists name, name ∈ error_fields /\ named name) ->
   error_message py_repr answer
   = "Typefully API error: " ++ str_of_Z (status_code answer) ++ " - "
     ++ text answer)
  /\ ((forall name, name ∈ error_fields -> ~ named name) ->
      error_message py_repr answer
      = "Typefully API error: " ++ str_of_Z (status_code answer)).
Proof.
  intros J Shape In. unfold error_message. rewrite J. cbn [and_then].
  assert (forall key, exists e, getitem v key = Raises e) as Sub.
  { intros key. destruct Shape as [[items ->]|[s ->]]; cbn [getitem]; eauto. }
  destruct (In "error") as (fe & -> & He), (In "message") as (fm & -> & Hm),
           (In "detail") as (fd & -> & Hd).
  cbn [and_then].
  destruct (Sub "error") as [e1 ->], (Sub "message") as [e2 ->],
           (Sub "detail") as [e3 ->].
  assert (forall name, name ∈ error_fields ->
            name = "error" \/ name = "message" \/ name = "detail") as Names.
  { intros name H. unfold error_fields in H.
    repeat (apply elem_of_cons in H as [H|H]; [auto|]). inversion H. }
  assert ("error" ∈ error_fields /\ "message" ∈ error_fields
          /\ "detail" ∈ error_fields) as (Ie & Im & Id).
  { unfold error_fields. repeat split; repeat constructor. }
  destruct fe; cbn [and_then].
  { split; [intros _; apply string_app_assoc|].
    intros None_. destruct (None_ _ Ie). now apply He. }
  destruct fm; cbn [and_then].
  { split; [intros _; apply string_app_assoc|].
    intros None_. destruct (None_ _ Im). now apply Hm. }
  destruct fd; cbn [and_then].
  { split; [intros _; apply string_app_assoc|].
    intros None_. destruct (None_ _ Id). now apply Hd. }
  split; [|reflexivity].
  intros (name & Hn & Found). exfalso.
  destruct (Names _ Hn) as [E|[E|E]]; subst name;
    [apply He in Found | apply Hm in Found | apply Hd in Found];
    discriminate.
Qed.

(** C8 (amended). For every response to the draft request whose status
    is neither 200 nor 201, [publish] returns a failure.  When the body
    decodes to an object, the message is ["Typefully error: "] followed
    by the first of the fields ["error"], ["message"], ["detail"] that
    the object has, and ["Typefully API error: <status>"] when it has
    none of them.  When reading the fields raises (the body does not
    decode, or it decodes to [null], a boolean or a number, or to a
    list or a string that contains one of the three names), the
    message is ["Typefully API error: <status> - "] followed by the raw
    text; a list or a string that contains none of the names gives the
    status alone. *)
Theorem publish_refusal_message :
  forall (py_repr : value -> string) (me : self) (net : network) (clock : Z)
         (content : string) (st : state) (answer : response),
    submission_answered py_repr me net clock content st answer ->
    status_code answer <> 200%Z -> status_code answer <> 201%Z ->
    exists msg st',
      publish py_repr me net clock content st = (Returns (failure msg), st')
      /\ (forall members, json answer = Returns (VDict members) ->
            msg = match first_error_field members with
                  | Some v => "Typefully error: " ++ py_str py_repr v
                  | None => "Typefully API error: "
                            ++ str_of_Z (status_code answer)
                  end)
      /\ (forall e, json answer = Raises e ->
            msg = "Typefully API error: " ++ str_of_Z (status_code answer)
                  ++ " - " ++ text answer)
      /\ (forall v, json answer = Returns v ->
            v = VNone \/ (exists b, v = VBool b) \/ (exists n, v = VInt n)
            \/ (exists f, v = VFloat f) ->
            msg = "Typefully API error: " ++ str_of_Z (status_code answer)
                  ++ " - " ++ text answer)
      /\ (forall items, json answer = Returns (VList items) ->
            ((exists name, name ∈ error_fields /\ VStr name ∈ items) ->
             msg = "Typefully API error: " ++ str_of_Z (status_code answer)
                   ++ " - " ++ text answer)
            /\ ((forall name, name ∈ error_fields -> VStr name ∉ items) ->
                msg = "Typefully API error: "
                      ++ str_of_Z (status_code answer)))
      /\ (forall s, json answer = Returns (VStr s) ->
            ((exists name before after,
                name ∈ error_fields /\ s = before ++ name ++ after) ->
             msg = "Typefully API error: " ++ str_of_Z (status_code answer)
                   ++ " - " ++ text answer)
            /\ ((forall name before after,
                   name ∈ error_fields -> s <> before ++ name ++ after) ->
                msg = "Typefully API error: "
                      ++ str_of_Z (status_code answer))).
Proof.
  intros py_repr me net clock content st answer H N200 N201.
  destruct (publish_of_refusal py_repr me net clock content st answer H N200 N201)
    as [st' E].
  exists (error_message py_repr answer), st'. split; [exact E|].
  split; [apply error_message_of_object|].
  split; [apply error_message_of_undecodable|].
  split; [apply error_message_of_scalar|].
  split.
  - intros items J.
    apply (error_message_of_sequence py_repr answer (VList items)
             (fun key => VStr key ∈ items) J); [left; eauto|].
    intros key. apply py_in_list.
  - intros s J.
    destruct (error_message_of_sequence py_repr answer (VStr s)
                (fun key => exists before after, s = before ++ key ++ after) J)
      as [Raw Alone]; [right; eauto | intros key; apply py_in_str|].
    split.
    + intros (name & before & after & Hn & Hs). apply Raw. eauto.
    + intros None_. apply Alone. intros name Hn (before & after & Hs).
      now apply (None_ name before after).
Qed.

(** The example of the specification: status 429 with the body
    [{"message": "rate limited"}]. *)
Lemma publish_refusal_message_rate_limited :
  exists st',
    publish repr_of_id immediate (answering rate_limited) 0 "gm" initial
    = (Returns (failure "Typefully error: rate limited"), st')
    /\ contains "Typefully error: rate limited" "rate limited" = true.
Proof.
  destruct (publish_refusal_message repr_of_id immediate
              (answering rate_limited) 0 "gm" initial rate_limited)
    as (msg & st' & E & Hobj & _).
  - split; [reflexivity|].
    exists (VInt 4711), (State (VInt 4711) [Get "https://api.typefully.com/v2/social-sets"]), "now".
    repeat split; reflexivity.
  - discriminate.
  - discriminate.
  - exists st'. rewrite E, (Hobj _ eq_refl). split; reflexivity.
Defined.

(** C8 as stated fails: a refusal whose body is an object with none of
    the three fields yields the status alone; the raw text of the
    response is not in the message. *)
Lemma publish_refusal_without_fields_omits_text :
  exists st',
    publish repr_of_id immediate (answering unknown_fields) 0 "gm" initial
    = (Returns (failure "Typefully API error: 500"), st')
    /\ contains "Typefully API error: 500" (text unknown_fields) = false.
Proof. eexists. split; vm_compute; reflexivity. Qed.

(** C10. Every run of [publish] returns a result, and the result
    satisfies the invariant: a success carries [url] and [draft_id]
    and no [error_msg]; a failure carries an [error_msg]. *)
Theorem publish_result_well_formed :
  forall (py_repr : value -> string) (me : self) (net : network) (clock : Z)
         (content : string) (st : state),
  exists r st',
    publish py_repr me net clock content st = (Returns r, st')
    /\ well_formed r.
Proof.
  intros py_repr me net clock content st.
  destruct (publish_returns_shape py_repr me net clock content st)
    as (r & st' & E & S).
  exists r, st'. split; [exact E|]. now apply publish_shape_well_formed.
Qed.

End PublisherClaims.

(* ================================================================= *)
(** ** The formatter *)

Section FormatterClaims.
Import Py Main.

Lemma append_entries_imap (projects : list project) :
  forall (i : nat) (lines : list string),
    append_entries i projects lines
    = (lines ++ imap (fun k p => entry (i + k) p) projects)%list.
Proof.
  induction projects as [|p rest IH]; intros i lines.
  - simpl. now rewrite app_nil_r.
  - cbn [append_entries]. rewrite IH, <- app_assoc. f_equal.
    cbn [imap app]. f_equal.
    + rewrite Nat.add_0_r. unfold entry.
      destruct (default EmptyString (handle p)) as [|c h],
               (default EmptyString (summary p)) as [|c' s];
        cbn [truthy]; rewrite ?string_app_assoc; reflexivity.
    + apply imap_ext. intros k q _. simpl. f_equal. lia.
Qed.

(** [%b %d] of a date is the name of its month and its day in two
    digits. *)
Lemma fmt_b_d_of_date (local_now : Datetime.datetime) :
  is_date local_now ->
  "Early web3 projects (" ++ Datetime.fmt_b_d local_now ++ ")"
  = header local_now.
Proof.
  intros [Hm Hd]. unfold header, Datetime.fmt_b_d.
  rewrite (zero_padded_two_digits (Datetime.day local_now)) by lia.
  assert (forall m, (1 <= m <= 12)%Z ->
            Datetime.month_abbr m
            = default "?" (month_names !! Z.to_nat (m - 1))) as Names.
  { intros m H.
    assert (m = 1 \/ m = 2 \/ m = 3 \/ m = 4 \/ m = 5 \/ m = 6 \/ m = 7
            \/ m = 8 \/ m = 9 \/ m = 10 \/ m = 11 \/ m = 12)%Z as C by lia.
    repeat (destruct C as [->|C]; [reflexivity|]). now subst m. }
  rewrite (Names _ Hm). now rewrite !string_app_assoc.
Qed.

(** C9. For every list of records and every date, [format_tweet] is
    the header line with the month and the day of that date, followed
    by one entry per record, in the order of the list and numbered from
    1, all joined by two newlines.  An entry is ["{index} {name}"],
    with [" (@{handle})"] added when the handle is not empty and
    [": {summary}"] added when the summary is not empty.  The example of
    the specification follows, on two dates. *)
Theorem format_tweet_entries_in_order :
  (forall (local_now : Datetime.datetime) (projects : list project),
     is_date local_now ->
     format_tweet local_now projects
     = join (nl ++ nl)
         (header local_now :: imap (fun k p => entry (S k) p) projects))
  /\
  format_tweet (Datetime.Datetime 2024 12 28 11 0 0 0)
    [Project (Some "X") (Some "x") None None (Some "s");
     Project (Some "Y") None None None (Some EmptyString)]
  = "Early web3 projects (Dec 28)" ++ nl ++ nl ++ "1 X (@x): s"
    ++ nl ++ nl ++ "2 Y"
  /\
  format_tweet (Datetime.Datetime 2025 1 5 23 59 59 0)
    [Project (Some "X") (Some "x") None None (Some "s");
     Project (Some "Y") None None None (Some EmptyString)]
  = "Early web3 projects (Jan 05)" ++ nl ++ nl ++ "1 X (@x): s"
    ++ nl ++ nl ++ "2 Y".
Proof.
  split; [|split; reflexivity].
  intros local_now projects D. unfold format_tweet.
  rewrite append_entries_imap. cbn [app]. now rewrite (fmt_b_d_of_date _ D).
Qed.

(** The message of 28 December for an empty list of records. *)
Lemma format_tweet_header_only :
  format_tweet (Datetime.Datetime 2024 12 28 11 0 0 0) []
  = "Early web3 projects (Dec 28)".
Proof.
  rewrite (proj1 format_tweet_entries_in_order
             (Datetime.Datetime 2024 12 28 11 0 0 0) []); [reflexivity|].
  unfold is_date. cbn. lia.
Defined.

End FormatterClaims.

Section ScheduleClaims.
Import Py TypefullyPublisher.

(** C4. In delayed mode the publish time is the current instant on
    the clock of the fixed zone UTC+8 plus [hours_delay] hours, written
    in ISO 8601 at second precision and ending in ["+08:00"] (as long as
    the dates involved are dates of [datetime] and the publish time
    falls in a year of four digits, 1000 or later); in immediate mode
    it is ["now"] whatever the delay.  Every draft request that
    [publish] sends carries that value as [publish_at], and a success
    reports it as [scheduled_time]. *)
Theorem publish_at_is_delayed_local_time_or_now :
  (forall (me : self) (clock : Z),
     publish_now me = false ->
     in_datetime_range clock (hours_delay me) ->
     Datetime.four_digit_year
       (clock / 1000000 + 8 * 3600 + hours_delay me * 3600) ->
     choose_publish_at me clock
     = Returns (publish_at_as_stated clock (hours_delay me)))
  /\
  (forall (me : self) (clock : Z),
     publish_now me = true -> choose_publish_at me clock = Returns "now")
  /\
  (forall (py_repr : value -> string) (me : self) (net : network) (clock : Z)
          (content : string) (st st' : state) (r : PublishResult),
     publish py_repr me net clock content st = (Returns r, st') ->
     (exists new,
        sent st' = (sent st ++ new)%list
        /\ forall url body, In (Post url body) new ->
             x_posts body = [content]
             /\ choose_publish_at me clock = Returns (publish_at body))
     /\ (success r = true ->
         exists at_, choose_publish_at me clock = Returns at_
                     /\ scheduled_time r = Some at_)).
Proof.
  split; [|split].
  - intros me clock Mode (R0 & R1 & R2) Y. unfold choose_publish_at.
    rewrite Mode. now apply calculate_publish_time_as_stated.
  - intros me clock Mode. unfold choose_publish_at. now rewrite Mode.
  - apply publish_sends_chosen_time.
Qed.

(** The example of the source: an upload at 11:00 in Singapore with a
    delay of six hours is published at 17:00. *)
Lemma publish_at_six_hours_after_upload :
  choose_publish_at delayed upload_time = Returns "2024-12-28T17:00:00+08:00"
  /\ choose_publish_at immediate upload_time = Returns "now".
Proof.
  destruct publish_at_is_delayed_local_time_or_now as (D & N & _).
  split.
  - rewrite (D delayed upload_time eq_refl); [reflexivity | |].
    + unfold in_datetime_range, Datetime.representable; vm_compute;
        repeat split; discriminate.
    + unfold Datetime.four_digit_year; vm_compute; discriminate.
  - exact (N immediate upload_time eq_refl).
Defined.

End ScheduleClaims.

(* ################################################################# *)
(** * Part III: further properties of the code *)

(* ================================================================= *)
(** ** More on strings *)

Section MoreStringFacts.
Import Py.

Lemma lstrip_by_first (p : ascii -> bool) (s : string) (c : ascii) :
  first_char (lstrip_by p s) = Some c -> p c = false.
Proof.
  induction s as [|a s IH]; simpl; [discriminate|].
  destruct (p a) eqn:E; [exact IH|]. simpl. now intros [= <-].
Qed.

Lemma rstrip_by_first (p : ascii -> bool) (s : string) (c : ascii) :
  first_char (rstrip_by p s) = Some c -> first_char s = Some c.
Proof.
  destruct s as [|a s]; simpl; [discriminate|].
  destruct (rstrip_by p s); [destruct (p a)|]; simpl; congruence.
Qed.

Lemma rstrip_by_last (p : ascii -> bool) (s : string) (c : ascii) :
  last_char (rstrip_by p s) = Some c -> p c = false.
Proof.
  induction s as [|a s IH]; simpl; [discriminate|].
  destruct (rstrip_by p s) as [|b r] eqn:R.
  - destruct (p a) eqn:E; simpl; [discriminate|]. now intros [= <-].
  - exact IH.
Qed.

Lemma strip_by_trimmed (p : ascii -> bool) (s : string) :
  trimmed p (rstrip_by p (lstrip_by p s)).
Proof.
  split; intros c H.
  - apply rstrip_by_first in H. now apply lstrip_by_first in H.
  - now apply rstrip_by_last in H.
Qed.

Lemma strip_chars_trimmed (chars : list ascii) (s : string) :
  trimmed (one_of chars) (strip_chars chars s).
Proof. apply strip_by_trimmed. Qed.

Lemma strip_trimmed (s : string) : trimmed isspace (strip s).
Proof. apply strip_by_trimmed. Qed.

Lemma strip_empty : strip EmptyString = EmptyString.
Proof. reflexivity. Qed.

(** A string that starts with a character that is not whitespace does
    not strip to nothing. *)
Lemma strip_of_visible (c : ascii) (s : string) :
  isspace c = false -> truthy (strip (String c s)) = true.
Proof.
  intros H. unfold strip. simpl lstrip_by. rewrite H. simpl.
  destruct (rstrip_by isspace s); [now rewrite H | reflexivity].
Qed.

Lemma string_app_empty_r (s : string) : s ++ EmptyString = s.
Proof.
  induction s as [|c s IH]; [reflexivity|].
  change (String c (s ++ EmptyString) = String c s). now f_equal.
Qed.

Lemma words_from_word (w rest cur : string) :
  forallb (fun c => negb (isspace c)) (list_ascii_of_string w) = true ->
  words_from cur (w ++ rest) = words_from (cur ++ w) rest.
Proof.
  revert cur. induction w as [|c w IH]; intros cur H.
  - change (EmptyString ++ rest) with rest. now rewrite string_app_empty_r.
  - simpl in H. apply andb_true_iff in H as [Hc Hw].
    apply negb_true_iff in Hc.
    change (String c w ++ rest) with (String c (w ++ rest)).
    cbn [words_from]. rewrite Hc, IH by assumption. f_equal.
    rewrite string_app_assoc. reflexivity.
Qed.

Lemma truthy_app_l (a b : string) : truthy a = true -> truthy (a ++ b) = true.
Proof. destruct a; [discriminate | reflexivity]. Qed.

Lemma nospace_app (a b : string) :
  forallb (fun c => negb (isspace c)) (list_ascii_of_string a) = true ->
  forallb (fun c => negb (isspace c)) (list_ascii_of_string b) = true ->
  forallb (fun c => negb (isspace c)) (list_ascii_of_string (a ++ b)) = true.
Proof.
  induction a as [|c a IH]; simpl; [auto|].
  intros H Hb. apply andb_true_iff in H as [-> Ha]. simpl. auto.
Qed.

(** Every element of [s.split()] is a word. *)
Lemma words_from_words (s : string) :
  forall cur,
    forallb (fun c => negb (isspace c)) (list_ascii_of_string cur) = true ->
    Forall is_word (words_from cur s).
Proof.
  induction s as [|c s IH]; intros cur Hcur; simpl.
  - destruct (truthy cur) eqn:T; repeat constructor; assumption.
  - destruct (isspace c) eqn:Sp.
    + destruct (truthy cur) eqn:T.
      * constructor; [split; assumption|]. now apply IH.
      * now apply IH.
    + apply IH. apply nospace_app; [assumption|]. simpl. now rewrite Sp.
Qed.

Lemma split_words (s : string) : Forall is_word (split s).
Proof. now apply words_from_words. Qed.

(** Splitting the words joined by single spaces, with a suffix that
    has no whitespace glued to the last one. *)
Lemma split_join_length (ws : list string) (suffix : string) :
  Forall is_word ws -> is_word suffix ->
  length (split (join " " ws ++ suffix)) = Nat.max (length ws) 1.
Proof.
  intros Hws [Ts Ns]. unfold split, join.
  assert (forall w, truthy w = true ->
            forallb (fun c => negb (isspace c)) (list_ascii_of_string w) = true ->
            words_from EmptyString w = [w]) as One.
  { intros w Tw Nw. rewrite <- (string_app_empty_r w) at 1.
    rewrite words_from_word by assumption.
    change (EmptyString ++ w) with w. cbn [words_from]. now rewrite Tw. }
  induction Hws as [|w ws [Tw Nw] Hws IH].
  - simpl String.concat. change (EmptyString ++ suffix) with suffix.
    now rewrite One.
  - destruct ws as [|w2 r].
    + simpl String.concat. rewrite One; [reflexivity| |].
      * now apply truthy_app_l.
      * now apply nospace_app.
    + change (String.concat " " (w :: w2 :: r))
        with (w ++ " " ++ String.concat " " (w2 :: r)).
      rewrite !string_app_assoc, words_from_word by assumption.
      change (EmptyString ++ w) with w.
      change (" " ++ String.concat " " (w2 :: r) ++ suffix)
        with (String " " (String.concat " " (w2 :: r) ++ suffix)).
      cbn [words_from]. change (isspace " ") with true. cbn iota.
      rewrite Tw. cbn [length]. rewrite IH. simpl. lia.
Qed.

End MoreStringFacts.

Section SummarizerMore.
Import Py GeminiSummarizer.
Open Scope py_scope.

(** What a single-item summary costs: one request unless the
    description is too short, no sleep, no write to the store. *)
Lemma summarize_description_cost (me : self) (description : string)
    (max_words : Z) (st : state) :
  exists summary st',
    summarize_description me description max_words st = (Returns summary, st')
    /\ heap st' = heap st
    /\ slept st' = slept st
    /\ calls st' = calls st + (if too_short description then 0 else 1).
Proof.
  unfold summarize_description.
  destruct (too_short description).
  - eexists _, _. split; [reflexivity|]. cbn. repeat split. lia.
  - unfold try_except, bind, generate_content.
    destruct (client me (calls st) (model_name me) _) as [[[t|]]|e];
      cbn; eexists _, _; (split; [reflexivity|]); cbn; repeat split; lia.
Qed.

Lemma deref_same_heap (st st' : state) (p : ref) :
  heap st' = heap st -> deref st' p = deref st p.
Proof. unfold deref. now intros ->. Qed.

Lemma requests_for_ext (st st' : state) (projects : list ref) :
  (forall p, description (deref st' p) = description (deref st p)) ->
  requests_for st' projects = requests_for st projects.
Proof.
  intros H. unfold requests_for. f_equal.
  assert (forall p, needs_request st' p = needs_request st p) as N
    by (intros p; unfold needs_request; now rewrite H).
  induction projects as [|p rest IH]; [reflexivity|].
  cbn [List.filter]. now rewrite N, IH.
Qed.

(** One round of either loop, with its cost. *)
Lemma summarize_one_cost (me : self) (max_words : Z) (p : ref) (st : state) :
  exists st',
    (d <- read p ;;
     s <- summarize_description me (default EmptyString (description d))
            max_words ;;
     set_summary p s) st = (Returns tt, st')
    /\ (forall q, description (deref st' q) = description (deref st q))
    /\ slept st' = slept st
    /\ calls st' = calls st + (if needs_request st p then 1 else 0).
Proof.
  unfold bind at 1. unfold read at 1.
  destruct (summarize_description_cost me
              (default EmptyString (description (deref st p))) max_words st)
    as (s & st1 & E1 & H1 & S1 & C1).
  unfold bind. rewrite E1.
  exists (snd (set_summary p s st1)). split; [reflexivity|]. split; [|split].
  - intros q. rewrite deref_set_summary.
    destruct (decide (p = q)) as [->|]; cbn;
      now rewrite (deref_same_heap st st1) by assumption.
  - cbn. exact S1.
  - cbn. rewrite C1. unfold needs_request.
    now destruct (too_short _).
Qed.

Lemma assign_individually_cost (me : self) (max_words : Z)
    (projects : list ref) :
  forall (i : nat) (st : state),
  exists st',
    assign_individually me max_words i projects st = (Returns tt, st')
    /\ (forall q, description (deref st' q) = description (deref st q))
    /\ calls st' = calls st + requests_for st projects
    /\ slept st'
       = (slept st
          + RATE_LIMIT_DELAY
            * Z.of_nat (match i with
                        | O => length projects - 1
                        | S _ => length projects
                        end))%Z.
Proof.
  induction projects as [|p rest IH]; intros i st.
  - exists st. split; [reflexivity|]. cbn. repeat split; [lia|].
    destruct i; cbn; lia.
  - cbn [assign_individually].
    set (nap := if Nat.ltb 0 i then sleep RATE_LIMIT_DELAY else ret tt).
    assert (exists st0, nap st = (Returns tt, st0) /\ heap st0 = heap st
              /\ calls st0 = calls st
              /\ slept st0 = (slept st + match i with
                                         | O => 0
                                         | S _ => RATE_LIMIT_DELAY
                                         end)%Z)
      as (st0 & E0 & H0 & C0 & S0).
    { subst nap. destruct i; cbn; eexists; repeat split; cbn; lia. }
    destruct (summarize_one_cost me max_words p st0) as (st1 & E1 & D1 & S1 & C1).
    destruct (IH (S i) st1) as (st' & E' & D' & C' & S').
    assert (forall q, description (deref st1 q) = description (deref st q)) as D.
    { intros q. now rewrite D1, (deref_same_heap st st0). }
    exists st'. split; [|split; [|split]].
    + unfold bind at 1. rewrite E0.
      unfold bind in E1 |- *. unfold read in E1 |- *.
      destruct (summarize_description me _ max_words st0) as [[s|e] st2];
        [|discriminate].
      rewrite E1. exact E'.
    + intros q. now rewrite D'.
    + rewrite C', C1, C0, (requests_for_ext st st1) by assumption.
      unfold requests_for. cbn [List.filter].
      unfold needs_request at 1 3. rewrite (deref_same_heap st st0) by assumption.
      destruct (negb _); cbn [length]; lia.
    + rewrite S', S1, S0. unfold RATE_LIMIT_DELAY. cbn [length].
      destruct i; lia.
Qed.

Lemma assign_from_batch_cost (me : self) (summaries : list string)
    (max_words : Z) (projects : list ref) :
  Forall (fun s => truthy s = true) summaries ->
  forall (i : nat) (st : state),
  exists st',
    assign_from_batch me summaries max_words i projects st = (Returns tt, st')
    /\ (forall q, description (deref st' q) = description (deref st q))
    /\ calls st'
       = calls st + requests_for st (drop (length summaries - i) projects)
    /\ slept st' = slept st.
Proof.
  intros Hs. induction projects as [|p rest IH]; intros i st.
  - exists st. split; [reflexivity|]. rewrite drop_nil. cbn. repeat split. lia.
  - cbn [assign_from_batch].
    assert (exists st1,
      (match summaries !! i with
       | Some s =>
           if truthy s then set_summary p s
           else
             d <- read p ;;
             s' <- summarize_description me
                     (default EmptyString (description d)) max_words ;;
             set_summary p s'
       | None =>
           d <- read p ;;
           s' <- summarize_description me
                   (default EmptyString (description d)) max_words ;;
           set_summary p s'
       end) st = (Returns tt, st1)
      /\ (forall q, description (deref st1 q) = description (deref st q))
      /\ slept st1 = slept st
      /\ calls st1 = calls st + (if decide (i < length summaries) then 0
                                 else if needs_request st p then 1 else 0))
      as (st1 & E1 & D1 & S1 & C1).
    { destruct (summaries !! i) as [s|] eqn:L.
      - rewrite (Forall_lookup_1 _ _ _ _ Hs L).
        apply lookup_lt_Some in L.
        exists (snd (set_summary p s st)). split; [reflexivity|].
        split; [|split].
        + intros q. rewrite deref_set_summary.
          destruct (decide (p = q)) as [->|]; reflexivity.
        + reflexivity.
        + cbn. destruct (decide (i < length summaries)); lia.
      - apply lookup_ge_None in L.
        destruct (summarize_one_cost me max_words p st)
          as (st1 & E1 & D1 & S1 & C1).
        exists st1. split; [exact E1|]. split; [exact D1|].
        split; [exact S1|].
        destruct (decide (i < length summaries)); [lia | exact C1]. }
    destruct (IH (S i) st1) as (st' & E' & D' & C' & S').
    exists st'. unfold bind at 1. rewrite E1, E'.
    split; [reflexivity|]. split; [|split].
    + intros q. now rewrite D'.
    + rewrite C', C1, (requests_for_ext st st1) by assumption.
      destruct (decide (i < length summaries)) as [Lt|Ge].
      * replace (length summaries - i) with (S (length summaries - S i)) by lia.
        cbn [drop]. lia.
      * replace (length summaries - i) with 0 by lia.
        replace (length summaries - S i) with 0 by lia.
        rewrite !drop_0. unfold requests_for. cbn [List.filter].
        destruct (needs_request st p); cbn [length]; lia.
    + now rewrite S'.
Qed.

Lemma parse_lines_clean (expected_count : nat) (response_text : string) :
  Forall (fun s => truthy s = true /\ trimmed (one_of [dquote; squote]) s)
         (_parse_batch_response response_text expected_count)
  /\ length (_parse_batch_response response_text expected_count)
     <= length (split_on (ascii_of_nat 10) (strip response_text)).
Proof.
  unfold _parse_batch_response. rewrite parse_lines_filter. cbn [app].
  split.
  - apply Forall_forall. intros s Hs.
    apply list_elem_of_filter in Hs as [Ts Hs]. split; [exact Ts|].
    apply list_elem_of_fmap in Hs as (l & -> & _).
    unfold clean_line. apply strip_chars_trimmed.
  - etransitivity; [apply length_filter|].
    rewrite length_map. etransitivity; [apply length_filter|].
    now rewrite length_map.
Qed.

End SummarizerMore.

Section SummarizerExtras.
Import Py GeminiSummarizer.
Open Scope py_scope.

Lemma assign_from_batch_positional (me : self) (summaries : list string)
    (max_words : Z) (projects : list ref) :
  Forall (fun s => truthy s = true) summaries ->
  NoDup projects ->
  forall (i : nat) (st : state),
  exists st',
    assign_from_batch me summaries max_words i projects st = (Returns tt, st')
    /\ forall k p s,
         projects !! k = Some p -> summaries !! (i + k) = Some s ->
         summary (deref st' p) = Some s.
Proof.
  intros Hs. induction projects as [|p rest IH]; intros ND i st.
  - exists st. split; [reflexivity|]. intros k p s H. discriminate.
  - apply NoDup_cons in ND as [Hp ND].
    cbn [assign_from_batch].
    assert (exists st0,
      (match summaries !! i with
       | Some s =>
           if truthy s then set_summary p s
           else
             d <- read p ;;
             s' <- summarize_description me
                     (default EmptyString (description d)) max_words ;;
             set_summary p s'
       | None =>
           d <- read p ;;
           s' <- summarize_description me
                   (default EmptyString (description d)) max_words ;;
           set_summary p s'
       end) st = (Returns tt, st0)
      /\ forall s, summaries !! i = Some s -> summary (deref st0 p) = Some s)
      as (st0 & Step & Here).
    { destruct (summaries !! i) as [s|] eqn:L.
      - rewrite (Forall_lookup_1 _ _ _ _ Hs L).
        destruct (set_summary_spec p s st) as (st0 & E0 & S0 & _).
        exists st0. split; [exact E0|]. now intros ? [= <-].
      - destruct (summarize_one me max_words p st) as (st0 & E0 & _).
        exists st0. split; [exact E0 | discriminate]. }
    destruct (IH ND (S i) st0) as (st' & E' & Pos).
    destruct (assign_from_batch_spec me summaries max_words rest (S i) st0)
      as (st'' & E'' & _ & [_ _ Frame]).
    rewrite E' in E''. injection E'' as <-.
    exists st'. unfold bind at 1. rewrite Step, E'. split; [reflexivity|].
    intros [|k] q s Hq Hsum.
    + injection Hq as <-. rewrite Nat.add_0_r in Hsum.
      unfold deref. rewrite (Frame _ Hp). now apply Here.
    + apply (Pos k); [exact Hq|].
      now replace (S i + k) with (i + S k) by lia.
Qed.

(** X1. [summarize_description] sends one request when the
    description passes the guard and none when it does not; in both
    cases it neither sleeps nor writes to the store, and a description
    that does not pass the guard comes back stripped. *)
Theorem summarize_description_requests_only_long_descriptions :
  forall (me : self) (description : string) (max_words : Z) (st : state),
  exists summary st',
    summarize_description me description max_words st = (Returns summary, st')
    /\ heap st' = heap st
    /\ slept st' = slept st
    /\ calls st' = calls st + (if too_short description then 0 else 1)
    /\ (too_short description = true -> summary = strip description).
Proof.
  intros me description max_words st.
  destruct (summarize_description_cost me description max_words st)
    as (s & st' & E & H & S' & C).
  exists s, st'. repeat split; try assumption.
  intros T. unfold summarize_description in E. rewrite T in E.
  injection E as <- _. now destruct description.
Qed.

(** X2. When the service answers the single-item request with a text,
    the summary is that text stripped of whitespace and then of
    surrounding quote characters: it neither starts nor ends with a
    quote character (and is empty when the reply had nothing else). *)
Theorem summarize_description_cleans_reply :
  forall (me : self) (description t : string) (max_words : Z) (st : state),
    too_short description = false ->
    client me (calls st) (model_name me) (single_prompt description max_words)
    = Responds (Response (Some t)) ->
    summarize_description me description max_words st
    = (Returns (strip_chars [dquote; squote] (strip t)), after_call st)
    /\ trimmed (one_of [dquote; squote])
               (strip_chars [dquote; squote] (strip t)).
Proof.
  intros me description t max_words st G R. split.
  - unfold summarize_description. rewrite G.
    unfold try_except, bind, generate_content. now rewrite R.
  - apply strip_chars_trimmed.
Qed.

(** A reply in quotes, with whitespace around it. *)
Lemma summarize_description_cleans_reply_quoted :
  summarize_description
    (echoing (" " ++ String dquote ("Tracks yield" ++ String dquote nl)))
    "a wallet that tracks yield across chains" 10 fresh
  = (Returns "Tracks yield", after_call fresh).
Proof.
  destruct (summarize_description_cleans_reply
              (echoing (" " ++ String dquote ("Tracks yield" ++ String dquote nl)))
              "a wallet that tracks yield across chains"
              (" " ++ String dquote ("Tracks yield" ++ String dquote nl))
              10%Z fresh eq_refl eq_refl) as [E _].
  exact E.
Defined.

(** X3. Every summary that [_parse_batch_response] returns is not
    empty and neither starts nor ends with a quote character, and there
    are at most as many summaries as lines in the stripped response. *)
Theorem parse_batch_response_summaries_are_clean :
  forall (response_text : string) (expected_count : nat),
    Forall (fun s => truthy s = true /\ trimmed (one_of [dquote; squote]) s)
           (_parse_batch_response response_text expected_count)
    /\ length (_parse_batch_response response_text expected_count)
       <= length (split_on (ascii_of_nat 10) (strip response_text)).
Proof. intros. apply parse_lines_clean. Qed.

(** X4. When the batch request is answered with a text and the
    records are distinct dictionaries, the record at position [k] ends
    with the [k]-th parsed summary, whatever number that line carried. *)
Theorem summarize_projects_assigns_by_position :
  forall (me : self) (projects : list ref) (max_words : Z) (st : state)
         (t : string),
    NoDup projects ->
    client me (calls st) (model_name me) (batch_prompt st projects max_words)
    = Responds (Response (Some t)) ->
    exists st',
      summarize_projects me projects max_words st = (Returns projects, st')
      /\ forall k p s,
           projects !! k = Some p ->
           _parse_batch_response t (length projects) !! k = Some s ->
           summary (deref st' p) = Some s.
Proof.
  intros me projects max_words st t ND R.
  unfold summarize_projects, bind at 1, _build_batch_prompt.
  unfold try_except, bind at 1, generate_content. rewrite R.
  cbn [text_of text]. unfold bind at 1, ret at 1.
  destruct (assign_from_batch_positional me
              (_parse_batch_response t (length projects)) max_words projects
              (Forall_impl _ _ _ (proj1 (parse_lines_clean _ _))
                 (fun s H => proj1 H)) ND 0
              (State (S (calls st)) (slept st) (heap st)))
    as (st' & E & Pos).
  exists st'. unfold bind. rewrite E. split; [reflexivity|]. exact Pos.
Qed.


(** X6. After a batch request answered with a text,
    [summarize_projects] sends single-item requests only for the records
    beyond the parsed summaries whose description passes the guard, and
    it never sleeps between them. *)
Theorem summarize_projects_cost_after_batch_reply :
  forall (me : self) (projects : list ref) (max_words : Z) (st : state)
         (t : string),
    client me (calls st) (model_name me) (batch_prompt st projects max_words)
    = Responds (Response (Some t)) ->
    exists st',
      summarize_projects me projects max_words st = (Returns projects, st')
      /\ calls st'
         = calls st + 1
           + requests_for st
               (drop (length (_parse_batch_response t (length projects)))
                     projects)
      /\ slept st' = slept st.
Proof.
  intros me projects max_words st t R.
  unfold summarize_projects, bind at 1, _build_batch_prompt.
  unfold try_except, bind at 1, generate_content. rewrite R.
  cbn [text_of text]. unfold bind at 1, ret at 1.
  destruct (assign_from_batch_cost me
              (_parse_batch_response t (length projects)) max_words projects
              (Forall_impl _ _ _ (proj1 (parse_lines_clean _ _))
                 (fun s H => proj1 H)) 0
              (State (S (calls st)) (slept st) (heap st)))
    as (st' & E & D & C & S').
  exists st'. unfold bind. rewrite E. split; [reflexivity|].
  rewrite C, S', Nat.sub_0_r.
  rewrite (requests_for_ext st (State (S (calls st)) (slept st) (heap st)))
    by reflexivity.
  cbn. split; [lia | reflexivity].
Qed.

(** X7. The summary that [summarize_description] falls back to when
    the request fails has at most [max_words] words (one word, the
    ellipsis, when [max_words] is 0). *)
Theorem summarize_description_fallback_keeps_word_budget :
  forall (me : self) (description : string) (max_words : nat) (st : state),
    request_fails me description (Z.of_nat max_words) st ->
    exists summary st',
      summarize_description me description (Z.of_nat max_words) st
      = (Returns summary, st')
      /\ length (split summary) <= Nat.max max_words 1.
Proof.
  intros me description max_words st F.
  rewrite (summarize_description_on_failure _ _ _ _ F), truncated_nat.
  eexists _, _. split; [reflexivity|].
  destruct (Nat.leb (length (split description)) max_words) eqn:L.
  - apply Nat.leb_le in L. lia.
  - rewrite split_join_length.
    + rewrite length_take. lia.
    + apply Forall_take, split_words.
    + split; reflexivity.
Qed.

(** The example of C5 has three words. *)
Lemma summarize_description_fallback_three_words :
  exists summary st',
    summarize_description unavailable "alpha beta gamma delta epsilon" 3 fresh
    = (Returns summary, st')
    /\ length (split summary) <= 3.
Proof.
  exact (summarize_description_fallback_keeps_word_budget
           unavailable "alpha beta gamma delta epsilon" 3 fresh
           (conj eq_refl I)).
Defined.

(** Three records, two summaries in the reply: the first two records
    get them in order. *)
Lemma summarize_projects_assigns_two_of_three :
  exists st',
    summarize_projects
      (echoing ("1. Alpha wallet tool" ++ nl ++ "2. Yield tracker"))
      [0; 1; 2] 10 three_projects = (Returns [0; 1; 2], st')
    /\ summary (deref st' 0) = Some "Alpha wallet tool"
    /\ summary (deref st' 1) = Some "Yield tracker".
Proof.
  assert (NoDup [0; 1; 2]) as ND by exact (NoDup_seq 0 3).
  destruct (summarize_projects_assigns_by_position
              (echoing ("1. Alpha wallet tool" ++ nl ++ "2. Yield tracker"))
              [0; 1; 2] 10%Z three_projects
              ("1. Alpha wallet tool" ++ nl ++ "2. Yield tracker") ND eq_refl)
    as (st' & E & Pos).
  exists st'. split; [exact E|]. split.
  - exact (Pos 0 0 "Alpha wallet tool" eq_refl eq_refl).
  - exact (Pos 1 1 "Yield tracker" eq_refl eq_refl).
Defined.


(** Two summaries for three records: one more request, for the third
    record, and no sleep. *)
Lemma summarize_projects_cost_with_two_summaries :
  exists st',
    summarize_projects
      (echoing ("1. Alpha wallet tool" ++ nl ++ "2. Yield tracker"))
      [0; 1; 2] 10 three_projects = (Returns [0; 1; 2], st')
    /\ calls st' = 2 /\ slept st' = 0%Z.
Proof.
  exact (summarize_projects_cost_after_batch_reply
           (echoing ("1. Alpha wallet tool" ++ nl ++ "2. Yield tracker"))
           [0; 1; 2] 10%Z three_projects
           ("1. Alpha wallet tool" ++ nl ++ "2. Yield tracker") eq_refl).
Defined.

End SummarizerExtras.

(* ================================================================= *)
(** ** More on the scraper *)

Section ScraperExtras.
Import Py Web3AlertsScraper.

(** The only error of the sort is that of a comparison. *)
Lemma insert_sorted_raises_TypeError (x : project) (l : list project) (e : exn) :
  insert_sorted recency_of key_lt x l = Raises e -> exn_class e = TypeError.
Proof.
  induction l as [|y l IH]; cbn [insert_sorted]; [discriminate|].
  destruct (recency_of y) as [ky|], (recency_of x) as [kx|]; cbn [key_lt and_then];
    try (now intros [= <-]).
  destruct (recency_lt ky kx); [|discriminate].
  destruct (insert_sorted recency_of key_lt x l) as [s|e']; cbn [and_then];
    [discriminate|].
  intros [= <-]. now apply IH.
Qed.

Lemma sorted_raises_TypeError (l : list project) (e : exn) :
  sorted recency_of key_lt l = Raises e -> exn_class e = TypeError.
Proof.
  induction l as [|x l IH]; cbn [sorted]; [discriminate|].
  destruct (sorted recency_of key_lt l) as [s|e']; cbn [and_then].
  - apply insert_sorted_raises_TypeError.
  - intros [= <-]. now apply IH.
Qed.

Lemma insert_sorted_null (x y : project) (l : list project) :
  days_since_discovery x = Some Null \/ days_since_discovery y = Some Null ->
  exists e, insert_sorted recency_of key_lt x (y :: l) = Raises e.
Proof.
  intros H. cbn [insert_sorted]. unfold recency_of at 1 2.
  destruct H as [-> | ->].
  - destruct (days_since_discovery y) as [[]|]; cbn; eauto.
  - cbn. eauto.
Qed.

(** With a [null] recency and something to compare it with, the sort
    raises. *)
Lemma sorted_null (l : list project) :
  2 <= length l ->
  Exists (fun x => days_since_discovery x = Some Null) l ->
  exists e, sorted recency_of key_lt l = Raises e.
Proof.
  induction l as [|x l IH]; cbn [length]; [lia|]. intros Len Ex.
  cbn [sorted].
  destruct (sorted recency_of key_lt l) as [s|e] eqn:E; cbn [and_then];
    [|eauto].
  pose proof (Permutation_length (sorted_perm _ _ _ _ E)) as Ls.
  destruct s as [|y s]; [cbn in Ls; lia|].
  apply insert_sorted_null.
  apply Exists_cons in Ex as [Nx|Ex]; [now left|]. right.
  destruct l as [|y' [|z l]]; [cbn in Ls; lia| |].
  - cbn in E. injection E as <- <-. now apply Exists_cons in Ex as [N|N%Exists_nil].
  - destruct IH as [e IH]; [cbn; lia | exact Ex | congruence].
Qed.

(** X8. Where no recency is [null], what [get_latest_projects] leaves
    out is never newer than what it returns: the fetched list splits
    into the returned projects and the dropped ones, and every returned
    project is at most as old as every dropped one. *)
Theorem get_latest_projects_drops_only_the_oldest :
  forall (raw : list project) (count : nat),
    Forall not_null raw ->
    exists latest dropped,
      get_latest_projects (Returns raw) (Z.of_nat count) = Returns latest
      /\ Permutation (latest ++ dropped) raw
      /\ forall a b, a ∈ latest -> b ∈ dropped -> no_older a b.
Proof.
  intros raw count N.
  destruct (sorted_not_null raw N) as [all E].
  destruct (sorted_newest_first raw all E) as [P S].
  exists (take count all), (drop count all).
  unfold get_latest_projects. cbn [and_then]. rewrite E. cbn [and_then].
  rewrite slice_to_nat, take_drop. split; [reflexivity|].
  split; [exact P|].
  intros a b Ha Hb.
  apply list_elem_of_lookup in Ha as [i Ha], Hb as [j Hb].
  pose proof (lookup_lt_Some _ _ _ Ha) as Li. rewrite length_take in Li.
  rewrite lookup_take_lt in Ha by lia. rewrite lookup_drop in Hb.
  eapply (StronglySorted_lookup _ all S i (count + j));
    [lia | exact Ha | exact Hb].
Qed.

(** X9. On a list that is already in ascending order of recency
    [get_latest_projects] only truncates, keeping the order of equal
    recencies; so running it on what it has returned changes nothing,
    and where no recency is [null] it does return. *)
Theorem get_latest_projects_keeps_sorted_input :
  (forall (raw : list project) (count : nat),
     StronglySorted no_older raw ->
     get_latest_projects (Returns raw) (Z.of_nat count)
     = Returns (take count raw))
  /\
  (forall (raw latest : list project) (count : nat),
     get_latest_projects (Returns raw) (Z.of_nat count) = Returns latest ->
     get_latest_projects (Returns latest) (Z.of_nat count) = Returns latest)
  /\
  (forall (raw : list project) (count : nat),
     Forall not_null raw ->
     exists latest,
       get_latest_projects (Returns raw) (Z.of_nat count) = Returns latest
       /\ get_latest_projects (Returns latest) (Z.of_nat count)
          = Returns latest).
Proof.
  assert (forall raw count,
            StronglySorted no_older raw ->
            get_latest_projects (Returns raw) (Z.of_nat count)
            = Returns (take count raw)) as Kept.
  { intros raw count S. unfold get_latest_projects. cbn [and_then].
    rewrite (sorted_of_sorted recency_of key_lt raw).
    - cbn [and_then]. now rewrite slice_to_nat.
    - eapply StronglySorted_weaken; [|exact S].
      intros a b. apply no_older_iff. }
  assert (forall raw latest count,
            get_latest_projects (Returns raw) (Z.of_nat count) = Returns latest ->
            get_latest_projects (Returns latest) (Z.of_nat count)
            = Returns latest) as Again.
  { intros raw latest count. unfold get_latest_projects at 1. cbn [and_then].
    destruct (sorted recency_of key_lt raw) as [all|e] eqn:E; cbn [and_then];
      [|discriminate].
    rewrite slice_to_nat. intros [= <-]. rewrite Kept.
    - now rewrite take_take, Nat.min_id.
    - apply StronglySorted_take. now apply (sorted_newest_first raw all). }
  split; [exact Kept|]. split; [exact Again|].
  intros raw count N.
  destruct (sorted_not_null raw N) as [all E].
  exists (take count all).
  assert (get_latest_projects (Returns raw) (Z.of_nat count)
          = Returns (take count all)) as G.
  { unfold get_latest_projects. cbn [and_then]. rewrite E. cbn [and_then].
    now rewrite slice_to_nat. }
  split; [exact G | exact (Again _ _ _ G)].
Qed.

(** X10. With a negative count [-k] the slice counts from the end:
    where no recency is [null], [get_latest_projects] returns all but
    the [k] oldest projects (none when there are at most [k]), still
    newest first. *)
Theorem get_latest_projects_negative_count :
  forall (raw : list project) (k : nat),
    0 < k ->
    Forall not_null raw ->
    exists latest dropped,
      get_latest_projects (Returns raw) (- Z.of_nat k) = Returns latest
      /\ length latest = length raw - k
      /\ Permutation (latest ++ dropped) raw
      /\ forall a b, a ∈ latest -> b ∈ dropped -> no_older a b.
Proof.
  intros raw k Hk N.
  destruct (sorted_not_null raw N) as [all E].
  destruct (sorted_newest_first raw all E) as [P S].
  pose proof (Permutation_length P) as Len.
  exists (take (length raw - k) all), (drop (length raw - k) all).
  unfold get_latest_projects. cbn [and_then]. rewrite E. cbn [and_then].
  unfold slice_to.
  destruct (Z.leb_spec 0 (- Z.of_nat k)); [lia|].
  rewrite Z.opp_involutive, Nat2Z.id, Len, take_drop.
  split; [reflexivity|]. split; [rewrite length_take; lia|].
  split; [exact P|].
  intros a b Ha Hb.
  apply list_elem_of_lookup in Ha as [i Ha], Hb as [j Hb].
  pose proof (lookup_lt_Some _ _ _ Ha) as Li. rewrite length_take in Li.
  rewrite lookup_take_lt in Ha by lia. rewrite lookup_drop in Hb.
  eapply (StronglySorted_lookup _ all S i (length raw - k + j));
    [lia | exact Ha | exact Hb].
Qed.

(** X30. A [null] recency makes [get_latest_projects] raise
    [TypeError] as soon as there is a second project to compare it
    with, whatever the count; a list of at most one project is returned
    as it is, up to the slice. *)
Theorem get_latest_projects_raises_on_null_recency :
  forall (raw : list project) (count : Z),
    (2 <= length raw ->
     Exists (fun x => days_since_discovery x = Some Null) raw ->
     exists e,
       get_latest_projects (Returns raw) count = Raises e
       /\ exn_class e = TypeError)
    /\ (length raw <= 1 ->
        get_latest_projects (Returns raw) count = Returns (slice_to raw count)).
Proof.
  intros raw count. split.
  - intros Len Ex. destruct (sorted_null raw Len Ex) as [e E].
    exists e. unfold get_latest_projects. cbn [and_then]. rewrite E.
    split; [reflexivity|]. now apply (sorted_raises_TypeError raw).
  - intros Len. unfold get_latest_projects. cbn [and_then].
    destruct raw as [|x [|y raw]]; [reflexivity | reflexivity |].
    cbn [length] in Len. lia.
Qed.

Lemma set_cookies_cons (c : cookie) (rest : list cookie) (n v : string)
    (jar : gmap string string) :
  cookie_name c = Some n -> cookie_value c = Some v ->
  set_cookies (c :: rest) jar = set_cookies rest (<[n := v]> jar).
Proof.
  intros Hn Hv. cbn [set_cookies]. unfold bind, lift. now rewrite Hn, Hv.
Qed.



(** X12. At the first entry without a name or without a value
    [load_cookies] raises [KeyError]; the entries before it have been
    set, the entries after it are not looked at. *)
Theorem load_cookies_stops_at_incomplete_entry :
  forall (before after : list cookie) (c : cookie) (jar : gmap string string),
    Forall (fun c => is_Some (cookie_name c) /\ is_Some (cookie_value c))
           before ->
    cookie_name c = None \/ cookie_value c = None ->
    exists e jar',
      load_cookies (Returns (before ++ c :: after)%list) jar = (Raises e, jar')
      /\ exn_class e = KeyError
      /\ load_cookies (Returns before) jar = (Returns tt, jar').
Proof.
  intros before after c jar H Hc.
  assert (forall l j, load_cookies (Returns l) j = set_cookies l j) as U
    by reflexivity.
  rewrite !U. clear U.
  revert jar. induction H as [|b before [[n Hn] [v Hv]] Hb IH]; intros jar.
  - cbn [app set_cookies]. unfold bind at 1 2, lift.
    destruct (cookie_name c) as [n|] eqn:N.
    + destruct Hc as [Hc|Hc]; [discriminate|]. rewrite Hc. cbn.
      eexists _, _. repeat split.
    + cbn. eexists _, _. repeat split.
  - destruct (IH (<[n := v]> jar)) as (e & jar' & E & K & E').
    exists e, jar'. cbn [app].
    rewrite !(set_cookies_cons _ _ n v) by assumption. auto.
Qed.

(** The two newest of the four sample projects, and the two left out. *)
Lemma get_latest_projects_drops_two_of_fetched :
  exists latest dropped,
    get_latest_projects (Returns fetched) 2 = Returns latest
    /\ Permutation (latest ++ dropped) fetched
    /\ forall a b, a ∈ latest -> b ∈ dropped -> no_older a b.
Proof.
  apply (get_latest_projects_drops_only_the_oldest fetched 2).
  repeat constructor; discriminate.
Defined.

(** The sample list in order, truncated to two. *)
Lemma get_latest_projects_of_sorted_sample :
  get_latest_projects
    (Returns [Project (Some "A") None None (Some (Num 0)) None;
              Project (Some "B") None None (Some (Num 2)) None;
              Project (Some "D") None None None None]) 2
  = Returns [Project (Some "A") None None (Some (Num 0)) None;
             Project (Some "B") None None (Some (Num 2)) None].
Proof.
  apply (proj1 get_latest_projects_keeps_sorted_input
           [Project (Some "A") None None (Some (Num 0)) None;
            Project (Some "B") None None (Some (Num 2)) None;
            Project (Some "D") None None None None] 2%nat).
  repeat constructor; cbn; lia.
Defined.

(** A count of -1 on the four fetched projects leaves three. *)
Lemma get_latest_projects_minus_one :
  exists latest dropped,
    get_latest_projects (Returns fetched) (-1) = Returns latest
    /\ length latest = 3
    /\ Permutation (latest ++ dropped) fetched
    /\ forall a b, a ∈ latest -> b ∈ dropped -> no_older a b.
Proof.
  apply (get_latest_projects_negative_count fetched 1 (Nat.lt_0_succ 0)).
  repeat constructor; discriminate.
Defined.

(** A [null] next to a number of days. *)
Lemma get_latest_projects_raises_on_with_null :
  exists e,
    get_latest_projects (Returns with_null) 10 = Raises e
    /\ exn_class e = TypeError.
Proof.
  apply (proj1 (get_latest_projects_raises_on_null_recency with_null 10)).
  - cbn. lia.
  - apply Exists_cons_tl, Exists_cons_hd. reflexivity.
Defined.


Lemma load_cookies_exported_then_incomplete :
  exists e jar',
    load_cookies
      (Returns (exported ++ [incomplete; Cookie (Some "a") (Some "b")])%list)
                 ∅ = (Raises e, jar')
    /\ exn_class e = KeyError
    /\ load_cookies (Returns exported) ∅ = (Returns tt, jar').
Proof.
  apply (load_cookies_stops_at_incomplete_entry
           exported [Cookie (Some "a") (Some "b")] incomplete ∅).
  - repeat constructor; eauto.
  - now right.
Defined.

(** X13. When the site answers the request for new projects with a
    status from 400 to 599, [get_new_projects] raises the error of
    [raise_for_status], whose message starts with the status, and
    [get_latest_projects] raises the same error: the body of the
    response is not decoded. *)
Theorem get_latest_projects_raises_on_error_status :
  forall (me : scraper) (web : request -> outcome response) (count : Z)
         (answer : response),
    web (Request (base_url me ++ "/api/new_projects") [] (headers me)
                 (cookies me)) = Returns answer ->
    (400 <= status_code answer < 600)%Z ->
    exists e,
      get_new_projects me web None = Raises e
      /\ get_latest_projects (get_new_projects me web None) count = Raises e
      /\ exn_class e = RequestsError
      /\ startswith (exn_msg e) (str_of_Z (status_code answer)) = true.
Proof.
  intros me web count answer W S.
  unfold get_latest_projects, get_new_projects. rewrite W. cbn [and_then].
  unfold raise_for_status.
  destruct ((400 <=? status_code answer)%Z && (status_code answer <? 500)%Z)
    eqn:C4.
  { eexists. cbn [and_then]. repeat split. cbn [exn_msg].
    apply prefix_app. }
  destruct ((500 <=? status_code answer)%Z && (status_code answer <? 600)%Z)
    eqn:C5.
  { eexists. cbn [and_then]. repeat split. cbn [exn_msg].
    apply prefix_app. }
  apply andb_false_iff in C4, C5. lia.
Qed.

Lemma get_latest_projects_refused :
  exists e,
    get_new_projects browsing refusing None = Raises e
    /\ get_latest_projects (get_new_projects browsing refusing None) 10 = Raises e
    /\ exn_class e = RequestsError
    /\ startswith (exn_msg e) "403" = true.
Proof.
  apply (get_latest_projects_raises_on_error_status browsing refusing 10
           (Response 403 "Forbidden" "https://web3alerts.app/api/new_projects"
                     (Returns fetched))).
  - reflexivity.
  - cbn. lia.
Defined.

End ScraperExtras.

(* ================================================================= *)
(** ** More on the publisher *)

Section PublisherMore.
Import Py TypefullyPublisher.
Open Scope py_scope.
Variable py_repr : value -> string.

(** What the lookup of the identifier does, case by case. *)
Lemma _get_social_set_id_spec (me : self) (net : network) (st : state) :
  exists id st' gets,
    _get_social_set_id me net st = (Returns id, st')
    /\ sent st' = (sent st ++ gets)%list
    /\ (if py_truthy (social_set_id st)
        then gets = [] /\ id = social_set_id st /\ st' = st
        else gets = [Get (base_url me ++ "/social-sets")])
    /\ py_truthy (social_set_id st') = py_truthy id
    /\ (py_truthy id = true -> social_set_id st' = id).
Proof.
  unfold _get_social_set_id, bind at 1, cached_id.
  destruct (py_truthy (social_set_id st)) eqn:C.
  { exists (social_set_id st), st, []. rewrite app_nil_r. unfold ret.
    repeat split; auto. }
  assert (forall st1 : state,
            social_set_id st1 = social_set_id st ->
            sent st1 = (sent st ++ [Get (base_url me ++ "/social-sets")])%list ->
            exists id st' gets,
              (Returns VNone, st1) = (Returns id, st')
              /\ sent st' = (sent st ++ gets)%list
              /\ gets = [Get (base_url me ++ "/social-sets")]
              /\ py_truthy (social_set_id st') = py_truthy id
              /\ (py_truthy id = true -> social_set_id st' = id)) as Unresolved.
  { intros st1 E1 E2. exists VNone, st1, [Get (base_url me ++ "/social-sets")].
    rewrite E1, C. repeat split; auto. discriminate. }
  unfold try_except, bind at 1, http_get.
  destruct (requests_get net _) as [r|e]; [|unfold ret; now apply Unresolved].
  destruct (status_code r =? 200)%Z; [|unfold ret; now apply Unresolved].
  unfold bind at 1, lift at 1.
  destruct (json r) as [data|e]; [|unfold ret; now apply Unresolved].
  unfold bind at 1, lift at 1.
  destruct (dict_get data "results" (VList [])) as [results|e];
    [|unfold ret; now apply Unresolved].
  destruct (py_truthy results); [|unfold ret; now apply Unresolved].
  unfold bind at 1, lift at 1.
  destruct (getitem_0 results) as [first|e]; [|unfold ret; now apply Unresolved].
  unfold bind at 1, lift at 1.
  destruct (dict_get first "id" VNone) as [id|e];
    [|unfold ret; now apply Unresolved].
  unfold bind, cache_id, ret. cbn.
  exists id, (State id (sent st ++ [Get (base_url me ++ "/social-sets")])), 
    [Get (base_url me ++ "/social-sets")].
  repeat split; auto.
Qed.

Lemma handler_handled (e : exn) (st : state) :
  (match exn_class e with
   | RequestsTimeout => ret (failure "Typefully API timeout")
   | RequestsError => ret (failure ("Request failed: " ++ exn_msg e))
   | _ => ret (failure ("Unexpected error: " ++ exn_msg e))
   end : M state PublishResult) st = (Returns (handled e), st).
Proof. unfold handled. destruct e as [[] msg]; reflexivity. Qed.

Lemma handled_failure (e : exn) : success (handled e) = false.
Proof. unfold handled. destruct e as [[] msg]; reflexivity. Qed.

Lemma publish_submitted (me : self) (net : network) (clock : Z)
    (content : string) (st st1 : state) (id : value) :
  truthy (strip content) = true ->
  _get_social_set_id me net st = (Returns id, st1) ->
  py_truthy id = true ->
  publish py_repr me net clock content st
  = (Returns (fst (submitted py_repr me net clock content id)),
     State (social_set_id st1)
           (sent st1 ++ snd (submitted py_repr me net clock content id))).
Proof.
  intros C E T. unfold publish, submitted.
  rewrite C, (strip_truthy _ C). cbn [negb orb].
  unfold bind at 1. rewrite E, T. cbn [negb].
  unfold try_except, bind at 1, lift at 1.
  destruct (choose_publish_at me clock) as [at_|e].
  2:{ rewrite handler_handled. cbn [fst snd]. rewrite app_nil_r.
      now destruct st1. }
  unfold bind at 1, http_post. cbn [fst snd].
  destruct (requests_post net _ _) as [answer|e];
    [|now rewrite handler_handled].
  destruct ((status_code answer =? 200)%Z || (status_code answer =? 201)%Z);
    [|reflexivity].
  unfold bind at 1, lift at 1.
  destruct (json answer) as [data|e]; [|now rewrite handler_handled].
  unfold bind at 1, lift at 1.
  destruct (dict_get data "id" (VStr "unknown")) as [d|e];
    [|now rewrite handler_handled].
  reflexivity.
Qed.

Lemma publish_unresolved (me : self) (net : network) (clock : Z)
    (content : string) (st st1 : state) (id : value) :
  truthy (strip content) = true ->
  _get_social_set_id me net st = (Returns id, st1) ->
  py_truthy id = false ->
  publish py_repr me net clock content st
  = (Returns (failure "Failed to get social set ID"), st1).
Proof.
  intros C E T. unfold publish.
  rewrite C, (strip_truthy _ C). cbn [negb orb].
  unfold bind at 1. rewrite E, T. reflexivity.
Qed.


Lemma submitted_shape (me : self) (net : network) (clock : Z)
    (content : string) (id : value) :
  (snd (submitted py_repr me net clock content id) = []
   /\ success (fst (submitted py_repr me net clock content id)) = false)
  \/ exists at_,
       choose_publish_at me clock = Returns at_
       /\ snd (submitted py_repr me net clock content id)
          = [Post (base_url me ++ "/social-sets/" ++ py_str py_repr id ++ "/drafts")
                  (Payload true [content] at_)].
Proof.
  unfold submitted. destruct (choose_publish_at me clock) as [at_|e].
  - right. now exists at_.
  - left. split; [reflexivity | apply handled_failure].
Qed.

End PublisherMore.

Section PublisherCallsMore.
Import Py TypefullyPublisher.
Open Scope py_scope.

(** The calls of one run of [publish]. *)
Lemma publish_calls :
  forall (py_repr : value -> string) (me : self) (net : network) (clock : Z)
         (content : string) (st : state),
  exists r st' gets posts,
    publish py_repr me net clock content st = (Returns r, st')
    /\ sent st' = (sent st ++ gets ++ posts)%list
    /\ (gets = [] \/ gets = [Get (base_url me ++ "/social-sets")])
    /\ (posts = []
        \/ exists at_,
             posts = [Post (base_url me ++ "/social-sets/"
                            ++ py_str py_repr (social_set_id st') ++ "/drafts")
                           (Payload true [content] at_)])
    /\ (py_truthy (social_set_id st) = true -> gets = [])
    /\ (success r = true -> posts <> []).
Proof.
  intros py_repr me net clock content st.
  destruct (truthy (strip content)) eqn:B.
  2:{ exists (failure "Content is empty"), st, [], []. rewrite !app_nil_r.
      split; [|repeat split; auto; discriminate].
      unfold publish. rewrite B. cbn [negb]. now rewrite orb_true_r. }
  destruct (_get_social_set_id_spec me net st)
    as (id & st1 & gets & E & S1 & C & _ & K).
  assert (gets = [] \/ gets = [Get (base_url me ++ "/social-sets")]) as G.
  { destruct (py_truthy (social_set_id st)); [left; apply C | now right]. }
  assert (py_truthy (social_set_id st) = true -> gets = []) as G'.
  { intros H. rewrite H in C. apply C. }
  destruct (py_truthy id) eqn:T.
  - rewrite (publish_submitted py_repr me net clock content st st1 id B E T).
    eexists _, _, gets, _. split; [reflexivity|]. cbn [sent social_set_id].
    rewrite S1, <- app_assoc. split; [reflexivity|]. split; [exact G|].
    rewrite (K eq_refl).
    destruct (submitted_shape py_repr me net clock content id)
      as [[N F]|(at_ & _ & N)]; rewrite N.
    + split; [now left|]. split; [exact G'|]. rewrite F. discriminate.
    + split; [right; now exists at_|]. split; [exact G'|]. discriminate.
  - rewrite (publish_unresolved py_repr me net clock content st st1 id B E T).
    exists (failure "Failed to get social set ID"), st1, gets, [].
    rewrite app_nil_r. repeat split; auto; discriminate.
Qed.

End PublisherCallsMore.

Section PublisherExtras.
Import Py TypefullyPublisher.
Open Scope py_scope.

(** X14. Once [_get_social_set_id] has returned an identifier that is
    true, it is kept: a later lookup returns it without a request,
    whatever the service would answer, and a later [publish] sends no
    request for the social sets. *)
Theorem get_social_set_id_is_looked_up_once :
  forall (me : self) (net : network) (st st1 : state) (id : value),
    _get_social_set_id me net st = (Returns id, st1) ->
    py_truthy id = true ->
    forall net' : network,
      _get_social_set_id me net' st1 = (Returns id, st1)
      /\ forall (py_repr : value -> string) (clock : Z) (content : string),
         exists r st2 new,
           publish py_repr me net' clock content st1 = (Returns r, st2)
           /\ sent st2 = (sent st1 ++ new)%list
           /\ social_set_id st2 = id
           /\ forall u, Get u ∉ new.
Proof.
  intros me net st st1 id E T net'.
  destruct (_get_social_set_id_spec me net st)
    as (id0 & st0 & gets & E0 & _ & _ & _ & K).
  rewrite E in E0. injection E0 as <- <-. specialize (K T).
  destruct (_get_social_set_id_spec me net' st1)
    as (id1 & st2 & gets1 & E1 & _ & C1 & _).
  rewrite K, T in C1. destruct C1 as (-> & -> & ->).
  split; [exact E1|]. intros py_repr clock content.
  destruct (truthy (strip content)) eqn:B.
  - rewrite (publish_submitted py_repr me net' clock content st1 st1 id B E1 T).
    eexists _, _, _. split; [reflexivity|]. cbn [sent social_set_id].
    split; [reflexivity|]. split; [exact K|]. intros u H.
    destruct (submitted_shape py_repr me net' clock content id)
      as [[N _]|(at_ & _ & N)]; rewrite N in H.
    + inversion H.
    + apply list_elem_of_singleton in H. discriminate.
  - exists (failure "Content is empty"), st1, []. rewrite app_nil_r.
    split; [|repeat split; auto; intros u H; inversion H].
    unfold publish. rewrite B. cbn [negb]. now rewrite orb_true_r.
Qed.

Lemma get_social_set_id_looked_up_once_4711 :
  _get_social_set_id immediate no_social_sets
    (State (VInt 4711) [Get "https://api.typefully.com/v2/social-sets"])
  = (Returns (VInt 4711),
     State (VInt 4711) [Get "https://api.typefully.com/v2/social-sets"]).
Proof.
  apply (get_social_set_id_is_looked_up_once immediate (answering accepted)
           initial _ (VInt 4711)); reflexivity.
Defined.

(** X15. One run of [publish] sends at most one request for the social
    sets followed by at most one draft request, the latter to the
    address of the identifier now kept and with the content as its only
    post; nothing is sent twice.  With an identifier kept from before
    no lookup is sent, and a success is never reported without a draft
    request. *)
Theorem publish_sends_at_most_one_get_and_one_post :
  forall (py_repr : value -> string) (me : self) (net : network) (clock : Z)
         (content : string) (st : state),
  exists r st' gets posts,
    publish py_repr me net clock content st = (Returns r, st')
    /\ sent st' = (sent st ++ gets ++ posts)%list
    /\ (gets = [] \/ gets = [Get (base_url me ++ "/social-sets")])
    /\ (posts = []
        \/ exists at_,
             posts = [Post (base_url me ++ "/social-sets/"
                            ++ py_str py_repr (social_set_id st') ++ "/drafts")
                           (Payload true [content] at_)])
    /\ (py_truthy (social_set_id st) = true -> gets = [])
    /\ (success r = true -> posts <> []).
Proof. exact publish_calls. Qed.


(** X16. When the draft request is answered with status 200 or 201
    and an object, [publish] returns a success whose [draft_id] is the
    ['id'] of the object as a string, ["unknown"] when the object has
    none, whose [url] is the draft page of that identifier and whose
    [scheduled_time] is the publish time that was sent. *)
Theorem publish_success_reports_draft :
  forall (py_repr : value -> string) (me : self) (net : network) (clock : Z)
         (content : string) (st : state) (answer : response)
         (members : list (string * value)),
    submission_answered py_repr me net clock content st answer ->
    status_code answer = 200%Z \/ status_code answer = 201%Z ->
    json answer = Returns (VDict members) ->
    exists at_ st',
      choose_publish_at me clock = Returns at_
      /\ publish py_repr me net clock content st
         = (Returns
              (let draft_id :=
                 py_str py_repr (default (VStr "unknown") (assoc "id" members)) in
               Result true (Some ("https://typefully.com/drafts/" ++ draft_id))
                      (Some draft_id) (Some at_) None),
            st').
Proof.
  intros py_repr me net clock content st answer members
         (C & id & st1 & at_ & E & T & A & P) S J.
  rewrite (publish_submitted py_repr me net clock content st st1 id C E T).
  unfold submitted. rewrite A, P, J. cbn [fst snd dict_get].
  assert ((status_code answer =? 200)%Z || (status_code answer =? 201)%Z = true)
    as ->.
  { destruct S as [-> | ->]; reflexivity. }
  exists at_. eexists. split; reflexivity.
Qed.

Lemma publish_success_reports_draft_d1 :
  exists st',
    publish repr_of_id immediate (answering accepted) 0 "gm" initial
    = (Returns (Result true (Some "https://typefully.com/drafts/d1") (Some "d1")
                       (Some "now") None), st').
Proof.
  destruct (publish_success_reports_draft repr_of_id immediate
              (answering accepted) 0 "gm" initial accepted
              [("id", VStr "d1")])
    as (at_ & st' & A & E).
  - split; [reflexivity|].
    exists (VInt 4711),
      (State (VInt 4711) [Get "https://api.typefully.com/v2/social-sets"]), "now".
    repeat split; reflexivity.
  - now right.
  - reflexivity.
  - exists st'. rewrite E. injection A as <-. reflexivity.
Defined.

(** X17. When the draft request is answered with status 200 or 201
    but the body is unreadable, [publish] reports a failure although
    the request was sent: for a body that does not decode the message
    is that of the handler for the decoding error, for a body that is
    not an object it starts with ["Unexpected error: "]. *)
Theorem publish_accepted_but_unreadable :
  forall (py_repr : value -> string) (me : self) (net : network) (clock : Z)
         (content : string) (st : state) (answer : response),
    submission_answered py_repr me net clock content st answer ->
    status_code answer = 200%Z \/ status_code answer = 201%Z ->
    (forall members, json answer <> Returns (VDict members)) ->
    exists msg st' before url body,
      publish py_repr me net clock content st = (Returns (failure msg), st')
      /\ sent st' = (before ++ [Post url body])%list
      /\ (forall e, json answer = Raises e ->
            msg = match exn_class e with
                  | RequestsTimeout => "Typefully API timeout"
                  | RequestsError => "Request failed: " ++ exn_msg e
                  | _ => "Unexpected error: " ++ exn_msg e
                  end)
      /\ (forall data, json answer = Returns data ->
            startswith msg "Unexpected error: " = true).
Proof.
  intros py_repr me net clock content st answer
         (C & id & st1 & at_ & E & T & A & P) S J.
  rewrite (publish_submitted py_repr me net clock content st st1 id C E T).
  unfold submitted. rewrite A, P. cbn [fst snd].
  assert ((status_code answer =? 200)%Z || (status_code answer =? 201)%Z = true)
    as ->.
  { destruct S as [-> | ->]; reflexivity. }
  destruct (json answer) as [data|e] eqn:Js.
  - destruct data as [| | | | |items|members];
      try (eexists _, _, _, _, _; split; [reflexivity|];
           cbn [sent]; split; [reflexivity|]; split;
           [discriminate | intros ? _; reflexivity]).
    now destruct (J members).
  - destruct e as [cls m].
    destruct cls;
      (eexists _, _, _, _, _; split; [reflexivity|];
       cbn [sent]; split; [reflexivity|]; split;
       [intros ? [= <-]; reflexivity | discriminate]).
Qed.

Lemma publish_accepted_but_garbled :
  exists st',
    publish repr_of_id immediate (answering garbled) 0 "gm" initial
    = (Returns (failure "Request failed: Expecting value: line 1 column 1 (char 0)"),
       st').
Proof.
  destruct (publish_accepted_but_unreadable repr_of_id immediate
              (answering garbled) 0 "gm" initial garbled)
    as (msg & st' & before & url & body & E & _ & M & _).
  - split; [reflexivity|].
    exists (VInt 4711),
      (State (VInt 4711) [Get "https://api.typefully.com/v2/social-sets"]), "now".
    repeat split; reflexivity.
  - now left.
  - discriminate.
  - exists st'. rewrite E, (M _ eq_refl). reflexivity.
Defined.

(** X18. When the draft request itself raises, [publish] returns a
    failure whose message depends on the error: ["Typefully API
    timeout"] for a timeout, ["Request failed: "] and the error for any
    other error of [requests], ["Unexpected error: "] and the error
    otherwise.  The request counts as sent, once, and the identifier
    stays. *)
Theorem publish_transport_error_message :
  forall (py_repr : value -> string) (me : self) (net : network) (clock : Z)
         (content : string) (st st1 : state) (id : value) (at_ : string)
         (e : exn),
    truthy (strip content) = true ->
    _get_social_set_id me net st = (Returns id, st1) ->
    py_truthy id = true ->
    choose_publish_at me clock = Returns at_ ->
    requests_post net
      (base_url me ++ "/social-sets/" ++ py_str py_repr id ++ "/drafts")
      (Payload true [content] at_) = Raises e ->
    exists st',
      publish py_repr me net clock content st
      = (Returns (failure
                    match exn_class e with
                    | RequestsTimeout => "Typefully API timeout"
                    | RequestsError => "Request failed: " ++ exn_msg e
                    | _ => "Unexpected error: " ++ exn_msg e
                    end), st')
      /\ social_set_id st' = id
      /\ sent st'
         = (sent st1
            ++ [Post (base_url me ++ "/social-sets/" ++ py_str py_repr id
                      ++ "/drafts")
                     (Payload true [content] at_)])%list.
Proof.
  intros py_repr me net clock content st st1 id at_ e C E T A P.
  rewrite (publish_submitted py_repr me net clock content st st1 id C E T).
  unfold submitted. rewrite A, P. cbn [fst snd].
  destruct (_get_social_set_id_spec me net st)
    as (id0 & st0 & gets & E0 & _ & _ & _ & K).
  rewrite E in E0. injection E0 as <- <-.
  eexists. split.
  { unfold handled. destruct e as [[] m]; reflexivity. }
  cbn [social_set_id sent]. split; [apply (K T) | reflexivity].
Qed.

Lemma publish_timeout_message :
  exists st',
    publish repr_of_id immediate timing_out 0 "gm" initial
    = (Returns (failure "Typefully API timeout"), st')
    /\ social_set_id st' = VInt 4711
    /\ length (sent st') = 2.
Proof.
  edestruct (publish_transport_error_message repr_of_id immediate timing_out
               0 "gm" initial
               (State (VInt 4711) [Get "https://api.typefully.com/v2/social-sets"])
               (VInt 4711) "now"
               (Exn RequestsTimeout "Read timed out."))
    as (st' & E & I & S); try reflexivity.
  exists st'. rewrite E, I, S. repeat split.
Defined.

(** X19. With no identifier kept, when the request for the social sets
    raises, is answered with a status other than 200, with a body that
    does not decode or with an object without ['results'] or with none
    in it, [publish] returns the failure ["Failed to get social set
    ID"]; the lookup is the only request sent and no identifier is
    kept. *)
Theorem publish_without_social_set :
  forall (py_repr : value -> string) (me : self) (net : network) (clock : Z)
         (content : string) (st : state),
    truthy (strip content) = true ->
    py_truthy (social_set_id st) = false ->
    match requests_get net (base_url me ++ "/social-sets") with
    | Raises _ => True
    | Returns answer =>
        status_code answer <> 200%Z
        \/ (exists e, json answer = Raises e)
        \/ (exists members,
              json answer = Returns (VDict members)
              /\ (assoc "results" members = None
                  \/ assoc "results" members = Some (VList [])))
    end ->
    publish py_repr me net clock content st
    = (Returns (failure "Failed to get social set ID"),
       State (social_set_id st)
             (sent st ++ [Get (base_url me ++ "/social-sets")])).
Proof.
  intros py_repr me net clock content st C F G.
  apply (publish_unresolved py_repr me net clock content st _ VNone C);
    [|reflexivity].
  unfold _get_social_set_id, bind at 1, cached_id. rewrite F.
  unfold try_except, bind at 1, http_get.
  destruct (requests_get net _) as [answer|e]; [|reflexivity].
  destruct (status_code answer =? 200)%Z eqn:S; [|reflexivity].
  apply Z.eqb_eq in S.
  destruct G as [G|[[e G]|(members & J & [R|R])]]; [contradiction| | |].
  - unfold bind at 1, lift at 1. now rewrite G.
  - unfold bind at 1, lift at 1. rewrite J.
    unfold bind at 1, lift at 1. cbn [dict_get]. now rewrite R.
  - unfold bind at 1, lift at 1. rewrite J.
    unfold bind at 1, lift at 1. cbn [dict_get]. now rewrite R.
Qed.

Lemma publish_without_social_set_empty_account :
  publish repr_of_id immediate no_social_sets 0 "gm" initial
  = (Returns (failure "Failed to get social set ID"),
     State VNone [Get "https://api.typefully.com/v2/social-sets"]).
Proof.
  apply (publish_without_social_set repr_of_id immediate no_social_sets 0 "gm"
           initial); [reflexivity | reflexivity |].
  right. right. eexists. split; [reflexivity|]. now right.
Defined.

(** X20. In scheduled mode a delay of more than 999999999 days makes
    the computation of the publish time raise; [publish] then returns
    a failure that starts with ["Unexpected error: "] and sends no
    draft request. *)
Theorem publish_time_out_of_range :
  forall (py_repr : value -> string) (me : self) (net : network) (clock : Z)
         (content : string) (st st1 : state) (id : value),
    truthy (strip content) = true ->
    _get_social_set_id me net st = (Returns id, st1) ->
    py_truthy id = true ->
    publish_now me = false ->
    (999999999 < Z.abs (hours_delay me * 3600 / 86400))%Z ->
    exists msg,
      publish py_repr me net clock content st
      = (Returns (failure ("Unexpected error: " ++ msg)), st1).
Proof.
  intros py_repr me net clock content st st1 id C E T N O.
  rewrite (publish_submitted py_repr me net clock content st st1 id C E T).
  assert (exists e,
            choose_publish_at me clock = Raises e
            /\ (exn_class e = OverflowError \/ exn_class e = ValueError))
    as (e & A & Cls).
  { unfold choose_publish_at, _calculate_publish_time. rewrite N.
    destruct (Datetime.now SGT clock) as [now_sgt|e] eqn:Now.
    - cbn [and_then]. unfold Datetime.timedelta_new.
      replace (hours_delay me * 3600 + 0 * 60 + 0 + 0 / 1000000)%Z
        with (hours_delay me * 3600)%Z
        by (change (0 / 1000000)%Z with 0%Z; lia).
      replace (0 + hours_delay me * 3600 / 86400)%Z
        with (hours_delay me * 3600 / 86400)%Z by lia.
      apply Z.gtb_lt in O. rewrite O. cbn [and_then]. eauto.
    - exists e. split; [reflexivity|].
      revert Now. unfold Datetime.now, Datetime.utcfromtimestamp.
      destruct (Datetime._ord2ymd _) as [[y m] d].
      destruct ((Datetime.MINYEAR <=? y)%Z && (y <=? Datetime.MAXYEAR)%Z).
      + cbn [and_then]. unfold Datetime.datetime_add.
        unfold Datetime.timedelta_new at 1.
        match goal with |- context [if ?b then _ else _] => destruct b end.
        { cbn [and_then]. intros [= <-]. now left. }
        cbn [and_then]. unfold Datetime.timedelta_add, Datetime.timedelta_new.
        match goal with |- context [if ?b then _ else _] => destruct b end.
        { cbn [and_then]. intros [= <-]. now left. }
        cbn [and_then].
        match goal with |- context [if ?b then _ else _] => destruct b end.
        { destruct (Datetime._ord2ymd _) as [[y' m'] d']. discriminate. }
        intros [= <-]. now left.
      + cbn [and_then]. intros [= <-]. now right. }
  unfold submitted. rewrite A. cbn [fst snd]. rewrite app_nil_r.
  exists (exn_msg e). unfold handled.
  destruct st1. cbn [social_set_id sent].
  destruct Cls as [-> | ->]; reflexivity.
Qed.

Lemma publish_time_out_of_range_far_future :
  exists msg,
    publish repr_of_id far_future (answering accepted) upload_time "gm" initial
    = (Returns (failure ("Unexpected error: " ++ msg)),
       State (VInt 4711) [Get "https://api.typefully.com/v2/social-sets"]).
Proof.
  apply (publish_time_out_of_range repr_of_id far_future (answering accepted)
           upload_time "gm" initial
           (State (VInt 4711) [Get "https://api.typefully.com/v2/social-sets"])
           (VInt 4711)); reflexivity.
Defined.

End PublisherExtras.

(* ================================================================= *)
(** ** The configuration and the run of the bot *)

Section ConfigExtras.
Import Py Config.

Lemma validate_config_cases (cfg : config) (exists_ : string -> bool) :
  validate_config cfg exists_
  = (map (fun error => "Config Error: " ++ error)
       ((if unusable (TYPEFULLY_API_KEY cfg)
         then ["TYPEFULLY_API_KEY is missing or invalid"] else [])
        ++ (if unusable (GEMINI_API_KEY cfg)
            then ["GEMINI_API_KEY is missing or invalid"] else [])
        ++ (if exists_ (COOKIES_PATH cfg) then []
            else [("Cookies file not found: " ++ COOKIES_PATH cfg)%string]))%list,
     Nat.eqb (failed_checks cfg exists_) 0).
Proof.
  unfold validate_config, failed_checks.
  destruct (unusable (TYPEFULLY_API_KEY cfg)),
           (unusable (GEMINI_API_KEY cfg)),
           (exists_ (COOKIES_PATH cfg)); reflexivity.
Qed.

Lemma validate_config_ok (cfg : config) (exists_ : string -> bool) :
  snd (validate_config cfg exists_) = true <-> failed_checks cfg exists_ = 0.
Proof.
  rewrite validate_config_cases. cbn [snd]. apply Nat.eqb_eq.
Qed.

(** X21. [validate_config] returns [True] exactly when both keys are
    usable (set, not empty, not starting with ["your_"]) and the cookie
    file exists; it prints nothing exactly in that case, and otherwise
    one line starting with ["Config Error: "] for every check that
    fails, not only for the first. *)
Theorem validate_config_reports_every_failed_check :
  forall (cfg : config) (exists_ : string -> bool),
    let printed := fst (validate_config cfg exists_) in
    let ok := snd (validate_config cfg exists_) in
    (ok = true <->
       unusable (TYPEFULLY_API_KEY cfg) = false
       /\ unusable (GEMINI_API_KEY cfg) = false
       /\ exists_ (COOKIES_PATH cfg) = true)
    /\ (ok = true <-> printed = [])
    /\ length printed = failed_checks cfg exists_
    /\ Forall (fun line => startswith line "Config Error: " = true) printed
    /\ (ok = true ->
        exists typefully_key gemini_key,
          TYPEFULLY_API_KEY cfg = Some typefully_key
          /\ GEMINI_API_KEY cfg = Some gemini_key
          /\ truthy typefully_key = true /\ truthy gemini_key = true).
Proof.
  intros cfg exists_ printed ok. subst printed ok.
  rewrite validate_config_cases. cbn [fst snd]. unfold failed_checks.
  destruct (unusable (TYPEFULLY_API_KEY cfg)) eqn:T,
           (unusable (GEMINI_API_KEY cfg)) eqn:G,
           (exists_ (COOKIES_PATH cfg)) eqn:P; cbn;
    (split; [split; [try discriminate; auto | intros (? & ? & ?); auto; discriminate]|]);
    (split; [split; [try discriminate; auto | auto; discriminate]|]);
    (split; [reflexivity|]);
    (split; [repeat constructor|]); try discriminate.
  intros _.
  destruct (TYPEFULLY_API_KEY cfg) as [tk|]; [|discriminate].
  destruct (GEMINI_API_KEY cfg) as [gk|]; [|discriminate].
  exists tk, gk. cbn in T, G.
  apply orb_false_iff in T as [T _], G as [G _].
  apply negb_false_iff in T, G. auto.
Qed.

End ConfigExtras.

Section BotFacts.
Import Py Config Bot.

Lemma deref_allocate_from (projects : list project) :
  forall (start : nat) (h : gmap nat project),
    (forall i, start <= i ->
       h !! i = (map_seq start projects : gmap nat project) !! i) ->
    map (fun p => default empty_project (h !! p)) (seq start (length projects))
    = projects.
Proof.
  induction projects as [|x rest IH]; intros start h H; [reflexivity|].
  cbn [length seq map]. f_equal.
  - rewrite H by lia. cbn [map_seq]. now rewrite lookup_insert_eq.
  - apply IH. intros i Hi. rewrite H by lia. cbn [map_seq].
    apply lookup_insert_ne. lia.
Qed.

Lemma deref_allocate (projects : list project) :
  map (GeminiSummarizer.deref (allocate projects)) (seq 0 (length projects))
  = projects.
Proof. now apply (deref_allocate_from projects 0). Qed.

Lemma summarized_records (me : GeminiSummarizer.self) (projects : list project)
    (max_words : Z) :
  exists st,
    GeminiSummarizer.summarize_projects me (seq 0 (length projects)) max_words
      (allocate projects)
    = (Returns (seq 0 (length projects)), st)
    /\ Forall2 (fun d d' => same_but_summary d d' /\ is_Some (summary d'))
               projects
               (map (GeminiSummarizer.deref st) (seq 0 (length projects))).
Proof.
  destruct (summarize_projects_spec me (seq 0 (length projects)) max_words
              (allocate projects)) as (st & E & S' & [F _ _]).
  exists st. split; [exact E|].
  rewrite <- (deref_allocate projects) at 1.
  clear E. induction (seq 0 (length projects)) as [|p rest IH];
    cbn [map]; constructor.
  - split; [apply F | apply S'; now left].
  - apply IH. intros q Hq. apply S'. now right.
Qed.

Lemma run_bot_stage (env : environment) (cfg : config) (publish_now : bool) :
  stage env cfg publish_now (run_bot env cfg publish_now).
Proof.
  unfold run_bot.
  destruct (snd (validate_config cfg (path_exists env))) eqn:V; cbn [negb].
  2:{ apply stage_config. intros H. apply validate_config_ok in H. congruence. }
  apply validate_config_ok in V.
  destruct (Web3AlertsScraper.__init__ _ _) as [scraper|e] eqn:I.
  2:{ now apply (stage_cookies _ _ _ e). }
  destruct (Web3AlertsScraper.get_latest_projects _ _) as [latest|e] eqn:L.
  2:{ now apply (stage_fetch _ _ _ scraper e). }
  destruct latest as [|x rest] eqn:Lt.
  { now apply (stage_nothing _ _ _ scraper). }
  rewrite <- Lt in *. 
  destruct (summarized_records
              (GeminiSummarizer.__init__ (genai env) (GEMINI_API_KEY cfg)
                 (GEMINI_MODEL cfg)) latest (SUMMARY_MAX_WORDS cfg))
    as (st & E & F).
  rewrite E.
  destruct (publish_returns_shape (py_repr env)
              (TypefullyPublisher.__init__
                 (default EmptyString (TYPEFULLY_API_KEY cfg))
                 (TYPEFULLY_HOURS_DELAY cfg) (PUBLISH_HOUR_SGT cfg) publish_now)
              (typefully env) (clock env)
              (Main.format_tweet (wall_clock env)
                 (map (GeminiSummarizer.deref st) (seq 0 (length latest))))
              TypefullyPublisher.initial) as (r & pst & P & _).
  rewrite P.
  assert (latest <> []) as N by (rewrite Lt; discriminate).
  pose proof (stage_publish env cfg publish_now scraper latest _ st r pst
                V I L N E eq_refl F P) as S.
  destruct (TypefullyPublisher.success r); exact S.
Qed.

End BotFacts.

Section PublisherSuccess.
Import Py TypefullyPublisher.
Open Scope py_scope.

(** A success means that the draft request was sent and answered with
    status 200 or 201 and an object. *)
Lemma publish_success_answered (py_repr : value -> string) (me : self)
    (net : network) (clock : Z) (content : string) (st st' : state)
    (r : PublishResult) :
  publish py_repr me net clock content st = (Returns r, st') ->
  success r = true ->
  exists before at_ answer members,
    sent st'
    = (before ++ [Post (base_url me ++ "/social-sets/"
                        ++ py_str py_repr (social_set_id st') ++ "/drafts")
                       (Payload true [content] at_)])%list
    /\ choose_publish_at me clock = Returns at_
    /\ requests_post net
         (base_url me ++ "/social-sets/" ++ py_str py_repr (social_set_id st')
          ++ "/drafts")
         (Payload true [content] at_) = Returns answer
    /\ (status_code answer = 200%Z \/ status_code answer = 201%Z)
    /\ json answer = Returns (VDict members).
Proof.
  intros P S.
  destruct (truthy (strip content)) eqn:B.
  2:{ revert P. unfold publish. rewrite B. cbn [negb]. rewrite orb_true_r.
      intros [= <- <-]. discriminate. }
  destruct (_get_social_set_id_spec me net st)
    as (id & st1 & gets & E & _ & _ & _ & K).
  destruct (py_truthy id) eqn:T.
  2:{ rewrite (publish_unresolved py_repr me net clock content st st1 id B E T)
        in P. injection P as <- <-. discriminate. }
  rewrite (publish_submitted py_repr me net clock content st st1 id B E T) in P.
  injection P as <- <-. cbn [sent social_set_id]. rewrite (K eq_refl).
  revert S. unfold submitted.
  destruct (choose_publish_at me clock) as [at_|e];
    [|cbn [fst]; now rewrite handled_failure].
  cbn [fst snd].
  destruct (requests_post net _ _) as [answer|e] eqn:Q;
    [|now rewrite handled_failure].
  destruct ((status_code answer =? 200)%Z || (status_code answer =? 201)%Z)
    eqn:OK; [|discriminate].
  destruct (json answer) as [data|e] eqn:J; [|now rewrite handled_failure].
  destruct data as [| | | | | |members];
    try (cbn [dict_get]; now rewrite handled_failure).
  intros _. exists (sent st1), at_, answer, members.
  repeat split; auto.
  apply orb_true_iff in OK as [H|H]; apply Z.eqb_eq in H; auto.
Qed.

End PublisherSuccess.

Section BotExtras.
Import Py Config Bot.



(** X23. When the cookie file cannot be loaded, or the request for new
    projects raises, [run_bot] exits with status 1; the summarizer is
    not called and nothing is sent to the publisher.  (The same holds
    when the configuration is rejected first.) *)
Theorem run_bot_fetch_failure_exits_untouched :
  forall (env : environment) (cfg : config) (publish_now : bool),
    match Web3AlertsScraper.__init__ (files env) (COOKIES_PATH cfg) with
    | Raises _ => True
    | Returns scraper =>
        exists e,
          Web3AlertsScraper.get_new_projects scraper (web env) None = Raises e
    end ->
    run_bot env cfg publish_now
    = Run (Exited 1) GeminiSummarizer.fresh TypefullyPublisher.initial.
Proof.
  intros env cfg publish_now H. unfold run_bot.
  destruct (negb (snd (validate_config cfg (path_exists env)))); [reflexivity|].
  destruct (Web3AlertsScraper.__init__ _ _) as [scraper|e]; [|reflexivity].
  destruct H as [e H]. now rewrite H.
Qed.

Lemma run_bot_site_down :
  run_bot site_down configured false
  = Run (Exited 1) GeminiSummarizer.fresh TypefullyPublisher.initial.
Proof.
  apply run_bot_fetch_failure_exits_untouched. vm_compute. eauto.
Defined.

(** X24. When the site returns no project, or [PROJECTS_COUNT] is 0
    and no recency is [null] (so that the sort returns), [run_bot]
    returns normally without having called the summarizer or the
    publisher. *)
Theorem run_bot_without_projects_completes :
  forall (env : environment) (cfg : config) (publish_now : bool)
         (scraper : Web3AlertsScraper.scraper) (raw : list project),
    snd (validate_config cfg (path_exists env)) = true ->
    Web3AlertsScraper.__init__ (files env) (COOKIES_PATH cfg) = Returns scraper ->
    Web3AlertsScraper.get_new_projects scraper (web env) None = Returns raw ->
    raw = []
    \/ (PROJECTS_COUNT cfg = 0%Z /\ Forall Web3AlertsScraper.not_null raw) ->
    run_bot env cfg publish_now
    = Run Completed GeminiSummarizer.fresh TypefullyPublisher.initial.
Proof.
  intros env cfg publish_now scraper raw V I G H. unfold run_bot.
  rewrite V, I, G. cbn [negb].
  assert (Web3AlertsScraper.get_latest_projects (Returns raw) (PROJECTS_COUNT cfg)
          = Returns []) as ->; [|reflexivity].
  unfold Web3AlertsScraper.get_latest_projects. cbn [and_then].
  destruct H as [-> | [-> N]].
  - cbn [sorted and_then]. f_equal. unfold slice_to. cbn [length].
    destruct (0 <=? PROJECTS_COUNT cfg)%Z; apply take_nil.
  - destruct (sorted_not_null raw N) as [all ->]. reflexivity.
Qed.

Lemma run_bot_with_count_zero :
  run_bot all_up
    (Config "credentials/cookies.json" (Some "tf-key") 6 17 0 80 10
            (Some "g-key") "gemini-2.5-flash-lite" "INFO" "11:00") true
  = Run Completed GeminiSummarizer.fresh TypefullyPublisher.initial.
Proof.
  apply (run_bot_without_projects_completes all_up _ true
           Web3AlertsScraper.browsing Web3AlertsScraper.fetched);
    [reflexivity | vm_compute; reflexivity | reflexivity |].
  right. split; [reflexivity | repeat constructor; discriminate].
Defined.

(** X25. [run_bot] either returns or exits with status 1.  It returns
    only when no project was found, nothing having been called, or
    when the last request sent was the draft request and the service
    answered it with status 200 or 201 and an object. *)
Theorem run_bot_completes_only_after_accepted_draft :
  forall (env : environment) (cfg : config) (publish_now : bool),
    let r := run_bot env cfg publish_now in
    (how r = Completed \/ how r = Exited 1)
    /\ (how r = Completed ->
        r = Run Completed GeminiSummarizer.fresh TypefullyPublisher.initial
        \/ exists before url body answer members,
             TypefullyPublisher.sent (typefully_state r)
             = (before ++ [TypefullyPublisher.Post url body])%list
             /\ TypefullyPublisher.requests_post (typefully env) url body
                = Returns answer
             /\ (TypefullyPublisher.status_code answer = 200%Z
                 \/ TypefullyPublisher.status_code answer = 201%Z)
             /\ TypefullyPublisher.json answer
                = Returns (TypefullyPublisher.VDict members)).
Proof.
  intros env cfg publish_now r. subst r.
  destruct (run_bot_stage env cfg publish_now)
    as [ | | | |scraper latest records st result pst V I L N E R F P];
    cbn [how typefully_state]; try (split; [auto | auto; discriminate]).
  destruct (TypefullyPublisher.success result) eqn:S; cbn [how typefully_state].
  2:{ split; [auto | discriminate]. }
  split; [auto|]. intros _. right.
  destruct (publish_success_answered _ _ _ _ _ _ _ _ P S)
    as (before & at_ & answer & members & Sent & _ & Q & OK & J).
  eauto 10.
Qed.

(** X26. Every draft request that a run of [run_bot] sends carries,
    enabled and as its only post, the message that [format_tweet] makes
    of the projects returned by [get_latest_projects], in that order,
    each with a summary added and its other keys unchanged; in instant
    mode the publish time is ["now"]. *)
Theorem run_bot_posts_formatted_summaries :
  forall (env : environment) (cfg : config) (publish_now : bool)
         (url : string) (body : TypefullyPublisher.payload),
    TypefullyPublisher.Post url body
      ∈ TypefullyPublisher.sent (typefully_state (run_bot env cfg publish_now)) ->
    exists scraper latest records,
      Web3AlertsScraper.__init__ (files env) (COOKIES_PATH cfg) = Returns scraper
      /\ Web3AlertsScraper.get_latest_projects
           (Web3AlertsScraper.get_new_projects scraper (web env) None)
           (PROJECTS_COUNT cfg) = Returns latest
      /\ Forall2 (fun d d' => same_but_summary d d' /\ is_Some (summary d'))
                 latest records
      /\ TypefullyPublisher.x_enabled body = true
      /\ TypefullyPublisher.x_posts body
         = [Main.format_tweet (wall_clock env) records]
      /\ (publish_now = true -> TypefullyPublisher.publish_at body = "now").
Proof.
  intros env cfg publish_now url body.
  destruct (run_bot_stage env cfg publish_now)
    as [ | | | |scraper latest records st result pst V I L N E R F P];
    cbn [typefully_state TypefullyPublisher.sent TypefullyPublisher.initial];
    try (intros Hin; now inversion Hin).
  intros H. exists scraper, latest, records.
  split; [exact I|]. split; [exact L|]. split; [exact F|].
  destruct (publish_calls (py_repr env)
              (TypefullyPublisher.__init__
                 (default EmptyString (TYPEFULLY_API_KEY cfg))
                 (TYPEFULLY_HOURS_DELAY cfg) (PUBLISH_HOUR_SGT cfg) publish_now)
              (typefully env) (clock env)
              (Main.format_tweet (wall_clock env) records)
              TypefullyPublisher.initial)
    as (r' & st' & gets & posts & P' & Sent & G & Ps & _).
  rewrite P in P'. injection P' as <- <-.
  rewrite Sent in H. cbn [TypefullyPublisher.sent TypefullyPublisher.initial app] in H.
  apply elem_of_app in H as [H|H].
  { destruct G as [-> | ->]; [inversion H|].
    apply list_elem_of_singleton in H. discriminate. }
  destruct Ps as [-> | [at_ ->]]; [inversion H|].
  apply list_elem_of_singleton in H. injection H as -> ->.
  cbn [TypefullyPublisher.x_enabled TypefullyPublisher.x_posts
       TypefullyPublisher.publish_at].
  split; [reflexivity|]. split; [reflexivity|]. intros ->.
  destruct (publish_sends_chosen_time _ _ _ _ _ _ _ _ P) as [(new & Sn & Hn) _].
  cbn [TypefullyPublisher.sent TypefullyPublisher.initial app] in Sn.
  rewrite Sent in Sn. cbn [TypefullyPublisher.sent TypefullyPublisher.initial app] in Sn.
  subst new.
  destruct (Hn _ _ ltac:(apply in_or_app; right; left; reflexivity)) as [_ C].
  cbn in C. now injection C as <-.
Qed.

Lemma run_bot_posts_sample :
  exists records,
    Forall2 (fun d d' => same_but_summary d d' /\ is_Some (summary d'))
      [Project (Some "A") None None (Some (Num 0)) None;
       Project (Some "B") None None (Some (Num 2)) None;
       Project (Some "C") None None (Some (Num 9)) None;
       Project (Some "D") None None None None]
      records
    /\ Main.format_tweet (wall_clock all_up) records
       = "Early web3 projects (Dec 28)" ++ nl ++ nl ++ "1 A: first summary"
         ++ nl ++ nl ++ "2 B: second summary" ++ nl ++ nl ++ "3 C"
         ++ nl ++ nl ++ "4 D".
Proof.
  destruct (run_bot_posts_formatted_summaries all_up configured true
              "https://api.typefully.com/v2/social-sets/4711/drafts"
              (TypefullyPublisher.Payload true
                 ["Early web3 projects (Dec 28)" ++ nl ++ nl
                  ++ "1 A: first summary" ++ nl ++ nl ++ "2 B: second summary"
                  ++ nl ++ nl ++ "3 C" ++ nl ++ nl ++ "4 D"] "now"))
    as (scraper & latest & records & I & L & F & _ & X & _).
  - vm_compute. apply list_elem_of_further, list_elem_of_here.
  - injection I as <-. vm_compute in L. injection L as <-.
    exists records. split; [exact F|].
    cbn [TypefullyPublisher.x_posts] in X. injection X as X. symmetry. exact X.
Defined.


End BotExtras.

Section PipelineExtras.
Import Py TypefullyPublisher.
Open Scope py_scope.

Lemma error_message_first (py_repr : value -> string) (answer : response) :
  first_char (error_message py_repr answer) = Some "T"%char.
Proof.
  unfold error_message.
  destruct (json answer) as [error_data|e]; cbn [and_then]; [|reflexivity].
  destruct (py_in "error" error_data) as [[]|e]; cbn [and_then];
    [|destruct (py_in "message" error_data) as [[]|e']; cbn [and_then];
      [|destruct (py_in "detail" error_data) as [[]|e'']; cbn [and_then]|]|];
    try reflexivity;
    match goal with
    | |- context [getitem ?d ?k] => destruct (getitem d k); reflexivity
    end.
Qed.

Lemma handled_first (e : exn) :
  exists msg c, handled e = failure msg /\ first_char msg = Some c
                /\ c <> "C"%char.
Proof.
  unfold handled. destruct e as [[] m]; eexists _, _;
    (split; [reflexivity|]); (split; [reflexivity | discriminate]).
Qed.

Lemma format_tweet_visible (local_now : Datetime.datetime)
    (projects : list project) :
  truthy (strip (Main.format_tweet local_now projects)) = true.
Proof.
  unfold Main.format_tweet. rewrite append_entries_imap.
  cbn [app join String.concat].
  destruct (imap _ projects); now apply strip_of_visible.
Qed.

(** X27. The message of [format_tweet] is never blank, so [publish]
    never answers it with the failure ["Content is empty"], whatever
    the projects and whatever the service does. *)
Theorem publish_formatted_tweet_is_never_empty :
  forall (py_repr : value -> string) (me : self) (net : network) (clock : Z)
         (local_now : Datetime.datetime) (projects : list project) (st : state),
    truthy (strip (Main.format_tweet local_now projects)) = true
    /\ exists r st',
         publish py_repr me net clock (Main.format_tweet local_now projects) st
         = (Returns r, st')
         /\ error_msg r <> Some "Content is empty".
Proof.
  intros py_repr me net clock local_now projects st.
  pose proof (format_tweet_visible local_now projects) as B.
  split; [exact B|].
  set (content := Main.format_tweet local_now projects) in *.
  destruct (_get_social_set_id_spec me net st) as (id & st1 & gets & E & _).
  destruct (py_truthy id) eqn:T.
  2:{ rewrite (publish_unresolved py_repr me net clock content st st1 id B E T).
      eexists _, _. split; [reflexivity | discriminate]. }
  rewrite (publish_submitted py_repr me net clock content st st1 id B E T).
  eexists _, _. split; [reflexivity|].
  assert (forall e, error_msg (handled e) <> Some "Content is empty") as Hd.
  { intros e. destruct (handled_first e) as (msg & c & -> & F & N).
    cbn [error_msg failure]. intros [= ->]. cbn in F. congruence. }
  unfold submitted.
  destruct (choose_publish_at me clock) as [at_|e]; cbn [fst]; [|apply Hd].
  destruct (requests_post net _ _) as [answer|e]; [|apply Hd].
  destruct ((status_code answer =? 200)%Z || (status_code answer =? 201)%Z).
  - destruct (json answer) as [data|e]; [|apply Hd].
    destruct (dict_get data "id" (VStr "unknown")) as [d|e]; [|apply Hd].
    discriminate.
  - cbn [error_msg failure]. intros [= H].
    pose proof (error_message_first py_repr answer) as F.
    rewrite H in F. discriminate.
Qed.

End PipelineExtras.

(* ================================================================= *)
(** ** What a run costs *)

Section SummarizerBudget.
Import Py GeminiSummarizer.
Open Scope py_scope.

Lemma requests_for_le (st : state) (projects : list ref) :
  requests_for st projects <= length projects.
Proof. unfold requests_for. apply List.filter_length_le. Qed.

(** What one run of [summarize_projects] costs, in either case. *)
Lemma summarize_projects_cost (me : self) (projects : list ref)
    (max_words : Z) (st : state) :
  exists st' k,
    summarize_projects me projects max_words st = (Returns projects, st')
    /\ calls st' = calls st + 1 + requests_for st (drop k projects)
    /\ (slept st' = slept st
        \/ slept st'
           = (slept st + RATE_LIMIT_DELAY * Z.of_nat (length projects - 1))%Z).
Proof.
  destruct (client me (calls st) (model_name me)
              (batch_prompt st projects max_words)) as [[[t|]]|e] eqn:R.
  - unfold summarize_projects, bind at 1, _build_batch_prompt.
    unfold try_except, bind at 1, generate_content. rewrite R.
    cbn [text_of text]. unfold bind at 1, ret at 1.
    destruct (assign_from_batch_cost me
                (_parse_batch_response t (length projects)) max_words projects
                (Forall_impl _ _ _ (proj1 (parse_lines_clean _ _))
                   (fun s H => proj1 H)) 0
                (State (S (calls st)) (slept st) (heap st)))
      as (st' & E & D & C & S').
    exists st', (length (_parse_batch_response t (length projects)) - 0).
    unfold bind. rewrite E. split; [reflexivity|].
    rewrite C, S'.
    rewrite (requests_for_ext st (State (S (calls st)) (slept st) (heap st)))
      by reflexivity.
    cbn. split; [lia | now left].
  - assert (batch_fails me projects max_words st) as F
      by (unfold batch_fails; now rewrite R).
    rewrite (summarize_projects_on_failure _ _ _ _ F).
    destruct (assign_individually_cost me max_words projects 0 (after_call st))
      as (st' & E & D & C & S').
    exists st', 0. unfold bind. rewrite E. split; [reflexivity|].
    rewrite C, S', drop_0.
    rewrite (requests_for_ext st (after_call st)) by reflexivity.
    cbn. split; [lia | now right].
  - assert (batch_fails me projects max_words st) as F
      by (unfold batch_fails; now rewrite R).
    rewrite (summarize_projects_on_failure _ _ _ _ F).
    destruct (assign_individually_cost me max_words projects 0 (after_call st))
      as (st' & E & D & C & S').
    exists st', 0. unfold bind. rewrite E. split; [reflexivity|].
    rewrite C, S', drop_0.
    rewrite (requests_for_ext st (after_call st)) by reflexivity.
    cbn. split; [lia | now right].
Qed.

(** X28. One run of [summarize_projects] sends at least one request
    and at most one more than there are projects, and sleeps at most
    [RATE_LIMIT_DELAY] times the number of projects less one, whatever
    the service answers. *)
Theorem summarize_projects_request_budget :
  forall (me : self) (projects : list ref) (max_words : Z) (st : state),
  exists st',
    summarize_projects me projects max_words st = (Returns projects, st')
    /\ calls st < calls st' <= calls st + 1 + length projects
    /\ (slept st <= slept st'
        <= slept st + RATE_LIMIT_DELAY * Z.of_nat (length projects - 1))%Z.
Proof.
  intros me projects max_words st.
  destruct (summarize_projects_cost me projects max_words st)
    as (st' & k & E & C & S').
  exists st'. split; [exact E|].
  pose proof (requests_for_le st (drop k projects)) as L.
  rewrite length_drop in L. split; [lia|].
  unfold RATE_LIMIT_DELAY in *. destruct S' as [-> | ->]; lia.
Qed.

End SummarizerBudget.

Section BotBudget.
Import Py Config Bot.

(** X29. With [PROJECTS_COUNT] set to [count], a run of [run_bot]
    sends at most [1 + count] requests to the summarizing service,
    sleeps at most [RATE_LIMIT_DELAY * (count - 1)] seconds, and sends
    at most two requests to the publishing service. *)
Theorem run_bot_request_budget :
  forall (env : environment) (cfg : config) (publish_now : bool) (count : nat),
    PROJECTS_COUNT cfg = Z.of_nat count ->
    let r := run_bot env cfg publish_now in
    GeminiSummarizer.calls (gemini r) <= 1 + count
    /\ (0 <= GeminiSummarizer.slept (gemini r)
        <= GeminiSummarizer.RATE_LIMIT_DELAY * Z.of_nat (count - 1))%Z
    /\ length (TypefullyPublisher.sent (typefully_state r)) <= 2.
Proof.
  intros env cfg publish_now count Hc r. subst r.
  destruct (run_bot_stage env cfg publish_now)
    as [ | | | |scraper latest records st result pst V I L N E R F P];
    cbn [gemini typefully_state GeminiSummarizer.fresh GeminiSummarizer.calls
         GeminiSummarizer.slept TypefullyPublisher.initial
         TypefullyPublisher.sent length];
    unfold GeminiSummarizer.RATE_LIMIT_DELAY; try lia.
  assert (length latest <= count) as Len.
  { revert L. unfold Web3AlertsScraper.get_latest_projects.
    destruct (Web3AlertsScraper.get_new_projects _ _ _) as [raw|e];
      [|discriminate].
    cbn [and_then].
    destruct (sorted Web3AlertsScraper.recency_of Web3AlertsScraper.key_lt raw)
      as [all|e]; [|discriminate].
    cbn [and_then]. rewrite Hc, slice_to_nat. intros [= <-].
    rewrite length_take. lia. }
  destruct (summarize_projects_cost
              (GeminiSummarizer.__init__ (genai env) (GEMINI_API_KEY cfg)
                 (GEMINI_MODEL cfg))
              (seq 0 (length latest)) (SUMMARY_MAX_WORDS cfg) (allocate latest))
    as (st' & k & E' & C & S').
  rewrite E in E'. injection E' as <-.
  pose proof (requests_for_le (allocate latest) (drop k (seq 0 (length latest))))
    as Lr.
  rewrite length_drop, length_seq in Lr. rewrite length_seq in S'.
  cbn [allocate GeminiSummarizer.calls GeminiSummarizer.slept] in C, S'.
  destruct (publish_calls (py_repr env)
              (TypefullyPublisher.__init__
                 (default EmptyString (TYPEFULLY_API_KEY cfg))
                 (TYPEFULLY_HOURS_DELAY cfg) (PUBLISH_HOUR_SGT cfg) publish_now)
              (typefully env) (clock env)
              (Main.format_tweet (wall_clock env) records)
              TypefullyPublisher.initial)
    as (r' & pst' & gets & posts & P' & Sent & G & Ps & _).
  rewrite P in P'. injection P' as <- <-.
  assert (length (TypefullyPublisher.sent pst) <= 2) as Ls.
  { rewrite Sent. cbn [TypefullyPublisher.sent TypefullyPublisher.initial app].
    rewrite length_app.
    destruct G as [-> | ->], Ps as [-> | [at_ ->]]; cbn; lia. }
  destruct (TypefullyPublisher.success result);
    cbn [gemini typefully_state];
    unfold GeminiSummarizer.RATE_LIMIT_DELAY, GeminiSummarizer.ref in *;
    (split; [lia|]); (split; [|exact Ls]);
    destruct S' as [-> | ->]; lia.
Qed.

Lemma run_bot_request_budget_of_ten :
  GeminiSummarizer.calls (gemini (run_bot all_up configured true)) <= 11
  /\ (0 <= GeminiSummarizer.slept (gemini (run_bot all_up configured true))
      <= 36)%Z
  /\ length (TypefullyPublisher.sent
               (typefully_state (run_bot all_up configured true))) <= 2.
Proof.
  exact (run_bot_request_budget all_up configured true 10 eq_refl).
Defined.

End BotBudget.
